(** * elegant_print.py: a shallow embedding of the document rendering pipeline

    The development follows [codex/skills/elegant-print/scripts/elegant_print.py].
    Python dictionaries are stdpp [gmap]s, Python integers are [Z], Python
    [str] values are Rocq strings (a sequence of 8-bit characters, read as
    the UTF-8 encoding of the text; the character classes [\d] and [\s] and
    the methods [lower], [strip] and [isdigit] are modelled on their ASCII
    range).  What the script delegates to libraries (BeautifulSoup queries,
    urllib, requests, PIL, pypdf, tectonic) enters as Section variables or
    as fields of the records that describe a parsed node. *)

From Stdlib Require Import ZArith Ascii String List Bool Lia.
From Stdlib Require Import DecimalString.
From stdpp Require Import gmap strings list fin_maps.

Local Open Scope Z_scope.
Set Warnings "-register-all".

(** ** Python string primitives *)

Module Py.

Definition LF : string := String (ascii_of_nat 10) EmptyString.

(** [bool(s)] for a string: the empty string is falsy. *)
Definition truthy (s : string) : bool :=
  match s with EmptyString => false | String _ _ => true end.

(** [''.join(l)] *)
Definition join (l : list string) : string :=
  fold_right String.append EmptyString l.

(** Character classes, on the ASCII range. *)
Definition is_digit (c : ascii) : bool :=
  let n := nat_of_ascii c in (48 <=? n)%nat && (n <=? 57)%nat.

Definition is_space (c : ascii) : bool :=
  let n := nat_of_ascii c in
  ((9 <=? n)%nat && (n <=? 13)%nat) || ((28 <=? n)%nat && (n <=? 32)%nat).

Definition lower_char (c : ascii) : ascii :=
  let n := nat_of_ascii c in
  if (65 <=? n)%nat && (n <=? 90)%nat then ascii_of_nat (n + 32) else c.

Fixpoint map_chars (f : ascii → ascii) (s : string) : string :=
  match s with
  | EmptyString => EmptyString
  | String c r => String (f c) (map_chars f r)
  end.

(** [s.lower()] *)
Definition lower (s : string) : string := map_chars lower_char s.

Fixpoint take_while (p : ascii → bool) (s : string) : string :=
  match s with
  | EmptyString => EmptyString
  | String c r => if p c then String c (take_while p r) else EmptyString
  end.

Fixpoint drop_while (p : ascii → bool) (s : string) : string :=
  match s with
  | EmptyString => EmptyString
  | String c r => if p c then drop_while p r else s
  end.

(** [s.lstrip()], [s.rstrip()], [s.strip()] and [s.strip(chars)] *)
Definition lstrip (s : string) : string := drop_while is_space s.
Definition rstrip (s : string) : string :=
  String.rev (drop_while is_space (String.rev s)).
Definition strip (s : string) : string := rstrip (lstrip s).

Definition strip_chars (p : ascii → bool) (s : string) : string :=
  String.rev (drop_while p (String.rev (drop_while p s))).

(** The remainder of [s] after the prefix [p], when [s] starts with it. *)
Fixpoint strip_prefix (p s : string) : option string :=
  match p with
  | EmptyString => Some s
  | String a p' =>
      match s with
      | EmptyString => None
      | String b s' => if Ascii.eqb a b then strip_prefix p' s' else None
      end
  end.

(** [s.startswith(p)] *)
Definition startswith (p s : string) : bool :=
  match strip_prefix p s with Some _ => true | None => false end.

(** [sub in s] *)
Fixpoint contains (sub s : string) : bool :=
  startswith sub s ||
  match s with
  | EmptyString => false
  | String _ r => contains sub r
  end.

(** [s.endswith(p)] *)
Definition endswith (p s : string) : bool :=
  startswith (String.rev p) (String.rev s).

(** [s.split(sep, 1)] for a one-character separator: the part before the
    first separator and, when there is one, the part after it. *)
Fixpoint split_once (sep : ascii) (s : string) : string * option string :=
  match s with
  | EmptyString => (EmptyString, None)
  | String c r =>
      if Ascii.eqb c sep then (EmptyString, Some r)
      else let '(a, b) := split_once sep r in (String c a, b)
  end.

(** [re.sub] of [\s+] by one space: [in_ws] tells that the run of white space
    being read has already been replaced. *)
Fixpoint squeeze_ws (in_ws : bool) (s : string) : string :=
  match s with
  | EmptyString => EmptyString
  | String c r =>
      if is_space c then
        if in_ws then squeeze_ws true r else String " " (squeeze_ws true r)
      else String c (squeeze_ws false r)
  end.

(** [collapse_ws] of the script: runs of white space become one space,
    then [strip()]. *)
Definition collapse_ws (s : string) : string := strip (squeeze_ws false s).

(** [re.search] of [\d+] in [s]: the first maximal run of digits.  On
    text whose digits are the ASCII ones this is what [re] finds; [\d]
    also matches the decimal digits of other scripts, which are not
    modelled. *)
Definition search_digits (s : string) : option string :=
  match drop_while (λ c, negb (is_digit c)) s with
  | EmptyString => None
  | String c r => Some (take_while is_digit (String c r))
  end.

(** [int(s)] for a string of ASCII digits.  [int] raises [ValueError]
    for a string of more digits than [sys.get_int_max_str_digits()]
    (4300 unless configured, never less than 640); the failure is not
    modelled, so the value is that of [int] up to that length. *)
Definition int_of_digits (s : string) : Z :=
  fold_left (λ acc c, 10 * acc + (Z.of_nat (nat_of_ascii c) - 48))
            (list_ascii_of_string s) 0.

(** [s.isdigit()] on ASCII text.  [str.isdigit] also holds for digit
    characters outside ASCII (a superscript two, for one), which are not
    modelled. *)
Definition isdigit (s : string) : bool :=
  truthy s && forallb is_digit (list_ascii_of_string s).

(** [s.replace(old, new)] for a non-empty [old]: occurrences are replaced
    from the left and do not overlap; [skip] counts the characters of the
    occurrence just replaced that are still to be passed over. *)
Fixpoint replace_go (old new : string) (skip : nat) (s : string) : string :=
  match s with
  | EmptyString => EmptyString
  | String c r =>
      match skip with
      | S k => replace_go old new k r
      | O =>
          if startswith old s
          then new +:+ replace_go old new (String.length old - 1) r
          else String c (replace_go old new O r)
      end
  end.

Definition replace (old new s : string) : string := replace_go old new O s.

(** [re.search] of [footnote(?:-anchor)?-(\d+)] in [s]: the digits of the
    leftmost match.  At one position the optional group is tried first and
    given up when the rest does not match. *)
Definition digits1 (s : string) : option string :=
  let d := take_while is_digit s in
  if truthy d then Some d else None.

Definition match_footnote_here (s : string) : option string :=
  match strip_prefix "footnote" s with
  | None => None
  | Some r =>
      let with_anchor :=
        match strip_prefix "-anchor-" r with
        | Some t => digits1 t
        | None => None
        end in
      match with_anchor with
      | Some d => Some d
      | None =>
          match strip_prefix "-" r with
          | Some t => digits1 t
          | None => None
          end
      end
  end.

Fixpoint search_footnote_number (s : string) : option string :=
  match match_footnote_here s with
  | Some d => Some d
  | None =>
      match s with
      | EmptyString => None
      | String _ r => search_footnote_number r
      end
  end.

(** [re.match] of a bracketed number, white space and the rest of the
    line (pattern [^\[(\d+)\]\s*] followed by a group of any characters):
    groups 1 and 2; the dot stops at a line feed. *)
Definition match_bracket_label (s : string) : option (string * string) :=
  match strip_prefix "[" s with
  | None => None
  | Some r =>
      match digits1 r with
      | None => None
      | Some d =>
          match strip_prefix "]" (drop_while is_digit r) with
          | None => None
          | Some t =>
              Some (d, take_while (λ c, negb (Ascii.eqb c (ascii_of_nat 10)))
                                  (drop_while is_space t))
          end
      end
  end.

(** [re.sub] deleting a leading [^\[(\d+)\]\s*] *)
Definition sub_bracket_label (s : string) : string :=
  match strip_prefix "[" s with
  | None => s
  | Some r =>
      match digits1 r with
      | None => s
      | Some _ =>
          match strip_prefix "]" (drop_while is_digit r) with
          | None => s
          | Some t => drop_while is_space t
          end
      end
  end.

(** The UTF-8 encoding of a code point, for the non-ASCII characters the
    script names by their escapes. *)
Definition utf8 (cp : N) : string :=
  let b (n : N) := ascii_of_N n in
  let cont (n : N) := b (128 + N.land n 63)%N in
  if (cp <? 128)%N then String (b cp) EmptyString
  else if (cp <? 2048)%N then
    String (b (192 + N.shiftr cp 6)%N) (String (cont cp) EmptyString)
  else if (cp <? 65536)%N then
    String (b (224 + N.shiftr cp 12)%N)
      (String (cont (N.shiftr cp 6)) (String (cont cp) EmptyString))
  else
    String (b (240 + N.shiftr cp 18)%N)
      (String (cont (N.shiftr cp 12))
         (String (cont (N.shiftr cp 6)) (String (cont cp) EmptyString))).
(** [s.replace(old, new, 1)]: the first occurrence only. *)
Fixpoint replace_first (old new s : string) : string :=
  match strip_prefix old s with
  | Some rest => new +:+ rest
  | None =>
      match s with
      | EmptyString => EmptyString
      | String c r => String c (replace_first old new r)
      end
  end.

(** [s.split()]: the maximal runs of characters that are not white space;
    [cur] is the run being read. *)
Fixpoint split_ws_go (cur s : string) : list string :=
  match s with
  | EmptyString => if truthy cur then [cur] else []
  | String c r =>
      if is_space c then
        if truthy cur then cur :: split_ws_go EmptyString r
        else split_ws_go EmptyString r
      else split_ws_go (cur +:+ String c EmptyString) r
  end.

Definition split_ws (s : string) : list string := split_ws_go EmptyString s.

(** [sep.join(l)] *)
Fixpoint join_with (sep : string) (l : list string) : string :=
  match l with
  | [] => EmptyString
  | [x] => x
  | x :: r => x +:+ sep +:+ join_with sep r
  end.

(** [x in l] for a list or set of strings. *)
Definition mem (x : string) (l : list string) : bool :=
  existsb (String.eqb x) l.

(** [str(n)] for an integer. *)
Definition str_of_Z (z : Z) : string := NilEmpty.string_of_int (Z.to_int z).

Fixpoint zeros (n : nat) : string :=
  match n with O => EmptyString | S k => String "0" (zeros k) end.

(** [f"{z:0wd}"]: decimal, zero-padded to width [w], the sign first. *)
Definition format_0d (w : nat) (z : Z) : string :=
  if z <? 0 then
    let d := str_of_Z (- z) in
    String "-" (zeros (w - 1 - String.length d) +:+ d)
  else
    let d := str_of_Z z in
    zeros (w - String.length d) +:+ d.

(** [range(lo, hi)] *)
Definition range (lo hi : Z) : list Z :=
  map (λ k, lo + Z.of_nat k) (seq 0 (Z.to_nat (hi - lo))).

(** [l[i]] on a sequence, with Python's negative indices; [None] stands
    for [IndexError]. *)
Definition getitem {A} (l : list A) (i : Z) : option A :=
  let n := Z.of_nat (length l) in
  if 0 <=? i then l !! Z.to_nat i
  else if 0 <=? n + i then l !! Z.to_nat (n + i)
  else None.

(** [math.ceil(a / b)] for integers [a >= 0] and [b > 0].  Python divides
    in binary64 and rounds the quotient up; the correctly rounded quotient
    of two integers below 2^53 has the same ceiling as the exact one, so
    for page counts the result is the integer ceiling. *)
Definition ceil_div (a b : Z) : Z := - ((- a) / b).

End Py.

(** ** The flow packer of [render_blocks] *)

Module FlowPacker.

(** The variables the closures [push_flow] and [flush_flow] share:
    the output list [parts] and the pending buffer with its counters. *)
Record state := mkState {
  parts : list string;
  flow_parts : list string;
  flow_words : Z;
  flow_blocks : Z
}.

Definition init : state := mkState [] [] 0 0.

Definition push_flow (tex : string) (words : Z) (st : state) : state :=
  if Py.truthy tex then
    mkState (parts st) (flow_parts st ++ [tex])
            (flow_words st + words) (flow_blocks st + 1)
  else st.

Definition hybridcols (chunk : string) : string :=
  "\begin{hybridcols}" +:+ Py.LF +:+ chunk +:+ "\end{hybridcols}" +:+ Py.LF +:+ Py.LF.

Definition flush_flow (hybrid : bool) (st : state) : state :=
  match flow_parts st with
  | [] => st
  | _ :: _ =>
      let chunk := Py.join (flow_parts st) in
      if hybrid && (((2 <=? flow_blocks st) && (110 <=? flow_words st))
                    || (180 <=? flow_words st))
      then mkState (parts st ++ [hybridcols chunk]) [] 0 0
      else mkState (parts st ++ [chunk]) [] 0 0
  end.

(** [parts.append(x)], the direct emission of a structural block. *)
Definition append_part (x : string) (st : state) : state :=
  mkState (parts st ++ [x]) (flow_parts st) (flow_words st) (flow_blocks st).

(** What the loop of [render_blocks] does to the shared variables: every
    branch is a sequence of these three operations, and the function ends
    with one more [flush_flow]. *)
Inductive op :=
| Push (tex : string) (words : Z)
| Flush
| Emit (x : string).

Definition step (hybrid : bool) (st : state) (o : op) : state :=
  match o with
  | Push tex words => push_flow tex words st
  | Flush => flush_flow hybrid st
  | Emit x => append_part x st
  end.

Definition run (hybrid : bool) (ops : list op) : state :=
  fold_left (step hybrid) ops init.

Definition render_pass (hybrid : bool) (ops : list op) : list string :=
  parts (flush_flow hybrid (run hybrid ops)).

(** The blocks pending since the last flush, recomputed from the trace:
    the texts and word counts of the accepted pushes. *)
Fixpoint pending (ops : list op) (acc : list (string * Z)) : list (string * Z) :=
  match ops with
  | [] => acc
  | Push tex words :: r =>
      pending r (if Py.truthy tex then acc ++ [(tex, words)] else acc)
  | Flush :: r => pending r []
  | Emit _ :: r => pending r acc
  end.

Definition sumZ (l : list Z) : Z := fold_right Z.add 0 l.

(** The two layouts a flushed chunk can be given. *)
Inductive layout := MultiColumn | SingleColumn.

Definition render_layout (l : layout) (chunk : string) : string :=
  match l with
  | MultiColumn => hybridcols chunk
  | SingleColumn => chunk
  end.

(** The counters agree with the buffer. *)
Definition consistent (st : state) (buf : list (string * Z)) : Prop :=
  flow_parts st = map fst buf ∧
  flow_words st = sumZ (map snd buf) ∧
  flow_blocks st = Z.of_nat (length buf).

(** The parts one call of [flush_flow] appends to the output. *)
Definition emitted (hybrid : bool) (st : state) : list string :=
  drop (length (parts st)) (parts (flush_flow hybrid st)).

(** The layout rule in the words of the specification. *)
Definition multi_column_rule (hybrid : bool) (block_count word_count : Z) : Prop :=
  hybrid = true ∧ ((2 ≤ block_count ∧ 110 ≤ word_count) ∨ 180 ≤ word_count).

End FlowPacker.

(** ** The booklet splitter: [write_stapled_sections] *)

Module Booklet.

(** The arguments [booklet_cover_tex] typesets into the one-page cover. *)
Record cover := Cover {
  cover_title : string;
  booklet_idx : Z;
  booklet_total : Z;
  content_start : Z;
  content_end : Z;
  cover_paper : string
}.

Inductive exn :=
| ValueError (msg : string)
| IndexError.

Section Splitter.
(** The pages of the compiled document, [reader.pages]. *)
Context {page : Type}.

Inductive pdf_page :=
| CoverPage (c : cover)
| ContentPage (p : page).

(** What the function does to the file system, in order: a cover is
    typeset by tectonic, a section file is written. *)
Inductive event :=
| CompileCover (tex_path : string) (c : cover)
| WriteSection (path : string) (pages : list pdf_page).

Variable reader_pages : list page.
Variables outdir basename paper title : string.

Definition section_path (i section_total : Z) : string :=
  outdir +:+ "/" +:+ basename +:+ "-section-" +:+ Py.format_0d 2 (i + 1)
    +:+ "-of-" +:+ Py.format_0d 2 section_total +:+ ".pdf".

Definition cover_tex_path (i : Z) : string :=
  "cover-" +:+ Py.format_0d 2 (i + 1) +:+ ".tex".

(** The body of [for i in range(section_total)], over the remaining
    indices, threading the event log and the list [outputs]. *)
Fixpoint sections_loop (content_pages_per_section section_total : Z)
    (indices : list Z) (log : list event) (outputs : list string)
    : list event * (exn + list string) :=
  match indices with
  | [] => (log, inr outputs)
  | i :: rest =>
      let total_pages := Z.of_nat (length reader_pages) in
      let start := i * content_pages_per_section in
      let end_ := Z.min ((i + 1) * content_pages_per_section) total_pages in
      let c := Cover title (i + 1) section_total (start + 1) end_ paper in
      let log1 := log ++ [CompileCover (cover_tex_path i) c] in
      match mapM (Py.getitem reader_pages) (Py.range start end_) with
      | None => (log1, inl IndexError)
      | Some ps =>
          let writer := CoverPage c :: map ContentPage ps in
          let path := section_path i section_total in
          sections_loop content_pages_per_section section_total rest
            (log1 ++ [WriteSection path writer]) (outputs ++ [path])
      end
  end.

Definition write_stapled_sections (section_max_pages : Z)
    : list event * (exn + list string) :=
  if section_max_pages <? 2 then
    ([], inl (ValueError
                "section_max_pages must be at least 2 to include a cover page."))
  else
    let total_pages := Z.of_nat (length reader_pages) in
    let content_pages_per_section := Z.max 1 (section_max_pages - 1) in
    let section_total :=
      Z.max 1 (Py.ceil_div total_pages content_pages_per_section) in
    sections_loop content_pages_per_section section_total
      (Py.range 0 section_total) [] [].

(** The section files of a log, in the order they were written. *)
Definition written (log : list event) : list (string * list pdf_page) :=
  omap (λ e, match e with
             | WriteSection path pages => Some (path, pages)
             | CompileCover _ _ => None
             end) log.

Definition covers_compiled (log : list event) : list cover :=
  omap (λ e, match e with
             | CompileCover _ c => Some c
             | WriteSection _ _ => None
             end) log.

(** The content pages of a section file. *)
Definition content_of (pages : list pdf_page) : list page :=
  omap (λ q, match q with
             | ContentPage p => Some p
             | CoverPage _ => None
             end) pages.

Definition covers_of (pages : list pdf_page) : list cover :=
  omap (λ q, match q with
             | CoverPage c => Some c
             | ContentPage _ => None
             end) pages.

(** The half-open range [[lo, hi)] of a page sequence. *)
Definition page_range (lo hi : Z) : list page :=
  take (Z.to_nat (hi - lo)) (drop (Z.to_nat lo) reader_pages).

(** Section [i] as the specification describes it: its cover and the
    content pages [[i*c, min((i+1)*c, T))], [c] content pages per
    section. *)
Definition section_cover (c section_total i : Z) : cover :=
  Cover title (i + 1) section_total (i * c + 1)
        (Z.min ((i + 1) * c) (Z.of_nat (length reader_pages))) paper.

Definition section_content (c i : Z) : list page :=
  page_range (i * c) (Z.min ((i + 1) * c) (Z.of_nat (length reader_pages))).

Definition section_file (c section_total i : Z) : string * list pdf_page :=
  (section_path i section_total,
   CoverPage (section_cover c section_total i)
     :: map ContentPage (section_content c i)).

Definition section_events (c section_total i : Z) : list event :=
  [CompileCover (cover_tex_path i) (section_cover c section_total i);
   WriteSection (section_path i section_total)
                (snd (section_file c section_total i))].

End Splitter.

End Booklet.

(** ** Escaping: [normalize_text], [latex_escape_plain] *)

Module Latex.

Definition DQUOTE : string := String (ascii_of_nat 34) EmptyString.

(** The table [REPLACEMENTS], in its order. *)
Definition REPLACEMENTS : list (string * string) :=
  [ (Py.utf8 0x00a0, " "); (Py.utf8 0x2018, "`"); (Py.utf8 0x2019, "'");
    (Py.utf8 0x201c, "``"); (Py.utf8 0x201d, "''"); (Py.utf8 0x2013, "--");
    (Py.utf8 0x2014, "---"); (Py.utf8 0x2026, "..."); (Py.utf8 0x2212, "-");
    (Py.utf8 0x02c8, "'"); (Py.utf8 0x02b2, "y"); (Py.utf8 0x0268, "y");
    (Py.utf8 0x0411, "B"); (Py.utf8 0x0435, "e"); (Py.utf8 0x0441, "s");
    (Py.utf8 0x044b, "y"); (Py.utf8 0x0463, "e") ].

Definition LATEX_SPECIALS : list (ascii * string) :=
  [ ("%"%char, "\%"); ("$"%char, "\$"); ("#"%char, "\#"); ("&"%char, "\&");
    ("_"%char, "\_"); ("{"%char, "\{"); ("}"%char, "\}");
    ("~"%char, "\textasciitilde{}"); ("^"%char, "\textasciicircum{}") ].

Definition UNICODE_LATEX : list (string * string) :=
  [ (Py.utf8 0xe9, "\'e"); (Py.utf8 0xea, "\^e");
    (Py.utf8 0xef, "\" +:+ DQUOTE +:+ "i") ].

Definition normalize_text (s : string) : string :=
  fold_left (λ acc kv, Py.replace (fst kv) (snd kv) acc) REPLACEMENTS s.

Fixpoint assoc_char (c : ascii) (t : list (ascii * string)) : option string :=
  match t with
  | [] => None
  | (k, v) :: r => if Ascii.eqb k c then Some v else assoc_char c r
  end.

(** The entry of a table whose key starts the string. *)
Fixpoint assoc_prefix (s : string) (t : list (string * string))
    : option (string * string) :=
  match t with
  | [] => None
  | (k, v) :: r => if Py.startswith k s then Some (k, v) else assoc_prefix s r
  end.

(** The loop [for ch in s] of [latex_escape_plain]; a character of
    [UNICODE_LATEX] takes two bytes, of which [skip] counts the one still
    to be passed over. *)
Fixpoint escape_go (skip : nat) (s : string) : string :=
  match s with
  | EmptyString => EmptyString
  | String c r =>
      match skip with
      | S k => escape_go k r
      | O =>
          match assoc_prefix s UNICODE_LATEX with
          | Some (k, v) => v +:+ escape_go (String.length k - 1) r
          | None =>
              match assoc_char c LATEX_SPECIALS with
              | Some v => v +:+ escape_go O r
              | None => String c (escape_go O r)
              end
          end
      end
  end.

Definition latex_escape_plain (s : string) : string :=
  escape_go O (normalize_text s).

Definition escape_url_for_url (url : string) : string :=
  Py.replace "}" "\}"
    (Py.replace "{" "\{" (Py.replace "\" "\textbackslash{}" url)).

End Latex.

(** ** urllib and requests, the URL functions the script imports *)

Class Urllib := {
  urljoin : string → string → string;
  url_netloc : string → string;
  url_path : string → string;
  url_fragment : string → string;
  requote_uri : string → string
}.

(** ** The footnote resolver: [build_numbered_footnotes] *)

Module Footnotes.

(** The two dictionaries the function returns. *)
Record tables := Tables {
  footnotes_by_number : gmap Z string;
  footnotes_by_id : gmap string string
}.

Definition empty_tables : tables := Tables ∅ ∅.

(** One round of [for item in ids] in [register_ids]. *)
Definition register_key (text : string) (by_id : gmap string string)
    (item : string) : gmap string string :=
  let key := Py.collapse_ws item in
  if Py.truthy key then <[key := text]> by_id else by_id.

Definition register_ids (text : string) (num : Z) (ids : list string)
    (by_id : gmap string string) : gmap string string :=
  if Py.truthy text then
    let by_id1 :=
      if num =? 0 then by_id
      else <["footnote-anchor-" +:+ Py.str_of_Z num := text]>
             (<["footnote-" +:+ Py.str_of_Z num := text]> by_id) in
    fold_left (register_key text) ids by_id1
  else by_id.

(** What a loop body passes on when its test [if num and text] holds. *)
Record registration := Registration {
  reg_num : Z;
  reg_text : string;
  reg_ids : list string
}.

Definition guard (num : Z) (text : string) (ids : list string)
    : option registration :=
  if negb (num =? 0) && Py.truthy text
  then Some (Registration num text ids) else None.

(** [footnotes_by_number[num] = text; register_ids(text, num, *ids)] *)
Definition apply_registration (tb : tables) (r : registration) : tables :=
  Tables (<[reg_num r := reg_text r]> (footnotes_by_number tb))
         (register_ids (reg_text r) (reg_num r) (reg_ids r) (footnotes_by_id tb)).

Definition number_in (text : string) : Z :=
  match Py.search_digits text with
  | Some d => Py.int_of_digits d
  | None => 0
  end.

(** A [p.footnote] element as the loop reads it: its [id] attribute
    ([p.get('id', '')]), the text of its [span.footnote-ref] when it has
    one, and [convert_children(p_copy).strip()] computed after that span
    has been removed. *)
Record p_footnote := PFootnote {
  p_id : string;
  p_span : option string;
  p_raw : string
}.

Definition p_registration (p : p_footnote) : option registration :=
  let num := match p_span p with Some t => number_in t | None => 0 end in
  let raw := p_raw p in
  if Py.truthy raw then
    let '(num, text) :=
      if num =? 0 then
        match Py.match_bracket_label raw with
        | Some (d, rest) => (Py.int_of_digits d, Py.strip rest)
        | None => (num, raw)
        end
      else (num, Py.strip (Py.sub_bracket_label raw)) in
    guard num text [p_id p]
  else None.

(** The [a.footnote-number] link of a [div.footnote]: its [id], its
    [href] and its text [get_text(' ', strip=True)]. *)
Record number_link := NumberLink {
  link_id : string;
  link_href : string;
  link_text : string
}.

(** A [div.footnote] element as the loop reads it: its [id], its number
    link when it has one, and [convert_children(content)] computed after
    the link has been removed. *)
Record div_footnote := DivFootnote {
  div_id : string;
  div_number_link : option number_link;
  div_content : string
}.

Section Resolver.
Context `{Urllib}.
Variable page_url : string.

(** The number a [div.footnote] gets and its [explicit_ids]. *)
Definition div_number_and_ids (d : div_footnote) : Z * list string :=
  match div_number_link d with
  | None => (0, [])
  | Some a =>
      let explicit_ids := [link_id a] in
      let href := Py.collapse_ws (link_href a) in
      let '(num, explicit_ids) :=
        if Py.truthy href then
          let frag := url_fragment (urljoin page_url href) in
          let explicit_ids :=
            if Py.truthy frag then explicit_ids ++ [frag] else explicit_ids in
          match Py.search_footnote_number frag with
          | Some d => (Py.int_of_digits d, explicit_ids)
          | None => (0, explicit_ids)
          end
        else (0, explicit_ids) in
      let num := if num =? 0 then number_in (link_text a) else num in
      (num, explicit_ids)
  end.

(** The two numbers a number link can carry: the one its anchor fragment
    encodes ([0] when the link has no [href] or the fragment does not match
    the pattern) and the one in its visible text. *)
Definition pattern_number (a : number_link) : Z :=
  let href := Py.collapse_ws (link_href a) in
  if Py.truthy href then
    match Py.search_footnote_number (url_fragment (urljoin page_url href)) with
    | Some d => Py.int_of_digits d
    | None => 0
    end
  else 0.

Definition explicit_number (a : number_link) : Z := number_in (link_text a).

Definition div_registration (d : div_footnote) : option registration :=
  let '(num, explicit_ids) := div_number_and_ids d in
  let text := Py.collapse_ws (div_content d) in
  guard num text (div_id d :: explicit_ids).

(** The registrations of a container, in the order the two loops make
    them: all [p.footnote] elements first, then all [div.footnote]. *)
Definition registrations (ps : list p_footnote) (ds : list div_footnote)
    : list registration :=
  omap p_registration ps ++ omap div_registration ds.

Definition p_step (tb : tables) (p : p_footnote) : tables :=
  match p_registration p with
  | Some r => apply_registration tb r
  | None => tb
  end.

Definition div_step (tb : tables) (d : div_footnote) : tables :=
  match div_registration d with
  | Some r => apply_registration tb r
  | None => tb
  end.

Definition build_numbered_footnotes (ps : list p_footnote)
    (ds : list div_footnote) : tables :=
  fold_left div_step ds (fold_left p_step ps empty_tables).

End Resolver.

(** A registration that passed [if num and text]. *)
Definition valid (r : registration) : Prop := reg_num r ≠ 0 ∧ reg_text r ≠ "".

(** The keys of [footnotes_by_id] one registration writes. *)
Definition alias_keys (r : registration) : list string :=
  ["footnote-" +:+ Py.str_of_Z (reg_num r);
   "footnote-anchor-" +:+ Py.str_of_Z (reg_num r)]
  ++ filter (λ k, k ≠ "") (map Py.collapse_ws (reg_ids r)).

End Footnotes.

(** ** The parsed document *)

Module Dom.

(** A BeautifulSoup node: a [NavigableString] or a [Tag] with its name,
    its attributes in source order and its children. *)
Inductive node :=
| NavigableString (text : string)
| Tag (name : string) (attrs : list (string * string)) (children : list node).

(** [tag.get(key)] *)
Fixpoint get (attrs : list (string * string)) (key : string) : option string :=
  match attrs with
  | [] => None
  | (k, v) :: r => if String.eqb k key then Some v else get r key
  end.

(** [tag.get(key, '')] *)
Definition get_str (attrs : list (string * string)) (key : string) : string :=
  match get attrs key with Some v => v | None => EmptyString end.

(** [tag.get('class') or []]: the parser splits the attribute at white
    space. *)
Definition classes (attrs : list (string * string)) : list string :=
  match get attrs "class" with Some v => Py.split_ws v | None => [] end.

(** The strings below a node, in document order. *)
Fixpoint strings (n : node) : list string :=
  match n with
  | NavigableString text => [text]
  | Tag _ _ children => flat_map strings children
  end.

(** [node.get_text()] *)
Definition get_text (n : node) : string := Py.join (strings n).

(** [node.get_text(sep, strip=True)]: the strings are stripped and the
    empty ones left out. *)
Definition get_text_strip (sep : string) (n : node) : string :=
  Py.join_with sep (filter (λ t, t ≠ EmptyString) (map Py.strip (strings n))).

(** [node.find_all('a', href=True)]: the [a] tags below the node that have
    an [href], in document order. *)
Fixpoint links_below (n : node) : list node :=
  match n with
  | NavigableString _ => []
  | Tag _ _ children =>
      flat_map (λ c,
        match c with
        | Tag name attrs _ =>
            if String.eqb name "a" && bool_decide (is_Some (get attrs "href"))
            then c :: links_below c else links_below c
        | NavigableString _ => []
        end) children
  end.

End Dom.

(** ** The image pipeline: [ImageStore] *)

(** What the image store calls outside the script: [requests.get] with
    [raise_for_status] (the body and the content-type header of the answer
    to the k-th download, [None] for an exception), [base64.b64decode],
    [unquote_to_bytes], the PIL conversion of a webp image to PNG ([None]
    when PIL is missing or fails) and [Path(path).suffix]. *)
Class ImageEnv := {
  http_get : nat → string → option (string * string);
  b64decode : string → option string;
  unquote_to_bytes : string → string;
  webp_to_png : string → option string;
  path_suffix : string → string
}.

Module Images.

Definition CONTENT_TYPE_IMAGE_EXT : list (string * string) :=
  [ ("image/jpeg", ".jpg"); ("image/jpg", ".jpg"); ("image/png", ".png");
    ("application/pdf", ".pdf"); ("image/webp", ".webp") ].

Definition LATEX_IMAGE_EXTS : list string := [".jpg"; ".jpeg"; ".png"; ".pdf"].

(** [parse_dimension]: [re.search] of [\d+] and [int] of the match; exact
    where [Py.search_digits] and [Py.int_of_digits] are. *)
Definition parse_dimension (value : option string) : Z :=
  match value with
  | None => 0
  | Some v =>
      match Py.search_digits v with
      | Some d => Py.int_of_digits d
      | None => 0
      end
  end.

(** The fields of an [ImageStore] that [fetch] updates. *)
Record store := Store {
  cache : gmap string string;
  counter : Z
}.

Definition new_store : store := Store ∅ 0.

(** The world around the store: the resolved sources [_download] was
    called with and the asset files written, both in order. *)
Record world := World {
  downloads : list string;
  files : list (string * string)
}.

Definition new_world : world := World [] [].

Section Store.
Context `{Urllib} `{ImageEnv}.
Variable page_url : string.

Definition _pick_source (img : list (string * string)) : string :=
  let value (attr : string) := Py.collapse_ws (Dom.get_str img attr) in
  if Py.truthy (value "src") then value "src"
  else if Py.truthy (value "data-src") then value "data-src"
  else if Py.truthy (value "data-lazy-src") then value "data-lazy-src"
  else if Py.truthy (value "data-original") then value "data-original"
  else
    let srcset := value "srcset" in
    if Py.truthy srcset then
      let first := Py.strip (fst (Py.split_once "," srcset)) in
      Py.strip (fst (Py.split_once " " first))
    else EmptyString.

Definition _resolve_source (src : string) : string :=
  if Py.startswith "data:image/" src then src
  else
    let src := if Py.startswith "//" src then "https:" +:+ src else src in
    urljoin page_url src.

Definition _should_include (img : list (string * string)) (src : string) : bool :=
  let cls := Py.lower (Py.join_with " " (Dom.classes img)) in
  if existsb (λ token, Py.contains token cls) ["avatar"; "icon"; "logo"; "emoji"]
  then false
  else
    let lower_src := Py.lower src in
    if Py.contains "avatar" lower_src
       && negb (Py.contains "substack-post-media.s3.amazonaws.com" lower_src)
    then false
    else
      let w := parse_dimension (Dom.get img "width") in
      let h := parse_dimension (Dom.get img "height") in
      if negb (w =? 0) && negb (h =? 0) && (Z.max w h <=? 80) then false
      else true.

(** [_download]: the data (or [None]), the content type, and the world
    with the call recorded. *)
Definition _download (resolved : string) (w : world)
    : option string * string * world :=
  let w1 := World (downloads w ++ [resolved]) (files w) in
  if Py.startswith "data:image/" resolved then
    match Py.split_once "," resolved with
    | (_, None) => (None, EmptyString, w1)
    | (header, Some payload) =>
        let content_type :=
          Py.lower (Py.replace_first "data:" "" (fst (Py.split_once ";" header))) in
        if Py.contains ";base64" header then
          match b64decode payload with
          | Some data => (Some data, content_type, w1)
          | None => (None, content_type, w1)
          end
        else (Some (unquote_to_bytes payload), content_type, w1)
    end
  else
    match http_get (length (downloads w)) resolved with
    | None => (None, EmptyString, w1)
    | Some (content, header) =>
        (Some content, Py.lower (Py.strip (fst (Py.split_once ";" header))), w1)
    end.

Definition _infer_extension (resolved content_type : string) : string :=
  match Dom.get CONTENT_TYPE_IMAGE_EXT content_type with
  | Some ext => ext
  | None =>
      if Py.endswith "+xml" content_type && Py.contains "svg" content_type
      then ".svg"
      else
        let suffix := Py.lower (path_suffix (url_path resolved)) in
        if Py.mem suffix [".jpeg"; ".jpg"; ".png"; ".pdf"; ".webp"; ".svg"]
        then suffix else ".jpg"
  end.

Definition _convert_webp (data : string) : string * string :=
  match webp_to_png data with
  | Some png => (png, ".png")
  | None => (EmptyString, ".skip")
  end.

Definition asset_name (n : Z) (ext : string) : string :=
  "elegant-print-assets/image-" +:+ Py.format_0d 3 n +:+ ext.

Definition fetch (img : list (string * string)) (st : store) (w : world)
    : option string * store * world :=
  let src := _pick_source img in
  if negb (Py.truthy src) then (None, st, w)
  else if negb (_should_include img src) then (None, st, w)
  else
    let resolved := _resolve_source src in
    if negb (Py.truthy resolved) then (None, st, w)
    else
      match cache st !! resolved with
      | Some rel => (Some rel, st, w)
      | None =>
          let '(data, content_type, w1) := _download resolved w in
          match data with
          | None => (None, st, w1)
          | Some data =>
              let ext := _infer_extension resolved content_type in
              let '(data, ext) :=
                if String.eqb ext ".webp" then _convert_webp data
                else (data, ext) in
              if negb (Py.mem ext LATEX_IMAGE_EXTS) then (None, st, w1)
              else
                let n := counter st + 1 in
                let rel := asset_name n ext in
                (Some rel,
                 Store (<[resolved := rel]> (cache st)) n,
                 World (downloads w1) (files w1 ++ [(rel, data)]))
          end
      end.

(** The images of a document, fetched one after the other. *)
Fixpoint fetch_all (imgs : list (list (string * string))) (st : store) (w : world)
    : list (option string) * store * world :=
  match imgs with
  | [] => ([], st, w)
  | img :: rest =>
      let '(r, st1, w1) := fetch img st w in
      let '(rs, st2, w2) := fetch_all rest st1 w1 in
      (r :: rs, st2, w2)
  end.

Definition render_image_block (image_path caption_tex : string) : string :=
  let path_tex := Latex.escape_url_for_url image_path in
  let block :=
    "\begin{center}" +:+ Py.LF
    +:+ "\includegraphics[width=0.96\linewidth,keepaspectratio]{" +:+ path_tex
    +:+ "}" +:+ Py.LF +:+ "\end{center}" +:+ Py.LF in
  let block :=
    if Py.truthy caption_tex
    then block +:+ "\begin{center}\small\itshape " +:+ caption_tex
               +:+ "\end{center}" +:+ Py.LF
    else block in
  block +:+ Py.LF.

Definition render_image_tag (img : list (string * string)) (caption_tex : string)
    (st : store) (w : world) : string * store * world :=
  let '(image_path, st1, w1) := fetch img st w in
  match image_path with
  | None => (EmptyString, st1, w1)
  | Some image_path =>
      if negb (Py.truthy image_path) then (EmptyString, st1, w1)
      else
        let final_caption := Py.collapse_ws caption_tex in
        let final_caption :=
          if Py.truthy final_caption then final_caption
          else
            let alt := Py.collapse_ws (Dom.get_str img "alt") in
            if Py.truthy alt && negb (Py.mem (Py.lower alt) ["image"; "photo"])
            then Latex.latex_escape_plain alt else final_caption in
        (render_image_block image_path final_caption, st1, w1)
  end.

(** The resolved source [fetch] looks up for a node. *)
Definition resolved_source (img : list (string * string)) : string :=
  _resolve_source (_pick_source img).

(** The node gets past the three early returns of [fetch]. *)
Definition reaches_cache (img : list (string * string)) : Prop :=
  _pick_source img ≠ EmptyString ∧
  _should_include img (_pick_source img) = true ∧
  resolved_source img ≠ EmptyString.

(** The four ways a call of [fetch] can go. *)
Inductive fetch_case (img : list (string * string)) (st : store) (w : world)
    : option string → store → world → Prop :=
| fetch_filtered :
    ¬ reaches_cache img →
    fetch_case img st w None st w
| fetch_hit rel :
    reaches_cache img →
    cache st !! resolved_source img = Some rel →
    fetch_case img st w (Some rel) st w
| fetch_failed :
    reaches_cache img →
    cache st !! resolved_source img = None →
    fetch_case img st w None st
      (World (downloads w ++ [resolved_source img]) (files w))
| fetch_written ext data :
    reaches_cache img →
    cache st !! resolved_source img = None →
    ext ∈ LATEX_IMAGE_EXTS →
    fetch_case img st w
      (Some (asset_name (counter st + 1) ext))
      (Store (<[resolved_source img := asset_name (counter st + 1) ext]>
                (cache st))
             (counter st + 1))
      (World (downloads w ++ [resolved_source img])
             (files w ++ [(asset_name (counter st + 1) ext, data)])).

End Store.

(** The number of times [_download] was called with a URL. *)
Definition download_count (url : string) (w : world) : nat :=
  length (filter (λ u, u = url) (downloads w)).

(** The assets written so far are numbered 1, 2, ... in the order they
    were written, and the counter is their number. *)
Definition numbered (st : store) (w : world) : Prop :=
  counter st = Z.of_nat (length (files w)) ∧
  ∀ (k : nat) (name data : string),
    files w !! k = Some (name, data) →
    ∃ ext, ext ∈ LATEX_IMAGE_EXTS ∧
           name = "elegant-print-assets/image-"
                    +:+ Py.format_0d 3 (Z.of_nat k + 1) +:+ ext.

End Images.

(** An environment for the examples: every download answers with the same
    PNG body, data URIs do not decode, there is no PIL. *)
Module ExampleImages.

Definition env : ImageEnv := {|
  http_get := λ _ _, Some ("PNG", "image/png");
  b64decode := λ _, None;
  unquote_to_bytes := λ s, s;
  webp_to_png := λ _, None;
  path_suffix := λ _, EmptyString
|}.


End ExampleImages.

(** ** The inline converter: [Converter] *)

Module Inline.

Definition footnote (body : string) : string := "\footnote{" +:+ body +:+ "}".

Definition textsuperscript (label : string) : string :=
  "\textsuperscript{" +:+ label +:+ "}".

Definition is_bracket (c : ascii) : bool := Ascii.eqb c "[" || Ascii.eqb c "]".

Section Converter.
Context `{Urllib}.
Variable footnotes_by_id : gmap string string.
Variable footnotes_by_number : gmap Z string.
Variable page_url : string.

Definition or_slash (p : string) : string := if Py.truthy p then p else "/".

Definition _fragment_for_same_page (href : string) : string :=
  let href := Py.collapse_ws href in
  if negb (Py.truthy href) then EmptyString
  else
    match Py.strip_prefix "#" href with
    | Some rest => rest
    | None =>
        if negb (Py.truthy page_url) then EmptyString
        else
          let resolved := urljoin page_url href in
          let same_host := String.eqb (url_netloc resolved) (url_netloc page_url) in
          let same_path :=
            String.eqb (or_slash (url_path resolved)) (or_slash (url_path page_url)) in
          if same_host && same_path && Py.truthy (url_fragment resolved)
          then url_fragment resolved else EmptyString
    end.

Definition _footnote_from_href (href : string) : string :=
  let fragment := _fragment_for_same_page href in
  if negb (Py.truthy fragment) then EmptyString
  else
    match footnotes_by_id !! fragment with
    | Some body => footnote body
    | None =>
        match Py.search_footnote_number fragment with
        | Some d =>
            match footnotes_by_number !! Py.int_of_digits d with
            | Some body => footnote body
            | None => EmptyString
            end
        | None => EmptyString
        end
    end.

Definition _footnote_from_text (text : string) : string :=
  match Py.search_digits text with
  | None => EmptyString
  | Some d =>
      let num := Py.int_of_digits d in
      match footnotes_by_number !! num with
      | Some body => footnote body
      | None => textsuperscript (Py.str_of_Z num)
      end
  end.

(** One round of the loop of [_footnote_from_ref]: what it appends to
    [notes] for the link [a], if anything.  The test
    [label.isdigit() and int(label) in ...] is read on ASCII labels: for a
    label of digit characters outside ASCII [int] can raise [ValueError],
    which is not modelled. *)
Definition ref_note (a : Dom.node) : option string :=
  match a with
  | Dom.NavigableString _ => None
  | Dom.Tag _ attrs _ =>
      let href := Dom.get_str attrs "href" in
      let rendered := _footnote_from_href href in
      if Py.truthy rendered then Some rendered
      else
        let label := Py.strip_chars is_bracket (Dom.get_text_strip "" a) in
        match (if Py.isdigit label
               then footnotes_by_number !! Py.int_of_digits label else None) with
        | Some body => Some (footnote body)
        | None =>
            if Py.truthy label
            then Some (textsuperscript (Latex.latex_escape_plain label))
            else None
        end
  end.

Definition _footnote_from_ref (n : Dom.node) : string :=
  Py.join (omap ref_note (Dom.links_below n)).

Definition _compact_link_label (href : string) : string :=
  let host := Py.strip (Py.lower (url_netloc href)) in
  let host :=
    match Py.strip_prefix "www." host with
    | Some rest => rest
    | None => host
    end in
  if Py.truthy host then host else "link".

Definition href_target (url : string) : string :=
  let safe := Py.strip (Latex.normalize_text url) in
  let safe :=
    if Py.truthy safe then requote_uri (fst (Py.split_once "#" safe)) else safe in
  let safe := Py.replace "}" "%7D" (Py.replace "{" "%7B" safe) in
  "\detokenize{" +:+ safe +:+ "}".

(** The visible text of a link is itself a URL. *)
Definition url_like (plain_text : string) : bool :=
  let plain_lower := Py.lower plain_text in
  Py.startswith "http://" plain_lower || Py.startswith "https://" plain_lower
  || Py.startswith "www." plain_lower.

Definition hyperlink (href_arg label : string) : string :=
  "\href{" +:+ href_arg +:+ "}{\textcolor{LinkColor}{" +:+ label
  +:+ "\hspace{0.32em}\linkicon}}".

Definition _render_hyperlink (href rendered_text plain_text : string) : string :=
  let href_arg := href_target href in
  let label := Py.strip rendered_text in
  let label :=
    if negb (Py.truthy label)
    then Latex.latex_escape_plain (_compact_link_label href)
    else if url_like plain_text
    then Latex.latex_escape_plain (_compact_link_label href)
    else label in
  hyperlink href_arg label.

(** [_convert_link], given the converted children [text] and the collapsed
    plain text of the link. *)
Definition _convert_link (attrs : list (string * string))
    (text plain_text : string) : string :=
  let href := Dom.get_str attrs "href" in
  let classes := map Py.lower (Dom.classes attrs) in
  let href := if Py.startswith "//" href then "https:" +:+ href else href in
  let note :=
    if Py.mem "footnote-anchor" classes then _footnote_from_href href
    else EmptyString in
  if Py.truthy note then note
  else
  let note := _footnote_from_href href in
  if Py.truthy note then note
  else if Py.startswith "/wiki/" href || Py.startswith "#" href then text
  else if Py.startswith "/" href || Py.startswith "./" href
          || Py.startswith "../" href
  then
    if Py.truthy page_url
    then _render_hyperlink (urljoin page_url href) text plain_text
    else text
  else if Py.startswith "http" href
  then _render_hyperlink href text plain_text
  else text.

Fixpoint convert_inline (n : Dom.node) : string :=
  match n with
  | Dom.NavigableString txt =>
      if Py.truthy (Py.strip txt) then Latex.latex_escape_plain txt else " "
  | Dom.Tag name attrs children =>
      let convert_children :=
        Py.join (List.filter Py.truthy (List.map convert_inline children)) in
      let name := Py.lower name in
      let cls := Dom.classes attrs in
      if Py.mem name ["style"; "script"; "meta"; "link"] then EmptyString
      else if Py.mem name ["em"; "i"] then "\emph{" +:+ convert_children +:+ "}"
      else if Py.mem name ["strong"; "b"]
      then "\textbf{" +:+ convert_children +:+ "}"
      else if Py.mem name ["code"; "kbd"; "samp"]
      then "\texttt{" +:+ Latex.latex_escape_plain (Dom.get_text n) +:+ "}"
      else if String.eqb name "cite"
      then "\textit{" +:+ convert_children +:+ "}"
      else if String.eqb name "span" then
        if Py.mem "character-name" cls
        then "\textsc{" +:+ convert_children +:+ "}"
        else if Py.mem "footnote-ref" cls
        then _footnote_from_text (Dom.get_text n)
        else convert_children
      else if String.eqb name "sup" then
        if Py.mem "reference" cls then _footnote_from_ref n
        else _footnote_from_text (Dom.get_text n)
      else if String.eqb name "a"
      then _convert_link attrs convert_children
             (Py.collapse_ws (Dom.get_text_strip " " n))
      else if String.eqb name "br" then "\\"
      else if String.eqb name "img" then EmptyString
      else convert_children
  end.

End Converter.

(** The nodes the converter hands to [_footnote_from_text]: a [sup]
    without the class [reference], or a [span] of class [footnote-ref]
    (and not [character-name], which is tested first). *)
Definition text_marker (name : string) (attrs : list (string * string)) : bool :=
  (String.eqb (Py.lower name) "sup" && negb (Py.mem "reference" (Dom.classes attrs)))
  || (String.eqb (Py.lower name) "span"
      && negb (Py.mem "character-name" (Dom.classes attrs))
      && Py.mem "footnote-ref" (Dom.classes attrs)).

End Inline.

(** ** URLs of the examples *)

Module ExampleUrls.

(** What urllib computes on the URLs the examples use: absolute URLs of
    the form scheme://host/path#fragment, and links that are a bare
    #fragment, resolved against the page. *)
Definition after_scheme (u : string) : option string :=
  match Py.split_once ":" u with
  | (_, Some r) => Py.strip_prefix "//" r
  | (_, None) => None
  end.

Definition ends_netloc (c : ascii) : bool :=
  Ascii.eqb c "/" || Ascii.eqb c "?" || Ascii.eqb c "#".

Definition ends_path (c : ascii) : bool :=
  Ascii.eqb c "?" || Ascii.eqb c "#".

Definition netloc (u : string) : string :=
  match after_scheme u with
  | Some r => Py.take_while (λ c, negb (ends_netloc c)) r
  | None => ""
  end.

Definition path (u : string) : string :=
  match after_scheme u with
  | Some r =>
      Py.take_while (λ c, negb (ends_path c))
                    (Py.drop_while (λ c, negb (ends_netloc c)) r)
  | None => Py.take_while (λ c, negb (ends_path c)) u
  end.

Definition fragment (u : string) : string :=
  match Py.split_once "#" u with
  | (_, Some f) => f
  | (_, None) => ""
  end.

Definition join (base href : string) : string :=
  if Py.startswith "#" href then fst (Py.split_once "#" base) +:+ href
  else href.

Definition urls : Urllib := {|
  urljoin := join;
  url_netloc := netloc;
  url_path := path;
  url_fragment := fragment;
  requote_uri := λ u, u
|}.

End ExampleUrls.

(** ** The blocks of an extraction pass *)

Module FlowTrace.

(** A node of the pass as the loop of [render_blocks] treats it: a flow
    block is handed to [push_flow] with its text and word count; a
    structural block (heading, figure, image, code, rule, conversation,
    admonition) first calls [flush_flow] and then appends its parts, none
    when it renders to nothing. *)
Inductive block :=
| Flow (tex : string) (words : Z)
| Structural (rendered : list string).

Definition block_ops (b : block) : list FlowPacker.op :=
  match b with
  | Flow tex words => [FlowPacker.Push tex words]
  | Structural rendered => FlowPacker.Flush :: map FlowPacker.Emit rendered
  end.

(** [render_blocks] over the classified nodes, with its final flush. *)
Definition render_blocks (hybrid : bool) (blocks : list block) : list string :=
  FlowPacker.render_pass hybrid (flat_map block_ops blocks).

(** The part a run of flow blocks becomes: nothing for an empty run,
    otherwise the joined texts, in two columns when the rule says so. *)
Definition chunk_of (hybrid : bool) (run : list (string * Z)) : list string :=
  match run with
  | [] => []
  | _ :: _ =>
      let chunk := Py.join (map fst run) in
      if hybrid && (((2 <=? Z.of_nat (length run))
                     && (110 <=? FlowPacker.sumZ (map snd run)))
                    || (180 <=? FlowPacker.sumZ (map snd run)))
      then [FlowPacker.hybridcols chunk] else [chunk]
  end.

(** The output described block by block: [run] is the run of flow blocks
    read since the last structural block. *)
Fixpoint pack (hybrid : bool) (blocks : list block) (run : list (string * Z))
    : list string :=
  match blocks with
  | [] => chunk_of hybrid run
  | Flow tex words :: rest =>
      pack hybrid rest (if Py.truthy tex then run ++ [(tex, words)] else run)
  | Structural rendered :: rest =>
      chunk_of hybrid run ++ rendered ++ pack hybrid rest []
  end.

(** The texts of the blocks in document order. *)
Definition block_texts (b : block) : list string :=
  match b with
  | Flow tex _ => [tex]
  | Structural rendered => rendered
  end.

End FlowTrace.

(** ** plan_utils.py *)

Module PlanUtils.

Inductive exn :=
| ValueError (msg : string)
| SystemExit (msg : string).

(** *** [validate_plan_name] *)

(** The class [[a-z0-9]]. *)
Definition is_name_char (c : ascii) : bool :=
  let n := nat_of_ascii c in
  ((97 <=? n)%nat && (n <=? 122)%nat) || ((48 <=? n)%nat && (n <=? 57)%nat).

(** [_NAME_RE.match(name)] for the pattern [^[a-z0-9]+(-[a-z0-9]+)*$], read
    from the left; [in_group] tells that the group being read already has
    a character.  [$] matches at the end of the string and also just
    before a line feed that ends it. *)
Fixpoint name_re_match (in_group : bool) (s : string) : bool :=
  match s with
  | EmptyString => in_group
  | String c r =>
      if is_name_char c then name_re_match true r
      else if Ascii.eqb c "-" then in_group && name_re_match false r
      else if Ascii.eqb c (ascii_of_nat 10)
      then in_group && negb (Py.truthy r)
      else false
  end.

Definition validate_plan_name (name : string) : option exn :=
  if negb (Py.truthy name) || negb (name_re_match false name)
  then Some (ValueError
               ("Invalid plan name. Use short, lower-case, hyphen-delimited names "
                +:+ "(e.g., codex-rate-limit-overview)."))
  else None.

(** A hyphen-delimited name: one or more groups, each one or more
    characters of [[a-z0-9]], joined by hyphens. *)
Definition is_group (g : string) : Prop :=
  g ≠ EmptyString ∧ Forall (λ c, is_name_char c = true) (list_ascii_of_string g).

Definition hyphenated (name : string) : Prop :=
  ∃ g gs, Forall is_group (g :: gs) ∧ name = Py.join_with "-" (g :: gs).

(** What the matcher accepts from each of its two states: a first group
    (possibly empty once a character of it has been read), further groups,
    and the end of the string or one line feed. *)
Definition accepts (in_group : bool) (s : string) : Prop :=
  ∃ g gs tail,
    Forall (λ c, is_name_char c = true) (list_ascii_of_string g) ∧
    (in_group = false → g ≠ EmptyString) ∧
    Forall is_group gs ∧
    (tail = EmptyString ∨ tail = Py.LF) ∧
    s = Py.join_with "-" (g :: gs) +:+ tail.

(** *** [parse_frontmatter] *)

Definition is_quote (c : ascii) : bool :=
  Ascii.eqb c (ascii_of_nat 34) || Ascii.eqb c "'".

(** The last character of a string. *)
Fixpoint last_char (s : string) : option ascii :=
  match s with
  | EmptyString => None
  | String c EmptyString => Some c
  | String _ r => last_char r
  end.

(** [s[:-1]] *)
Fixpoint drop_last (s : string) : string :=
  match s with
  | EmptyString => EmptyString
  | String _ EmptyString => EmptyString
  | String c r => String c (drop_last r)
  end.

(** The test and the slice [value[1:-1]] that strip one pair of matching
    quotes. *)
Definition unquote (value : string) : string :=
  match value with
  | EmptyString => value
  | String first rest =>
      if (2 <=? String.length value)%nat
         && bool_decide (last_char value = Some first) && is_quote first
      then drop_last rest else value
  end.

(** The loop [for line in handle] over the lines after the first. *)
Fixpoint frontmatter_loop (lines : list string) (data : gmap string string)
    : exn + gmap string string :=
  match lines with
  | [] => inl (ValueError "Frontmatter must end with '---'.")
  | line :: rest =>
      let stripped := Py.strip line in
      if String.eqb stripped "---" then inr data
      else if negb (Py.truthy stripped) || Py.startswith "#" stripped
      then frontmatter_loop rest data
      else if negb (Py.contains ":" line)
      then inl (ValueError ("Invalid frontmatter line: " +:+ Py.rstrip line))
      else
        match Py.split_once ":" line with
        | (key, Some value) =>
            frontmatter_loop rest
              (<[Py.strip key := unquote (Py.strip value)]> data)
        | (key, None) =>
            inl (ValueError ("Invalid frontmatter line: " +:+ Py.rstrip line))
        end
  end.

(** [parse_frontmatter] on the lines of the file; [readline] on an empty
    file gives the empty string. *)
Definition parse_frontmatter (lines : list string) : exn + gmap string string :=
  let first := match lines with [] => EmptyString | l :: _ => l end in
  if negb (String.eqb (Py.strip first) "---")
  then inl (ValueError "Frontmatter must start with '---'.")
  else frontmatter_loop (tail lines) ∅.

(** A line the loop passes over or reads as an entry. *)
Definition skipped (line : string) : bool :=
  negb (Py.truthy (Py.strip line)) || Py.startswith "#" (Py.strip line).

Definition header_line (line : string) : Prop :=
  Py.strip line ≠ "---" ∧ (skipped line = true ∨ Py.contains ":" line = true).

(** The key and value an entry line sets. *)
Definition entry_key (line : string) : string :=
  Py.strip (fst (Py.split_once ":" line)).

Definition entry_value (line : string) : string :=
  match snd (Py.split_once ":" line) with
  | Some value => unquote (Py.strip value)
  | None => EmptyString
  end.

Definition is_entry (line : string) : Prop :=
  Py.strip line ≠ "---" ∧ skipped line = false ∧ Py.contains ":" line = true.

(** The entries of a header, in order. *)
Definition entry_of (line : string) : option (string * string) :=
  if String.eqb (Py.strip line) "---" || skipped line then None
  else
    match Py.split_once ":" line with
    | (key, Some value) => Some (Py.strip key, unquote (Py.strip value))
    | (_, None) => None
    end.

Definition entries (header : list string) : list (string * string) :=
  omap entry_of header.

(** [data[key] = value] *)
Definition insert_entry (m : gmap string string) (kv : string * string)
  : gmap string string := <[fst kv := snd kv]> m.

(** The value the last entry with key [k] gives it. *)
Definition last_value (k : string) (es : list (string * string)) : option string :=
  snd <$> last (filter (λ kv, fst kv = k) es).

(** *** [find_git_root], [get_project_root], [get_plans_dir] *)

(** A resolved path is the list of its components below the root.  The
    file system answers whether a directory holds [.git]; [resolve] stands
    for [Path.resolve] and [resolve_user] for
    [Path(s).expanduser().resolve()]. *)
Section Roots.
Variable has_git : list string → bool.
Variable resolve : list string → list string.
Variable resolve_user : string → list string.

(** [(current, *current.parents)]: the path and its ancestors, nearest
    first; [k] counts the components still to drop. *)
Fixpoint candidates_from (current : list string) (k : nat) : list (list string) :=
  match k with
  | O => [take 0 current]
  | S k' => take (S k') current :: candidates_from current k'
  end.

Definition candidates (current : list string) : list (list string) :=
  candidates_from current (length current).

Definition find_git_root (start : list string) : option (list string) :=
  List.find has_git (candidates (resolve start)).




End Roots.

End PlanUtils.

(** ** The text handle of [parse_frontmatter] *)

Module PlanFile.
Import PlanUtils.

(** What one read of the handle gives, be it [handle.readline()] or a
    step of [for line in handle]: a line, or [UnicodeDecodeError].  The
    text layer decodes the file a buffered chunk at a time, so the bytes
    that make a read fail may lie well after the line being read. *)
Inductive read :=
| Line (line : string)
| DecodeError.

(** What ends a call without a result: an exception the function raises
    itself, or the [UnicodeDecodeError] of a read, which it does not
    catch. *)
Inductive failure :=
| Raised (e : exn)
| UnicodeDecodeError.

(** The loop [for line in handle] over the reads after the first; the
    reads are over at the end of the file. *)
Fixpoint frontmatter_loop (reads : list read) (data : gmap string string)
    : failure + gmap string string :=
  match reads with
  | [] => inl (Raised (ValueError "Frontmatter must end with '---'."))
  | DecodeError :: _ => inl UnicodeDecodeError
  | Line line :: rest =>
      let stripped := Py.strip line in
      if String.eqb stripped "---" then inr data
      else if negb (Py.truthy stripped) || Py.startswith "#" stripped
      then frontmatter_loop rest data
      else if negb (Py.contains ":" line)
      then inl (Raised (ValueError ("Invalid frontmatter line: " +:+ Py.rstrip line)))
      else
        match Py.split_once ":" line with
        | (key, Some value) =>
            frontmatter_loop rest
              (<[Py.strip key := unquote (Py.strip value)]> data)
        | (key, None) =>
            inl (Raised (ValueError ("Invalid frontmatter line: " +:+ Py.rstrip line)))
        end
  end.

(** [parse_frontmatter] on the reads of the handle; [readline] at the end
    of the file gives the empty string. *)
Definition parse_frontmatter (reads : list read)
    : failure + gmap string string :=
  match reads with
  | DecodeError :: _ => inl UnicodeDecodeError
  | [] =>
      inl (Raised (ValueError "Frontmatter must start with '---'."))
  | Line first :: rest =>
      if negb (String.eqb (Py.strip first) "---")
      then inl (Raised (ValueError "Frontmatter must start with '---'."))
      else frontmatter_loop rest ∅
  end.

(** The result of a call none of whose reads fails. *)
Definition of_lines (r : exn + gmap string string)
    : failure + gmap string string :=
  match r with
  | inl e => inl (Raised e)
  | inr data => inr data
  end.

End PlanFile.

(** ** The assets of an image store *)

Module ImageAssets.

(** The paths of the asset files written, in order. *)
Definition asset_paths (w : Images.world) : list string := map fst (Images.files w).

(** Every cached path names a file that was written, and no two resolved
    sources share a path. *)
Definition cache_sound (st : Images.store) (w : Images.world) : Prop :=
  (∀ (u p : string), Images.cache st !! u = Some p → p ∈ asset_paths w) ∧
  (∀ (u1 u2 p : string),
     Images.cache st !! u1 = Some p → Images.cache st !! u2 = Some p → u1 = u2).

End ImageAssets.

(* ------------------------------------------------------------------ *)
(** ** What the footnote tables may hold

    [register_ids] writes under a key only when the key is non-empty and
    [build_numbered_footnotes] registers only under [if num and text]. *)

Module FootnoteTables.
Import Footnotes.

Definition tables_clean (tb : tables) : Prop :=
  (∀ (n : Z) (t : string), footnotes_by_number tb !! n = Some t → 0 < n ∧ t ≠ "") ∧
  (∀ (k t : string), footnotes_by_id tb !! k = Some t → k ≠ "" ∧ t ≠ "").

End FootnoteTables.

(* ------------------------------------------------------------------ *)
(** ** Words, badges and colours *)

Module Text.

(** An ASCII character, and a text of ASCII characters only. *)
Definition is_ascii (c : ascii) : bool := (nat_of_ascii c <? 128)%nat.

Definition ascii_text (s : string) : bool :=
  forallb is_ascii (list_ascii_of_string s).

(** [sys.int_info.str_digits_check_threshold]: [int] reads a string of at
    most this many digits whatever limit on the digits is configured (the
    default limit is 4300). *)
Definition str_digits_check_threshold : nat := 640.

(** A character of the class [A-Za-z0-9]. *)
Definition is_alnum (c : ascii) : bool :=
  let n := nat_of_ascii c in
  ((48 <=? n)%nat && (n <=? 57)%nat) || ((65 <=? n)%nat && (n <=? 90)%nat)
  || ((97 <=? n)%nat && (n <=? 122)%nat).

(** [len(re.findall('[A-Za-z0-9]+', s))]: the maximal runs of letters and
    digits, read from the left; [in_word] tells that the run being read has
    been counted. *)
Fixpoint count_words (in_word : bool) (s : string) : Z :=
  match s with
  | EmptyString => 0
  | String c r =>
      if is_alnum c then (if in_word then 0 else 1) + count_words true r
      else count_words false r
  end.

Definition word_count (s : string) : Z := count_words false s.

(** Every character of [l] for which [special] holds comes right after a
    backslash; [after_backslash] tells that the character before [l] is
    one. *)
Fixpoint escaped (special : ascii → bool) (after_backslash : bool)
    (l : list ascii) : bool :=
  match l with
  | [] => true
  | c :: r =>
      (if special c then after_backslash else true)
      && escaped special (Ascii.eqb c "\"%char) r
  end.

Definition is_brace (c : ascii) : bool :=
  Ascii.eqb c "{"%char || Ascii.eqb c "}"%char.

(** The characters of [LATEX_SPECIALS] that LaTeX reads as commands when
    nothing is put before them, the braces and the tilde apart. *)
Definition is_latex_special (c : ascii) : bool :=
  existsb (Ascii.eqb c) ["%"; "$"; "#"; "&"; "_"; "^"]%char.

Definition braces_escaped (s : string) : bool :=
  escaped is_brace false (list_ascii_of_string s).

(** White space of [l] is single spaces; [after_space] tells that the
    character before [l] is white space. *)
Fixpoint squeezed (after_space : bool) (l : list ascii) : bool :=
  match l with
  | [] => true
  | c :: r =>
      if Py.is_space c then
        Ascii.eqb c " "%char && negb after_space && squeezed true r
      else squeezed false r
  end.

End Text.

Module Badges.

Definition badge_palette (label : string) : string * string :=
  let key := Py.lower (Py.collapse_ws label) in
  if Py.contains "root" key then ("RootBg", "RootFg")
  else if Py.contains "system" key then ("SystemBg", "SystemFg")
  else if Py.contains "developer" key then ("DeveloperBg", "DeveloperFg")
  else if Py.contains "user" key then ("UserBg", "UserFg")
  else if Py.contains "guideline" key then ("GuidelineBg", "GuidelineFg")
  else ("NeutralBadgeBg", "NeutralBadgeFg").

Definition render_badge (label : string) : string :=
  let '(bg, fg) := badge_palette label in
  "\modelbadge{" +:+ bg +:+ "}{" +:+ fg +:+ "}{"
    +:+ Latex.latex_escape_plain label +:+ "}".

Definition quality_palette (kind : string) : string * string :=
  if String.eqb kind "good" then ("GoodBadgeBg", "GoodBadgeFg")
  else if String.eqb kind "bad" then ("BadBadgeBg", "BadBadgeFg")
  else ("NeutralBadgeBg", "NeutralBadgeFg").

Definition render_quality_badge (label kind : string) : string :=
  let '(bg, fg) := quality_palette kind in
  "\modelbadge{" +:+ bg +:+ "}{" +:+ fg +:+ "}{"
    +:+ Latex.latex_escape_plain label +:+ "}".

Definition message_palette (role kind : string) : string * string :=
  if String.eqb kind "good" then ("GoodBg", "GoodFrame")
  else if String.eqb kind "bad" then ("BadBg", "BadFrame")
  else
    let role_key := Py.lower role in
    if Py.contains "developer" role_key then ("DeveloperMsgBg", "DeveloperMsgFrame")
    else if Py.contains "system" role_key then ("SystemMsgBg", "SystemMsgFrame")
    else if Py.contains "user" role_key then ("UserMsgBg", "UserMsgFrame")
    else if Py.contains "tool" role_key then ("ToolMsgBg", "ToolMsgFrame")
    else ("AssistantMsgBg", "AssistantMsgFrame").

(** The [\definecolor] lines of the text [latex_preamble] returns, in
    their order. *)
Definition COLOR_LINES : list string :=
  [ "\definecolor{Accent}{HTML}{7A3B2E}";
    "\definecolor{LinkColor}{HTML}{245B93}";
    "\definecolor{Muted}{HTML}{6B6B6B}";
    "\definecolor{PageGray}{gray}{0.6}";
    "\definecolor{InfoBg}{HTML}{EAF1FF}";
    "\definecolor{InfoBorder}{HTML}{C6D5F5}";
    "\definecolor{ConversationBg}{HTML}{F6F7F9}";
    "\definecolor{ConversationBorder}{HTML}{D9DEE6}";
    "\definecolor{CodeBg}{HTML}{F7F8FB}";
    "\definecolor{CodeFrame}{HTML}{D9DCE5}";
    "\definecolor{RootBg}{HTML}{FDECEC}";
    "\definecolor{RootFg}{HTML}{8F1F20}";
    "\definecolor{SystemBg}{HTML}{EAF2FF}";
    "\definecolor{SystemFg}{HTML}{1D4E89}";
    "\definecolor{DeveloperBg}{HTML}{FFF2DE}";
    "\definecolor{DeveloperFg}{HTML}{8A4B00}";
    "\definecolor{UserBg}{HTML}{EAF8F2}";
    "\definecolor{UserFg}{HTML}{22633E}";
    "\definecolor{GuidelineBg}{HTML}{ECECF1}";
    "\definecolor{GuidelineFg}{HTML}{4A4B5A}";
    "\definecolor{NeutralBadgeBg}{HTML}{EFF0F3}";
    "\definecolor{NeutralBadgeFg}{HTML}{545763}";
    "\definecolor{AssistantMsgBg}{HTML}{F5F7FA}";
    "\definecolor{AssistantMsgFrame}{HTML}{D5DDE9}";
    "\definecolor{UserMsgBg}{HTML}{F2F6FF}";
    "\definecolor{UserMsgFrame}{HTML}{CEDBF2}";
    "\definecolor{DeveloperMsgBg}{HTML}{FFF6E9}";
    "\definecolor{DeveloperMsgFrame}{HTML}{EFD4A7}";
    "\definecolor{SystemMsgBg}{HTML}{EEF9F3}";
    "\definecolor{SystemMsgFrame}{HTML}{C5E3D2}";
    "\definecolor{ToolMsgBg}{HTML}{F3F3F6}";
    "\definecolor{ToolMsgFrame}{HTML}{D8D8DE}";
    "\definecolor{GoodBg}{HTML}{EEF8EA}";
    "\definecolor{GoodFrame}{HTML}{BFDDB5}";
    "\definecolor{BadBg}{HTML}{FBECEC}";
    "\definecolor{BadFrame}{HTML}{E8B9B9}";
    "\definecolor{GoodBadgeBg}{HTML}{E5F5E5}";
    "\definecolor{GoodBadgeFg}{HTML}{256B35}";
    "\definecolor{BadBadgeBg}{HTML}{FBE5E5}";
    "\definecolor{BadBadgeFg}{HTML}{922F33}" ].

(** The name a [\definecolor] line declares. *)
Definition color_name (line : string) : option string :=
  match Py.strip_prefix "\definecolor{" line with
  | Some rest => Some (fst (Py.split_once "}" rest))
  | None => None
  end.

Definition defined_colors : list string := omap color_name COLOR_LINES.

End Badges.

(* ------------------------------------------------------------------ *)
(** ** [latex_escape_with_commands] *)

Module Commands.

Definition ALLOWED_COMMANDS : list string := ["emph"; "textbf"; "textit"; "textsc"].

(** A character of the class [A-Za-z]. *)
Definition is_alpha (c : ascii) : bool :=
  let n := nat_of_ascii c in
  ((65 <=? n)%nat && (n <=? 90)%nat) || ((97 <=? n)%nat && (n <=? 122)%nat).

(** The inner loop [while k < n]: [s] is what is left from the index [k]
    on.  It ends at the first closing brace that brings [depth] to 0 and
    gives its index, or runs off the end. *)
Fixpoint find_close (depth : Z) (k : nat) (s : string) : option nat :=
  match s with
  | EmptyString => None
  | String c r =>
      if Ascii.eqb c "{"%char then find_close (depth + 1) (S k) r
      else if Ascii.eqb c "}"%char then
        if depth - 1 =? 0 then Some k else find_close (depth - 1) (S k) r
      else find_close depth (S k) r
  end.

(** [s[n:]] *)
Definition from_index (n : nat) (s : string) : string :=
  String.substring n (String.length s - n) s.

(** The loop [while i < n]: [s] is [s[i:]], and [skip] counts the
    characters of a command just copied that are still to be passed over.
    At a backslash [cmd] is the group of the match of a backslash and
    letters, [rest] is [s[j:]] and the index [find_close] gives counts
    from [j]. *)
Fixpoint commands_go (skip : nat) (s : string) : string :=
  match s with
  | EmptyString => EmptyString
  | String ch r =>
      match skip with
      | S k => commands_go k r
      | O =>
          if Ascii.eqb ch "\"%char then
            let cmd := Py.take_while is_alpha r in
            let rest := from_index (String.length cmd) r in
            let copied :=
              if Py.truthy cmd && Py.mem cmd ALLOWED_COMMANDS
                 && Py.startswith "{" rest
              then
                match find_close 0 0 rest with
                | Some k => Some (String.substring 1 (k - 1) rest, k)
                | None => None
                end
              else None in
            match copied with
            | Some (inner, k) =>
                ("\" +:+ cmd +:+ "{" +:+ Latex.latex_escape_plain inner +:+ "}")
                +:+ commands_go (String.length cmd + k + 1) r
            | None => "\textbackslash{}" +:+ commands_go O r
            end
          else
            match Latex.assoc_char ch Latex.LATEX_SPECIALS with
            | Some v => v +:+ commands_go O r
            | None => String ch (commands_go O r)
            end
      end
  end.

Definition latex_escape_with_commands (s : string) : string :=
  commands_go O (Latex.normalize_text s).

End Commands.

(* ================================================================= *)
(** * Properties *)

(** ** Strings *)

Module PyFacts.
Import Py.

Lemma truthy_true s : truthy s = true ↔ s ≠ "".
Proof. destruct s; simpl; split; done. Qed.

Lemma truthy_false s : truthy s = false ↔ s = "".
Proof. destruct s; simpl; split; done. Qed.

Lemma append_nonempty_l s t : s ≠ "" → s +:+ t ≠ "".
Proof. destruct s; simpl; done. Qed.

Lemma append_nonempty_r s t : t ≠ "" → s +:+ t ≠ "".
Proof. destruct s, t; simpl; done. Qed.

Lemma length_append s t :
  String.length (s +:+ t) = (String.length s + String.length t)%nat.
Proof. induction s as [|c s IH]; simpl; [done | by rewrite IH]. Qed.

End PyFacts.

(** ** Flow packing *)

Module FlowPackerFacts.
Import FlowPacker.

Lemma sumZ_app l1 l2 : sumZ (l1 ++ l2) = sumZ l1 + sumZ l2.
Proof. induction l1 as [|x l1 IH]; simpl; [reflexivity | rewrite IH; lia]. Qed.

Lemma step_consistent hybrid st buf o :
  consistent st buf →
  consistent (step hybrid st o) (pending [o] buf).
Proof.
  intros (Hp & Hw & Hb). destruct o as [tex words| |x]; simpl.
  - unfold push_flow. destruct (Py.truthy tex); [|done].
    repeat split; simpl.
    + by rewrite Hp, map_app.
    + rewrite Hw, map_app, sumZ_app. simpl. lia.
    + rewrite Hb, length_app. simpl. lia.
  - unfold flush_flow. destruct (flow_parts st) eqn:E.
    + destruct buf; [|discriminate]. by repeat split.
    + by destruct (_ && _).
  - done.
Qed.

Lemma pending_app ops1 ops2 acc :
  pending (ops1 ++ ops2) acc = pending ops2 (pending ops1 acc).
Proof.
  revert acc. induction ops1 as [|[tex words| |x] r IH]; intros acc; simpl; auto.
Qed.

Lemma fold_consistent hybrid ops st buf :
  consistent st buf →
  consistent (fold_left (step hybrid) ops st) (pending ops buf).
Proof.
  revert st buf. induction ops as [|o r IH]; intros st buf H; [done|].
  pose proof (step_consistent hybrid st buf o H) as Ho.
  destruct o; simpl in *; by apply IH.
Qed.

Lemma run_consistent hybrid ops : consistent (run hybrid ops) (pending ops []).
Proof. by apply fold_consistent. Qed.

Lemma pending_texts_nonempty ops acc :
  Forall (λ b, fst b ≠ "") acc → Forall (λ b, fst b ≠ "") (pending ops acc).
Proof.
  revert acc. induction ops as [|[tex words| |x] r IH]; intros acc H; simpl; auto.
  apply IH. destruct (Py.truthy tex) eqn:E; [|done].
  apply Forall_app; split; [done|]. constructor; [|constructor].
  simpl. by apply PyFacts.truthy_true.
Qed.

Lemma length_hybridcols chunk :
  String.length (hybridcols chunk) = (String.length chunk + 37)%nat.
Proof.
  unfold hybridcols. rewrite !PyFacts.length_append. simpl. lia.
Qed.

Lemma hybridcols_neq chunk : hybridcols chunk ≠ chunk.
Proof.
  intros E. pose proof (length_hybridcols chunk) as L. rewrite E in L. lia.
Qed.

Lemma flush_flow_empty hybrid st :
  flow_parts st = [] → flush_flow hybrid st = st ∧ emitted hybrid st = [].
Proof.
  intros E. unfold emitted, flush_flow. rewrite E. split; [done|].
  by rewrite drop_all.
Qed.

Lemma flush_flow_nonempty hybrid st :
  flow_parts st ≠ [] →
  ∃ l, flush_flow hybrid st
         = mkState (parts st ++ [render_layout l (Py.join (flow_parts st))]) [] 0 0
       ∧ emitted hybrid st = [render_layout l (Py.join (flow_parts st))]
       ∧ (l = MultiColumn ↔
          multi_column_rule hybrid (flow_blocks st) (flow_words st)).
Proof.
  intros Hne. unfold emitted, flush_flow, multi_column_rule.
  destruct (flow_parts st) as [|p ps] eqn:E; [done|].
  destruct (hybrid && _) eqn:C.
  - exists MultiColumn. simpl. rewrite drop_app_length.
    split; [done|]. split; [done|]. split; [|done].
    intros _. apply andb_true_iff in C as [-> C]. split; [done|].
    apply orb_true_iff in C as [C|C].
    + apply andb_true_iff in C as [C1 C2]. left. lia.
    + right. lia.
  - exists SingleColumn. simpl. rewrite drop_app_length.
    split; [done|]. split; [done|]. split; [done|].
    intros [-> C']. simpl in C. apply orb_false_iff in C as [C1 C2].
    apply andb_false_iff in C1. exfalso. destruct C' as [[? ?]|?]; [|lia].
    destruct C1; lia.
Qed.

End FlowPackerFacts.

(** C1. Every flush of the flow buffer during an extraction pass, that is,
    a call of [flush_flow] in the state reached after any sequence [ops] of
    loop operations: with an empty buffer it changes nothing and emits
    nothing; otherwise it emits exactly one part, the joined buffer, wrapped
    in the multi-column environment if and only if hybrid layout is enabled
    and (block_count >= 2 and word_count >= 110) or word_count >= 180, and
    unwrapped (single column) otherwise; here block_count and word_count
    are the number and the summed word counts of the blocks pushed since the
    last flush.  With hybrid disabled a non-empty flush is single-column.
    A buffer of 1 block and 200 words flushes multi-column, one of 3 blocks
    and 100 words single-column. *)
Theorem C1_flush_flow_layout (hybrid : bool) (ops : list FlowPacker.op) :
  let st := FlowPacker.run hybrid ops in
  let buf := FlowPacker.pending ops [] in
  let block_count := Z.of_nat (length buf) in
  let word_count := FlowPacker.sumZ (map snd buf) in
  let chunk := Py.join (map fst buf) in
  (buf = [] →
     FlowPacker.flush_flow hybrid st = st ∧ FlowPacker.emitted hybrid st = []) ∧
  (buf ≠ [] →
     (FlowPacker.emitted hybrid st = [FlowPacker.hybridcols chunk] ↔
        (hybrid = true ∧
         ((2 ≤ block_count ∧ 110 ≤ word_count) ∨ 180 ≤ word_count))) ∧
     (FlowPacker.emitted hybrid st = [chunk] ↔
        ¬ (hybrid = true ∧
           ((2 ≤ block_count ∧ 110 ≤ word_count) ∨ 180 ≤ word_count))) ∧
     (hybrid = false → FlowPacker.emitted hybrid st = [chunk]) ∧
     FlowPacker.flow_parts (FlowPacker.flush_flow hybrid st) = []) ∧
  (∀ s : FlowPacker.state,
     FlowPacker.flow_parts s ≠ [] →
     FlowPacker.flow_blocks s = 1 → FlowPacker.flow_words s = 200 →
     FlowPacker.emitted true s
       = [FlowPacker.hybridcols (Py.join (FlowPacker.flow_parts s))]) ∧
  (∀ s : FlowPacker.state,
     FlowPacker.flow_parts s ≠ [] →
     FlowPacker.flow_blocks s = 3 → FlowPacker.flow_words s = 100 →
     FlowPacker.emitted true s = [Py.join (FlowPacker.flow_parts s)]).
Proof.
  intros st buf block_count word_count chunk.
  destruct (FlowPackerFacts.run_consistent hybrid ops) as (Hp & Hw & Hb).
  fold st buf in Hp, Hw, Hb. fold word_count in Hw. fold block_count in Hb.
  split; [|split; [|split]].
  - intros E. apply FlowPackerFacts.flush_flow_empty. by rewrite Hp, E.
  - intros Hne.
    assert (FlowPacker.flow_parts st ≠ []) as Hne'.
    { rewrite Hp. by destruct buf. }
    destruct (FlowPackerFacts.flush_flow_nonempty hybrid st Hne')
      as (l & Hst & Hem & Hl).
    rewrite Hb, Hw in Hl. rewrite Hp in Hem, Hst. fold chunk in Hem, Hst.
    unfold FlowPacker.multi_column_rule in Hl.
    rewrite Hem, Hst. simpl.
    pose proof (FlowPackerFacts.hybridcols_neq chunk) as Hd.
    destruct l; simpl.
    + assert (hybrid = true ∧
              (2 ≤ block_count ∧ 110 ≤ word_count ∨ 180 ≤ word_count)) as R
        by by apply Hl.
      split; [done|]. split; [|split; [|done]].
      * split; [|done]. intros E. injection E as E. done.
      * destruct R as [-> _]. done.
    + assert (¬ (hybrid = true ∧
              (2 ≤ block_count ∧ 110 ≤ word_count ∨ 180 ≤ word_count))) as R.
      { intros R. apply Hl in R. discriminate. }
      split; [|done].
      split; [|done]. intros E. injection E as E. symmetry in E. done.
  - intros s Hne Hbk Hwd.
    destruct (FlowPackerFacts.flush_flow_nonempty true s Hne) as (l & _ & Hem & Hl).
    rewrite Hem. destruct l; [done|].
    assert (FlowPacker.SingleColumn = FlowPacker.MultiColumn) as E; [|discriminate].
    apply Hl. split; [done|]. right. lia.
  - intros s Hne Hbk Hwd.
    destruct (FlowPackerFacts.flush_flow_nonempty true s Hne) as (l & _ & Hem & Hl).
    rewrite Hem. destruct l; [|done].
    assert (FlowPacker.multi_column_rule true
              (FlowPacker.flow_blocks s) (FlowPacker.flow_words s)) as R
      by by apply Hl.
    destruct R as [_ R]. lia.
Qed.

(** ** Booklet splitting *)

Module BookletFacts.
Import Booklet.

Lemma ceil_div_spec a b :
  0 < b → (Py.ceil_div a b - 1) * b < a ≤ Py.ceil_div a b * b.
Proof.
  intros Hb. unfold Py.ceil_div.
  pose proof (Z.div_mod (- a) b ltac:(lia)) as E.
  pose proof (Z.mod_pos_bound (- a) b Hb) as M. nia.
Qed.

Lemma range_cons lo hi : lo < hi → Py.range lo hi = lo :: Py.range (lo + 1) hi.
Proof.
  intros H. unfold Py.range.
  replace (Z.to_nat (hi - lo)) with (S (Z.to_nat (hi - (lo + 1)))) by lia.
  simpl. f_equal; [lia|]. rewrite <- seq_shift, map_map.
  apply map_ext. intros k. lia.
Qed.

Lemma range_nil lo hi : hi ≤ lo → Py.range lo hi = [].
Proof. intros H. unfold Py.range. by replace (Z.to_nat (hi - lo)) with O by lia. Qed.

Lemma range_length lo hi : length (Py.range lo hi) = Z.to_nat (hi - lo).
Proof. unfold Py.range. by rewrite length_map, length_seq. Qed.

Lemma range_lookup lo hi (k : nat) :
  (k < Z.to_nat (hi - lo))%nat → Py.range lo hi !! k = Some (lo + Z.of_nat k).
Proof.
  intros H. unfold Py.range. rewrite list_lookup_fmap.
  rewrite lookup_seq_lt by done. done.
Qed.

Section Pages.
Context {page : Type}.
Implicit Types reader : list page.

(** Indexing page by page over [range(lo, hi)] reads the slice. *)
Lemma getitem_range reader (lo : nat) (len : nat) :
  (lo + len ≤ length reader)%nat →
  mapM (Py.getitem reader) (Py.range (Z.of_nat lo) (Z.of_nat lo + Z.of_nat len))
  = Some (take len (drop lo reader)).
Proof.
  revert lo. induction len as [|len IH]; intros lo H.
  - rewrite range_nil by lia. by rewrite take_0.
  - rewrite range_cons by lia.
    destruct (lookup_lt_is_Some_2 reader lo ltac:(lia)) as [p Hp].
    assert (Py.getitem reader (Z.of_nat lo) = Some p) as G.
    { unfold Py.getitem.
      replace (0 <=? Z.of_nat lo) with true by (symmetry; apply Z.leb_le; lia).
      by rewrite Nat2Z.id. }
    replace (Z.of_nat lo + 1) with (Z.of_nat (S lo)) by lia.
    replace (Z.of_nat lo + Z.of_nat (S len)) with (Z.of_nat (S lo) + Z.of_nat len) by lia.
    cbn [mapM]. rewrite G, IH by lia. simpl.
    by rewrite (drop_S _ _ _ Hp).
Qed.

Lemma getitem_page_range reader lo hi :
  0 ≤ lo → hi ≤ Z.of_nat (length reader) →
  mapM (Py.getitem reader) (Py.range lo hi) = Some (page_range reader lo hi).
Proof.
  intros Hlo Hhi. unfold page_range.
  destruct (Z.le_gt_cases hi lo) as [H|H].
  - rewrite range_nil by done. by replace (Z.to_nat (hi - lo)) with O by lia.
  - pose proof (getitem_range reader (Z.to_nat lo) (Z.to_nat (hi - lo)) ltac:(lia)) as G.
    rewrite Z2Nat.id in G by lia.
    replace (lo + Z.of_nat (Z.to_nat (hi - lo))) with hi in G by lia. done.
Qed.

Lemma page_range_lookup reader lo hi (j : Z) :
  0 ≤ lo → lo ≤ j < hi →
  page_range reader lo hi !! Z.to_nat (j - lo) = reader !! Z.to_nat j.
Proof.
  intros Hlo Hj. unfold page_range.
  rewrite lookup_take_lt by lia. rewrite lookup_drop. f_equal. lia.
Qed.

Lemma page_range_length reader lo hi :
  0 ≤ lo → hi ≤ Z.of_nat (length reader) →
  length (page_range reader lo hi) = Z.to_nat (hi - lo).
Proof.
  intros Hlo Hhi. unfold page_range. rewrite length_take, length_drop. lia.
Qed.

Lemma content_of_map_content (ps : list page) :
  content_of (map ContentPage ps) = ps.
Proof.
  unfold content_of. induction ps as [|p ps IH]; [done|].
  simpl. f_equal. exact IH.
Qed.

Lemma covers_of_map_content (ps : list page) :
  covers_of (map ContentPage ps) = [].
Proof.
  unfold covers_of. induction ps as [|p ps IH]; [done|]. simpl. exact IH.
Qed.

Variables outdir basename paper title : string.

Lemma sections_loop_ok reader c total indices log outputs :
  0 < c → Forall (λ i, 0 ≤ i) indices →
  sections_loop reader outdir basename paper title c total indices log outputs
  = (log ++ flat_map (section_events reader outdir basename paper title c total)
                     indices,
     inr (outputs ++ map (λ i, section_path outdir basename i total) indices)).
Proof.
  intros Hc. revert log outputs.
  induction indices as [|i rest IH]; intros log outputs Hall.
  - simpl. by rewrite !app_nil_r.
  - apply Forall_cons in Hall as [Hi Hrest]. cbn [sections_loop].
    rewrite getitem_page_range by nia.
    rewrite IH by done. cbn [flat_map map section_events].
    f_equal.
    + rewrite <- !app_assoc. done.
    + by rewrite <- app_assoc.
Qed.

Lemma content_of_section_file reader c total i :
  content_of (snd (section_file reader outdir basename paper title c total i))
  = section_content reader c i.
Proof.
  unfold section_file. cbn [snd].
  change (content_of (CoverPage ?x :: ?l)) with (content_of l).
  apply content_of_map_content.
Qed.

Lemma covers_of_section_file reader c total i :
  covers_of (snd (section_file reader outdir basename paper title c total i))
  = [section_cover reader paper title c total i].
Proof.
  unfold section_file. cbn [snd].
  change (covers_of (CoverPage ?x :: ?l)) with (x :: covers_of l).
  by rewrite covers_of_map_content.
Qed.

Lemma written_app (l1 l2 : list (@event page)) :
  written (l1 ++ l2) = written l1 ++ written l2.
Proof. unfold written. apply omap_app. Qed.

Lemma written_section_events reader c total indices :
  written (flat_map (section_events reader outdir basename paper title c total)
                    indices)
  = map (section_file reader outdir basename paper title c total) indices.
Proof.
  induction indices as [|i rest IH]; [done|].
  cbn [flat_map map]. rewrite written_app, IH. done.
Qed.

Lemma covers_compiled_section_events reader c total indices :
  covers_compiled
    (flat_map (section_events reader outdir basename paper title c total)
              indices)
  = map (section_cover reader paper title c total) indices.
Proof.
  induction indices as [|i rest IH]; [done|].
  cbn [flat_map map]. unfold covers_compiled in *.
  rewrite omap_app, IH. done.
Qed.

(** The chunks from section [k] on make up the rest of the document. *)
Lemma chunks_from reader c n (m : nat) k :
  0 < c → 0 ≤ k → k + Z.of_nat m = n → Z.of_nat (length reader) ≤ n * c →
  concat (map (section_content reader c) (Py.range k n))
  = drop (Z.to_nat (k * c)) reader.
Proof.
  intros Hc. revert k. induction m as [|m IH]; intros k Hk Hn HT.
  - rewrite range_nil by lia. simpl. rewrite drop_ge; [done|]. nia.
  - rewrite range_cons by lia. cbn [map concat].
    rewrite (IH (k + 1)) by lia.
    unfold section_content, page_range.
    set (T := Z.of_nat (length reader)) in *.
    destruct (Z.le_gt_cases ((k + 1) * c) T) as [H|H].
    + rewrite Z.min_l by done.
      replace (Z.to_nat ((k + 1) * c))
        with (Z.to_nat (k * c) + Z.to_nat ((k + 1) * c - k * c))%nat by nia.
      rewrite <- drop_drop. apply take_drop.
    + rewrite Z.min_r by lia.
      rewrite (drop_ge reader (Z.to_nat ((k + 1) * c))) by (subst T; lia).
      rewrite app_nil_r. apply take_ge. rewrite length_drop. subst T. lia.
Qed.

Lemma sections_partition reader c n :
  0 < c → 0 ≤ n → Z.of_nat (length reader) ≤ n * c →
  concat (map (section_content reader c) (Py.range 0 n)) = reader.
Proof.
  intros Hc Hn HT.
  rewrite (chunks_from reader c n (Z.to_nat n) 0) by lia. done.
Qed.

End Pages.

End BookletFacts.

Module BookletRun.
Import Booklet BookletFacts.

Section Run.
Context {page : Type}.
Variable reader : list page.
Variables outdir basename paper title : string.

(** With a valid section size the loop runs to its end and its log
    consists of the sections' events. *)
Lemma write_stapled_sections_ok (section_max_pages : Z) :
  2 ≤ section_max_pages →
  let c := section_max_pages - 1 in
  let total := Z.max 1 (Py.ceil_div (Z.of_nat (length reader)) c) in
  write_stapled_sections reader outdir basename paper title section_max_pages
  = (flat_map (section_events reader outdir basename paper title c total)
              (Py.range 0 total),
     inr (map (λ i, section_path outdir basename i total) (Py.range 0 total))).
Proof.
  intros HS c total. unfold write_stapled_sections.
  replace (section_max_pages <? 2) with false by (symmetry; apply Z.ltb_ge; lia).
  rewrite Z.max_r by lia. fold c. fold total.
  rewrite sections_loop_ok; [done | lia |].
  apply Forall_forall. intros i Hi. unfold Py.range in Hi.
  apply list_elem_of_fmap in Hi as (k & -> & _). lia.
Qed.

Lemma write_stapled_sections_invalid (section_max_pages : Z) :
  section_max_pages < 2 →
  write_stapled_sections reader outdir basename paper title section_max_pages
  = ([], inl (ValueError
                "section_max_pages must be at least 2 to include a cover page.")).
Proof.
  intros HS. unfold write_stapled_sections.
  by replace (section_max_pages <? 2) with true by (symmetry; apply Z.ltb_lt; lia).
Qed.

End Run.

End BookletRun.

(** C2. For a document of T >= 1 pages and a section size S >= 2 the
    splitter returns normally, having written n = ceil(T / (S - 1)) section
    files ((n - 1) * (S - 1) < T <= n * (S - 1)); file i (0-indexed) is one
    cover page, stating booklet i + 1 of n and the 1-indexed inclusive range
    i * (S - 1) + 1 .. min((i + 1) * (S - 1), T), followed by exactly the
    pages of the 0-indexed half-open range
    [i * (S - 1), min((i + 1) * (S - 1), T)) in document order; the content
    pages of all files, concatenated in section order, are the original page
    sequence; every section but the last holds S - 1 content pages. *)
Theorem C2_booklet_partition {page : Type} (reader : list page)
    (outdir basename paper title : string) (S : Z) :
  let T := Z.of_nat (length reader) in
  let n := Py.ceil_div T (S - 1) in
  1 ≤ T → 2 ≤ S →
  ∃ log outputs,
    Booklet.write_stapled_sections reader outdir basename paper title S
      = (log, inr outputs) ∧
    (n - 1) * (S - 1) < T ≤ n * (S - 1) ∧
    length (Booklet.written log) = Z.to_nat n ∧
    outputs = map fst (Booklet.written log) ∧
    length (Booklet.covers_compiled log) = Z.to_nat n ∧
    (∀ i : nat, (i < Z.to_nat n)%nat →
       let lo := Z.of_nat i * (S - 1) in
       let hi := Z.min ((Z.of_nat i + 1) * (S - 1)) T in
       ∃ path,
         Booklet.written log !! i
         = Some (path,
                 Booklet.CoverPage
                   (Booklet.Cover title (Z.of_nat i + 1) n (lo + 1) hi paper)
                   :: map Booklet.ContentPage
                          (take (Z.to_nat (hi - lo)) (drop (Z.to_nat lo) reader)))) ∧
    concat (map (λ f, Booklet.content_of (snd f)) (Booklet.written log)) = reader ∧
    (∀ (i : nat) f, Booklet.written log !! i = Some f →
       length (Booklet.covers_of (snd f)) = 1%nat ∧
       1 ≤ Z.of_nat (length (Booklet.content_of (snd f))) ≤ S - 1 ∧
       (Z.of_nat i + 1 < n →
        Z.of_nat (length (Booklet.content_of (snd f))) = S - 1)).
Proof.
  intros T n HT HS.
  pose proof (BookletFacts.ceil_div_spec T (S - 1) ltac:(lia)) as Hn. fold n in Hn.
  assert (1 ≤ n) as Hn1 by nia.
  pose proof (BookletRun.write_stapled_sections_ok
                reader outdir basename paper title S HS) as E.
  cbv zeta in E. fold T in E. fold n in E. rewrite Z.max_r in E by lia.
  eexists _, _. split; [exact E|].
  rewrite BookletFacts.written_section_events,
          BookletFacts.covers_compiled_section_events.
  rewrite !length_map, BookletFacts.range_length, Z.sub_0_r.
  assert (∀ i : nat, (i < Z.to_nat n)%nat →
            map (Booklet.section_file reader outdir basename paper title (S - 1) n)
                (Py.range 0 n) !! i
            = Some (Booklet.section_file reader outdir basename paper title
                      (S - 1) n (Z.of_nat i))) as Hlook.
  { intros i Hi. rewrite list_lookup_fmap, BookletFacts.range_lookup by lia.
    simpl. do 2 f_equal. }
  split; [lia|]. split; [done|]. split.
  { rewrite map_map. done. }
  split; [done|]. split.
  { intros i Hi lo hi. eexists. rewrite Hlook by done.
    unfold Booklet.section_file, Booklet.section_cover, Booklet.section_content,
      Booklet.page_range. fold T. fold lo. fold hi. done. }
  split.
  { rewrite map_map.
    erewrite map_ext; [apply (BookletFacts.sections_partition reader (S - 1) n); lia|].
    intros i. apply BookletFacts.content_of_section_file. }
  intros i f Hf.
  assert (i < Z.to_nat n)%nat as Hi.
  { apply lookup_lt_Some in Hf. by rewrite length_map, BookletFacts.range_length,
      Z.sub_0_r in Hf. }
  rewrite Hlook in Hf by done. injection Hf as <-.
  rewrite BookletFacts.covers_of_section_file, BookletFacts.content_of_section_file.
  unfold Booklet.section_content.
  rewrite BookletFacts.page_range_length by (fold T; nia). fold T.
  split; [done|]. split; [nia|]. intros Hlast. nia.
Qed.

Lemma C2_booklet_partition_witness :
  let reader := seq 1 25 in
  1 ≤ Z.of_nat (length reader) ∧ 2 ≤ 6 ∧
  ∃ log outputs,
    Booklet.write_stapled_sections reader "out" "elegant-print" "letter" "Doc" 6
      = (log, inr outputs) ∧
    length (Booklet.written log) = 5%nat ∧
    map (λ f, Booklet.content_of (snd f)) (Booklet.written log)
      = [[1; 2; 3; 4; 5]; [6; 7; 8; 9; 10]; [11; 12; 13; 14; 15];
         [16; 17; 18; 19; 20]; [21; 22; 23; 24; 25]]%nat ∧
    map (λ c, (Booklet.booklet_idx c, Booklet.booklet_total c,
               Booklet.content_start c, Booklet.content_end c))
        (Booklet.covers_compiled log)
      = [(1, 5, 1, 5); (2, 5, 6, 10); (3, 5, 11, 15); (4, 5, 16, 20);
         (5, 5, 21, 25)] ∧
    outputs = ["out/elegant-print-section-01-of-05.pdf";
               "out/elegant-print-section-02-of-05.pdf";
               "out/elegant-print-section-03-of-05.pdf";
               "out/elegant-print-section-04-of-05.pdf";
               "out/elegant-print-section-05-of-05.pdf"].
Proof.
  intros reader.
  assert (1 ≤ Z.of_nat (length reader)) as HT by (vm_compute; discriminate).
  assert (2 ≤ 6) as HS by lia.
  split; [exact HT|]. split; [exact HS|].
  destruct (C2_booklet_partition reader "out" "elegant-print" "letter" "Doc" 6 HT HS)
    as (log & outputs & E & _ & L & _).
  exists log, outputs. split; [exact E|]. split; [exact L|].
  vm_compute in E. injection E as <- <-. split; [|split]; vm_compute; reflexivity.
Defined.

(** C8. A section size below 2 makes the splitter raise the configuration
    error before anything else happens: no cover is typeset and no section
    file is written (the event log is empty).  A section size of 2 or more
    never raises it: the call returns its list of section files. *)
Theorem C8_section_size_guard {page : Type} (reader : list page)
    (outdir basename paper title : string) (S : Z) :
  (S < 2 →
     ∃ msg,
       Booklet.write_stapled_sections reader outdir basename paper title S
         = ([], inl (Booklet.ValueError msg)) ∧
       Booklet.covers_compiled
         (fst (Booklet.write_stapled_sections reader outdir basename paper title S))
         = [] ∧
       Booklet.written
         (fst (Booklet.write_stapled_sections reader outdir basename paper title S))
         = []) ∧
  (2 ≤ S →
     ∃ outputs,
       snd (Booklet.write_stapled_sections reader outdir basename paper title S)
         = inr outputs).
Proof.
  split.
  - intros HS.
    rewrite (BookletRun.write_stapled_sections_invalid
               reader outdir basename paper title S HS).
    eexists. split; [reflexivity|]. split; reflexivity.
  - intros HS.
    rewrite (BookletRun.write_stapled_sections_ok
               reader outdir basename paper title S HS).
    eexists. reflexivity.
Qed.

Lemma C8_section_size_guard_witness :
  (1 < 2 ∧
   Booklet.write_stapled_sections (seq 1 25) "out" "elegant-print" "letter" "Doc" 1
   = ([], inl (Booklet.ValueError
                 "section_max_pages must be at least 2 to include a cover page."))) ∧
  (2 ≤ 2 ∧
   ∃ outputs,
     snd (Booklet.write_stapled_sections (seq 1 3) "out" "elegant-print" "letter"
            "Doc" 2) = inr outputs).
Proof.
  split.
  - split; [lia|].
    destruct (proj1 (C8_section_size_guard (seq 1 25) "out" "elegant-print" "letter"
                       "Doc" 1) ltac:(lia)) as (msg & E & _).
    vm_compute. reflexivity.
  - split; [lia|].
    exact (proj2 (C8_section_size_guard (seq 1 3) "out" "elegant-print" "letter"
                    "Doc" 2) ltac:(lia)).
Defined.

Lemma C1_flush_flow_layout_witness :
  FlowPacker.pending [FlowPacker.Push "alpha" 200] [] ≠ [] ∧
  FlowPacker.emitted true (FlowPacker.run true [FlowPacker.Push "alpha" 200])
  = [FlowPacker.hybridcols "alpha"].
Proof.
  split; [discriminate|].
  destruct (C1_flush_flow_layout true [FlowPacker.Push "alpha" 200])
    as (_ & H & _).
  apply H; [discriminate|]. split; [reflexivity|]. right. vm_compute. discriminate.
Defined.

(** ** Footnote tables *)

Module FootnotesFacts.
Import Footnotes.

Lemma guard_Some num text ids r :
  guard num text ids = Some r →
  r = Registration num text ids ∧ num ≠ 0 ∧ text ≠ "".
Proof.
  unfold guard. destruct (negb (num =? 0) && Py.truthy text) eqn:E; [|done].
  intros [= <-]. apply andb_true_iff in E as [E1 E2].
  apply negb_true_iff, Z.eqb_neq in E1. apply PyFacts.truthy_true in E2. done.
Qed.

Lemma register_keys_lookup text ids (m : gmap string string) (k : string) :
  fold_left (register_key text) ids m !! k
  = if decide (k ∈ filter (λ k, k ≠ "") (map Py.collapse_ws ids))
    then Some text else m !! k.
Proof.
  revert m. induction ids as [|item ids IH]; intros m.
  - cbn. by rewrite decide_False by apply not_elem_of_nil.
  - cbn [fold_left map]. rewrite IH. unfold register_key.
    destruct (Py.truthy (Py.collapse_ws item)) eqn:E.
    + apply PyFacts.truthy_true in E. rewrite filter_cons_True by done.
      destruct (decide (k ∈ filter _ (map Py.collapse_ws ids))) as [Hin|Hin].
      * rewrite decide_True; [done|]. by apply elem_of_cons; right.
      * destruct (decide (k = Py.collapse_ws item)) as [->|Hne].
        -- rewrite decide_True by apply list_elem_of_here.
           by rewrite lookup_insert_eq.
        -- rewrite decide_False.
           ++ by rewrite lookup_insert_ne.
           ++ intros [?|?]%elem_of_cons; done.
    + apply PyFacts.truthy_false in E. by rewrite filter_cons_False by (by intros ?).
Qed.

Lemma register_ids_lookup text num ids (m : gmap string string) (k : string) :
  text ≠ "" → num ≠ 0 →
  register_ids text num ids m !! k
  = if decide (k ∈ alias_keys (Registration num text ids))
    then Some text else m !! k.
Proof.
  intros Ht Hn. unfold register_ids, alias_keys. cbn [reg_num reg_ids].
  apply PyFacts.truthy_true in Ht. rewrite Ht.
  apply Z.eqb_neq in Hn. rewrite Hn. rewrite register_keys_lookup.
  set (rest := filter _ _).
  destruct (decide (k ∈ rest)) as [Hin|Hin].
  - rewrite decide_True; [done|]. apply elem_of_app. by right.
  - destruct (decide (k = "footnote-anchor-" +:+ Py.str_of_Z num)) as [->|H1].
    + rewrite lookup_insert_eq. rewrite decide_True; [done|].
      apply elem_of_app. left. apply elem_of_cons. right. apply list_elem_of_here.
    + rewrite lookup_insert_ne by done.
      destruct (decide (k = "footnote-" +:+ Py.str_of_Z num)) as [->|H2].
      * rewrite lookup_insert_eq. rewrite decide_True; [done|].
        apply elem_of_app. left. apply list_elem_of_here.
      * rewrite lookup_insert_ne by done. rewrite decide_False; [done|].
        intros [Hk|Hk]%elem_of_app; [|done].
        apply elem_of_cons in Hk as [?|Hk]; [done|].
        apply elem_of_cons in Hk as [?|Hk]; [done|].
        by apply not_elem_of_nil in Hk.
Qed.

(** A key outside the aliases of a registration keeps its entry. *)
Lemma register_ids_other text num ids (m : gmap string string) (k : string) :
  k ∉ alias_keys (Registration num text ids) →
  register_ids text num ids m !! k = m !! k.
Proof.
  intros Hk. unfold register_ids.
  destruct (Py.truthy text); [|done].
  rewrite register_keys_lookup.
  assert (k ∉ filter (λ k, k ≠ "") (map Py.collapse_ws ids)) as Hrest.
  { intros Hin. apply Hk. unfold alias_keys. apply elem_of_app. by right. }
  rewrite decide_False by done.
  destruct (num =? 0); [done|].
  rewrite !lookup_insert_ne; [done| |].
  - intros <-. apply Hk. apply elem_of_app. left. apply list_elem_of_here.
  - intros <-. apply Hk. apply elem_of_app. left.
    apply elem_of_cons. right. apply list_elem_of_here.
Qed.

Lemma apply_registration_aliases tb r (k : string) :
  valid r → k ∈ alias_keys r →
  footnotes_by_id (apply_registration tb r) !! k = Some (reg_text r).
Proof.
  intros [Hn Ht] Hk. destruct r as [num text ids]. cbn in *.
  rewrite register_ids_lookup by done. by rewrite decide_True.
Qed.

Lemma apply_registration_number tb r :
  footnotes_by_number (apply_registration tb r) !! reg_num r = Some (reg_text r).
Proof. unfold apply_registration. cbn. apply lookup_insert_eq. Qed.

Lemma apply_registration_other_id tb r (k : string) :
  k ∉ alias_keys r →
  footnotes_by_id (apply_registration tb r) !! k = footnotes_by_id tb !! k.
Proof. intros Hk. destruct r. cbn. by apply register_ids_other. Qed.

Lemma apply_registration_other_number tb r (n : Z) :
  n ≠ reg_num r →
  footnotes_by_number (apply_registration tb r) !! n = footnotes_by_number tb !! n.
Proof. intros Hn. unfold apply_registration. cbn. by rewrite lookup_insert_ne. Qed.

Lemma later_keep_id (post : list registration) tb (k : string) :
  Forall (λ r', k ∉ alias_keys r') post →
  footnotes_by_id (fold_left apply_registration post tb) !! k
  = footnotes_by_id tb !! k.
Proof.
  revert tb. induction post as [|r' post IH]; intros tb Hall; [done|].
  apply Forall_cons in Hall as [Hr Hpost]. cbn [fold_left].
  rewrite IH by done. by apply apply_registration_other_id.
Qed.

Lemma later_keep_number (post : list registration) tb (n : Z) :
  Forall (λ r', reg_num r' ≠ n) post →
  footnotes_by_number (fold_left apply_registration post tb) !! n
  = footnotes_by_number tb !! n.
Proof.
  revert tb. induction post as [|r' post IH]; intros tb Hall; [done|].
  apply Forall_cons in Hall as [Hr Hpost]. cbn [fold_left].
  rewrite IH by done. by apply apply_registration_other_number.
Qed.

Section Resolver.
Context `{Urllib}.
Variable page_url : string.

Lemma fold_p_step ps tb :
  fold_left p_step ps tb = fold_left apply_registration (omap p_registration ps) tb.
Proof.
  revert tb. induction ps as [|p ps IH]; intros tb; [done|].
  cbn [fold_left]. rewrite IH. unfold p_step. cbn [omap list_omap].
  by destruct (p_registration p).
Qed.

Lemma fold_div_step ds tb :
  fold_left (div_step page_url) ds tb
  = fold_left apply_registration (omap (div_registration page_url) ds) tb.
Proof.
  revert tb. induction ds as [|d ds IH]; intros tb; [done|].
  cbn [fold_left]. rewrite IH. unfold div_step. cbn [omap list_omap].
  by destruct (div_registration page_url d).
Qed.

(** The tables are the registrations applied in order. *)
Lemma build_as_registrations ps ds :
  build_numbered_footnotes page_url ps ds
  = fold_left apply_registration (registrations page_url ps ds) empty_tables.
Proof.
  unfold build_numbered_footnotes, registrations.
  by rewrite fold_left_app, fold_div_step, fold_p_step.
Qed.

Lemma p_registration_valid p r : p_registration p = Some r → valid r.
Proof.
  unfold p_registration. destruct (Py.truthy (p_raw p)); [|done].
  destruct (if _ =? 0 then _ else _) as [num text].
  intros (-> & ? & ?)%guard_Some. done.
Qed.

Lemma div_registration_valid d r : div_registration page_url d = Some r → valid r.
Proof.
  unfold div_registration. destruct (div_number_and_ids page_url d) as [num ids].
  intros (-> & ? & ?)%guard_Some. done.
Qed.

Lemma registrations_valid ps ds :
  Forall valid (registrations page_url ps ds).
Proof.
  unfold registrations. apply Forall_app. split; apply Forall_forall; intros r Hr.
  - apply list_elem_of_omap in Hr as (p & _ & Hp). by eapply p_registration_valid.
  - apply list_elem_of_omap in Hr as (d & _ & Hd). by eapply div_registration_valid.
Qed.

End Resolver.

End FootnotesFacts.

(** C3 (amended). Let [r] be a footnote the resolver registers, under the
    number N with the text t, [pre] the registrations before it and [post]
    those after it.  Right after its registration the tables map N, the ids
    footnote-N and footnote-anchor-N and every original id of the element
    (white space collapsed, when not blank) to t.  In the finished tables N
    still maps to t when no later footnote has the number N, and an alias
    still maps to t when no later footnote registers that alias: a later
    registration of the same key replaces the text. *)
Theorem C3_footnote_aliases `{Urllib} (page_url : string)
    (ps : list Footnotes.p_footnote) (ds : list Footnotes.div_footnote)
    (pre post : list Footnotes.registration) (r : Footnotes.registration) :
  Footnotes.registrations page_url ps ds = pre ++ r :: post →
  let N := Footnotes.reg_num r in
  let t := Footnotes.reg_text r in
  let after :=
    fold_left Footnotes.apply_registration (pre ++ [r]) Footnotes.empty_tables in
  let final := Footnotes.build_numbered_footnotes page_url ps ds in
  (N ≠ 0 ∧ t ≠ "") ∧
  Footnotes.footnotes_by_number after !! N = Some t ∧
  Footnotes.footnotes_by_id after !! ("footnote-" +:+ Py.str_of_Z N) = Some t ∧
  Footnotes.footnotes_by_id after !! ("footnote-anchor-" +:+ Py.str_of_Z N) = Some t ∧
  (∀ id : string, id ∈ Footnotes.reg_ids r → Py.collapse_ws id ≠ "" →
     Footnotes.footnotes_by_id after !! Py.collapse_ws id = Some t) ∧
  (Forall (λ r', Footnotes.reg_num r' ≠ N) post →
     Footnotes.footnotes_by_number final !! N = Some t) ∧
  (∀ k : string, k ∈ Footnotes.alias_keys r →
     Forall (λ r', k ∉ Footnotes.alias_keys r') post →
     Footnotes.footnotes_by_id final !! k = Some t).
Proof.
  intros Hregs N t after final.
  assert (Footnotes.valid r) as Hv.
  { pose proof (FootnotesFacts.registrations_valid page_url ps ds) as V.
    rewrite Hregs in V. apply Forall_app in V as [_ V].
    by apply Forall_cons in V as [V _]. }
  assert (∀ k : string, k ∈ Footnotes.alias_keys r →
            Footnotes.footnotes_by_id after !! k = Some t) as Hafter.
  { intros k Hk. unfold after. rewrite fold_left_app. cbn [fold_left].
    by apply FootnotesFacts.apply_registration_aliases. }
  assert (final = fold_left Footnotes.apply_registration post after) as Hfinal.
  { unfold final, after. rewrite FootnotesFacts.build_as_registrations, Hregs.
    rewrite !fold_left_app. done. }
  split; [exact Hv|]. split.
  { unfold after. rewrite fold_left_app. cbn [fold_left].
    apply FootnotesFacts.apply_registration_number. }
  split.
  { apply Hafter. unfold Footnotes.alias_keys. apply elem_of_app. left.
    apply list_elem_of_here. }
  split.
  { apply Hafter. unfold Footnotes.alias_keys. apply elem_of_app. left.
    apply elem_of_cons. right. apply list_elem_of_here. }
  split.
  { intros id Hid Hne. apply Hafter. unfold Footnotes.alias_keys.
    apply elem_of_app. right. apply list_elem_of_filter. split; [done|].
    apply list_elem_of_fmap. by exists id. }
  split.
  { intros Hpost. rewrite Hfinal, FootnotesFacts.later_keep_number by done.
    unfold after. rewrite fold_left_app. cbn [fold_left].
    apply FootnotesFacts.apply_registration_number. }
  intros k Hk Hpost. rewrite Hfinal, FootnotesFacts.later_keep_id by done.
  by apply Hafter.
Qed.

Lemma C3_footnote_aliases_witness :
  let page := "https://example.com/post" in
  let ps := [Footnotes.PFootnote "fn1" (Some "1") "First note.";
             Footnotes.PFootnote "fn2" None "[2] Second note."] in
  let ds := [Footnotes.DivFootnote "footnote-3"
               (Some (Footnotes.NumberLink "footnote-anchor-3"
                        "#footnote-anchor-3" "3"))
               " Third   note. "] in
  let r := Footnotes.Registration 1 "First note." ["fn1"] in
  let post := [Footnotes.Registration 2 "Second note." ["fn2"];
               Footnotes.Registration 3 "Third note."
                 ["footnote-3"; "footnote-anchor-3"; "footnote-anchor-3"]] in
  let final := @Footnotes.build_numbered_footnotes ExampleUrls.urls page ps ds in
  @Footnotes.registrations ExampleUrls.urls page ps ds = [] ++ r :: post ∧
  Footnotes.footnotes_by_number final !! 1 = Some "First note." ∧
  Footnotes.footnotes_by_id final !! "footnote-1" = Some "First note." ∧
  Footnotes.footnotes_by_id final !! "footnote-anchor-1" = Some "First note." ∧
  Footnotes.footnotes_by_id final !! "fn1" = Some "First note.".
Proof.
  intros page ps ds r post final.
  assert (@Footnotes.registrations ExampleUrls.urls page ps ds = [] ++ r :: post)
    as Hregs by (vm_compute; reflexivity).
  destruct (@C3_footnote_aliases ExampleUrls.urls page ps ds [] post r Hregs)
    as (_ & _ & _ & _ & _ & Hn & Hk).
  split; [exact Hregs|]. split.
  { apply Hn. apply (bool_decide_unpack _). vm_compute. reflexivity. }
  split; [|split]; apply Hk;
    apply (bool_decide_unpack _); vm_compute; reflexivity.
Defined.

(** C3 fails as stated: two footnotes numbered 1.  The first is registered
    under 1 with the text [first], yet the finished tables map 1 and
    footnote-1 to [second] while its own id still maps to [first]. *)
Lemma C3_counterexample :
  let page := "https://example.com/post" in
  let ps := [Footnotes.PFootnote "fn-a" (Some "1") "first";
             Footnotes.PFootnote "fn-b" (Some "1") "second"] in
  let final := @Footnotes.build_numbered_footnotes ExampleUrls.urls page ps [] in
  @Footnotes.registrations ExampleUrls.urls page ps []
    = [Footnotes.Registration 1 "first" ["fn-a"];
       Footnotes.Registration 1 "second" ["fn-b"]] ∧
  Footnotes.footnotes_by_number final !! 1 = Some "second" ∧
  Footnotes.footnotes_by_id final !! "footnote-1" = Some "second" ∧
  Footnotes.footnotes_by_id final !! "footnote-anchor-1" = Some "second" ∧
  Footnotes.footnotes_by_id final !! "fn-a" = Some "first" ∧
  ¬ (Footnotes.footnotes_by_number final !! 1 = Some "first" ∧
     Footnotes.footnotes_by_id final !! "footnote-1" = Some "first" ∧
     Footnotes.footnotes_by_id final !! "fn-a" = Some "first").
Proof.
  intros page ps final.
  assert (Footnotes.footnotes_by_number final !! 1 = Some "second") as H1
    by (vm_compute; reflexivity).
  repeat split; try (vm_compute; reflexivity).
  intros (H2 & _). rewrite H1 in H2. discriminate.
Qed.

(** C4 (amended). For a block-style footnote whose number link carries a
    number in its anchor fragment (pattern-derived) and a number in its
    visible text (explicit), the resolver takes the pattern-derived number
    whenever it is not zero and falls back to the explicit number only
    otherwise.  So when both exist and differ the body is registered under
    the pattern-derived number, and the entry of the explicit number is left
    as it was. *)
Theorem C4_pattern_number_first `{Urllib} (page_url : string)
    (d : Footnotes.div_footnote) (a : Footnotes.number_link) :
  Footnotes.div_number_link d = Some a →
  let pattern := Footnotes.pattern_number page_url a in
  let explicit := Footnotes.explicit_number a in
  let text := Py.collapse_ws (Footnotes.div_content d) in
  fst (Footnotes.div_number_and_ids page_url d)
    = (if pattern =? 0 then explicit else pattern) ∧
  (pattern ≠ 0 → text ≠ "" →
   ∀ tb : Footnotes.tables,
     Footnotes.footnotes_by_number (Footnotes.div_step page_url tb d) !! pattern
       = Some text ∧
     (explicit ≠ pattern →
      Footnotes.footnotes_by_number (Footnotes.div_step page_url tb d) !! explicit
        = Footnotes.footnotes_by_number tb !! explicit)).
Proof.
  intros Ha pattern explicit text.
  assert (fst (Footnotes.div_number_and_ids page_url d)
          = (if pattern =? 0 then explicit else pattern)) as Hnum.
  { unfold Footnotes.div_number_and_ids, pattern, explicit,
      Footnotes.pattern_number, Footnotes.explicit_number. rewrite Ha.
    destruct (Py.truthy (Py.collapse_ws (Footnotes.link_href a))); [|done].
    by destruct (Py.search_footnote_number _). }
  split; [exact Hnum|]. intros Hp Ht tb.
  apply Z.eqb_neq in Hp as Hp'. rewrite Hp' in Hnum.
  unfold Footnotes.div_step, Footnotes.div_registration.
  destruct (Footnotes.div_number_and_ids page_url d) as [num ids].
  cbn [fst] in Hnum. subst num. fold text.
  unfold Footnotes.guard. rewrite Hp'.
  apply PyFacts.truthy_true in Ht. rewrite Ht. cbn [negb andb].
  split.
  - apply (FootnotesFacts.apply_registration_number tb
             (Footnotes.Registration pattern text _)).
  - intros Hne.
    by apply (FootnotesFacts.apply_registration_other_number tb
                (Footnotes.Registration pattern text _)).
Qed.

Lemma C4_pattern_number_first_witness :
  let d := Footnotes.DivFootnote "fn"
             (Some (Footnotes.NumberLink "" "#footnote-anchor-3" "7")) "body" in
  let a := Footnotes.NumberLink "" "#footnote-anchor-3" "7" in
  let tb := @Footnotes.div_step ExampleUrls.urls "https://example.com/post"
              Footnotes.empty_tables d in
  Footnotes.div_number_link d = Some a ∧
  @Footnotes.pattern_number ExampleUrls.urls "https://example.com/post" a = 3 ∧
  Footnotes.explicit_number a = 7 ∧
  Footnotes.footnotes_by_number tb !! 3 = Some "body" ∧
  Footnotes.footnotes_by_number tb !! 7 = None.
Proof.
  intros d a tb.
  destruct (@C4_pattern_number_first ExampleUrls.urls "https://example.com/post"
              d a eq_refl) as [_ Hreg].
  destruct (Hreg ltac:(vm_compute; discriminate) ltac:(vm_compute; discriminate)
              Footnotes.empty_tables) as [H3 H7].
  split; [reflexivity|]. split; [vm_compute; reflexivity|].
  split; [vm_compute; reflexivity|]. split; [exact H3|].
  exact (H7 ltac:(vm_compute; discriminate)).
Defined.

(** C4 fails as stated: a number link with the text 7 and the anchor
    fragment footnote-anchor-3.  The two numbers differ, and the body is
    registered under 3, the pattern-derived number, not under 7. *)
Lemma C4_counterexample :
  let page := "https://example.com/post" in
  let a := Footnotes.NumberLink "" "#footnote-anchor-3" "7" in
  let d := Footnotes.DivFootnote "fn" (Some a) "body" in
  let final := @Footnotes.build_numbered_footnotes ExampleUrls.urls page [] [d] in
  Footnotes.explicit_number a = 7 ∧
  @Footnotes.pattern_number ExampleUrls.urls page a = 3 ∧
  Footnotes.footnotes_by_number final !! 7 = None ∧
  Footnotes.footnotes_by_number final !! 3 = Some "body" ∧
  ¬ (Footnotes.footnotes_by_number final !! 7 = Some "body").
Proof.
  intros page a d final.
  assert (Footnotes.footnotes_by_number final !! 7 = None) as H7
    by (vm_compute; reflexivity).
  repeat split; try (vm_compute; reflexivity).
  rewrite H7. discriminate.
Qed.

(** ** The image store *)

Module ImagesFacts.
Import Images.

Lemma mem_true x l : Py.mem x l = true → x ∈ l.
Proof.
  unfold Py.mem. intros (y & Hy & E)%existsb_exists.
  apply String.eqb_eq in E as ->. by apply list_elem_of_In.
Qed.

Section Store.
Context `{Urllib} `{ImageEnv}.
Variable page_url : string.

Lemma download_world resolved w d ct w1 :
  _download resolved w = (d, ct, w1) →
  w1 = World (downloads w ++ [resolved]) (files w).
Proof.
  unfold _download. intros E.
  repeat match type of E with
         | context [if ?b then _ else _] => destruct b
         | context [match ?x with _ => _ end] => destruct x
         end; by injection E as <- <- <-.
Qed.

Lemma fetch_cases img st w :
  let '(r, st', w') := fetch page_url img st w in fetch_case page_url img st w r st' w'.
Proof.
  unfold fetch.
  destruct (Py.truthy (_pick_source img)) eqn:Esrc; cbn [negb].
  2:{ apply fetch_filtered. intros (Hs & _). by apply PyFacts.truthy_false in Esrc. }
  destruct (_should_include img (_pick_source img)) eqn:Einc; cbn [negb].
  2:{ apply fetch_filtered. intros (_ & Hi & _). congruence. }
  destruct (Py.truthy (_resolve_source page_url (_pick_source img))) eqn:Eres;
    cbn [negb].
  2:{ apply fetch_filtered. intros (_ & _ & Hr).
      by apply PyFacts.truthy_false in Eres. }
  assert (reaches_cache page_url img) as Hreach.
  { split; [by apply PyFacts.truthy_true|]. split; [done|].
    by apply PyFacts.truthy_true. }
  fold (resolved_source page_url img).
  destruct (cache st !! resolved_source page_url img) as [rel|] eqn:Ec.
  { by apply fetch_hit. }
  destruct (_download (resolved_source page_url img) w) as [[d ct] w1] eqn:Ed.
  apply download_world in Ed as ->.
  destruct d as [data|]; [|by apply fetch_failed].
  destruct (if String.eqb _ ".webp" then _ else _) as [data' ext] eqn:Ex.
  destruct (Py.mem ext LATEX_IMAGE_EXTS) eqn:Em; cbn [negb downloads files].
  - apply fetch_written; [done|done|]. by apply mem_true.
  - by apply fetch_failed.
Qed.

Lemma fetch_inv img st w r st' w' :
  fetch page_url img st w = (r, st', w') → fetch_case page_url img st w r st' w'.
Proof. intros E. pose proof (fetch_cases img st w) as C. by rewrite E in C. Qed.


(** Whatever is cached stays cached and is not downloaded again. *)
Lemma fetch_keeps_cached img st w r st' w' (u rel : string) :
  cache st !! u = Some rel →
  fetch page_url img st w = (r, st', w') →
  cache st' !! u = Some rel ∧ download_count u w' = download_count u w.
Proof.
  intros Hu E%fetch_inv. unfold download_count.
  inversion E; subst; cbn [cache downloads]; try done.
  - split; [done|]. rewrite filter_app, length_app.
    rewrite filter_cons_False, filter_nil; [simpl; lia|]. congruence.
  - assert (resolved_source page_url img ≠ u) as Hne by congruence. split.
    + by rewrite lookup_insert_ne.
    + rewrite filter_app, length_app.
      rewrite filter_cons_False, filter_nil; [simpl; lia|]. done.
Qed.

Lemma fetch_all_keeps_cached imgs st w rs st' w' (u rel : string) :
  cache st !! u = Some rel →
  fetch_all page_url imgs st w = (rs, st', w') →
  cache st' !! u = Some rel ∧ download_count u w' = download_count u w.
Proof.
  revert st w rs st' w'. induction imgs as [|img imgs IH]; intros st w rs st' w' Hu E.
  - by injection E as <- <- <-.
  - cbn [fetch_all] in E.
    destruct (fetch page_url img st w) as [[r st1] w1] eqn:E1.
    destruct (fetch_all page_url imgs st1 w1) as [[rs2 st2] w2] eqn:E2.
    injection E as <- <- <-.
    destruct (fetch_keeps_cached _ _ _ _ _ _ _ _ Hu E1) as [Hu1 Hc1].
    destruct (IH _ _ _ _ _ Hu1 E2) as [Hu2 Hc2]. split; [done|]. lia.
Qed.

(** A successful fetch leaves the path in the cache. *)
Lemma fetch_Some_cached img st w rel st' w' :
  fetch page_url img st w = (Some rel, st', w') →
  reaches_cache page_url img ∧
  cache st' !! resolved_source page_url img = Some rel.
Proof.
  intros E%fetch_inv. inversion E; subst; split; try done.
  cbn [cache]. apply lookup_insert_eq.
Qed.

Lemma fetch_hit_eq img st w rel :
  reaches_cache page_url img →
  cache st !! resolved_source page_url img = Some rel →
  fetch page_url img st w = (Some rel, st, w).
Proof.
  intros Hreach Hc.
  destruct (fetch page_url img st w) as [[r st'] w'] eqn:E.
  apply fetch_inv in E. inversion E; subst; try done; congruence.
Qed.

(** A fetch of a source that is not cached calls [_download] once. *)
Lemma fetch_miss_downloads img st w r st' w' :
  reaches_cache page_url img →
  cache st !! resolved_source page_url img = None →
  fetch page_url img st w = (r, st', w') →
  downloads w' = downloads w ++ [resolved_source page_url img].
Proof.
  intros Hreach Hc E%fetch_inv. inversion E; subst; try done; congruence.
Qed.

Lemma download_count_snoc (u : string) (w : world) fs :
  download_count u (World (downloads w ++ [u]) fs) = S (download_count u w).
Proof.
  unfold download_count. cbn [downloads].
  rewrite filter_app, length_app, filter_cons_True by done. simpl. lia.
Qed.

Lemma fetch_numbered img st w r st' w' :
  numbered st w → fetch page_url img st w = (r, st', w') → numbered st' w'.
Proof.
  intros [Hc Hf] E%fetch_inv. inversion E; subst; try done.
  split; cbn [counter files].
  - rewrite length_app. simpl. lia.
  - intros k name data' Hk.
    destruct (decide (k < length (files w))%nat) as [Hlt|Hge].
    + rewrite lookup_app_l in Hk by done. by eapply Hf.
    + rewrite lookup_app_r in Hk by lia.
      destruct (k - length (files w))%nat as [|j] eqn:Ej; [|done].
      injection Hk as <- <-. exists ext. split; [done|].
      unfold asset_name. rewrite Hc. do 3 f_equal. lia.
Qed.

Lemma fetch_all_numbered imgs st w rs st' w' :
  numbered st w → fetch_all page_url imgs st w = (rs, st', w') → numbered st' w'.
Proof.
  revert st w rs st' w'. induction imgs as [|img imgs IH]; intros st w rs st' w' Hn E.
  - by injection E as <- <- <-.
  - cbn [fetch_all] in E.
    destruct (fetch page_url img st w) as [[r st1] w1] eqn:E1.
    destruct (fetch_all page_url imgs st1 w1) as [[rs2 st2] w2] eqn:E2.
    injection E as <- <- <-. eapply IH; [|done]. by eapply fetch_numbered.
Qed.

Lemma new_numbered : numbered new_store new_world.
Proof. split; [done|]. intros k name data Hk. done. Qed.

End Store.

End ImagesFacts.

(** C5 (amended). Two image nodes handled by one store whose sources
    resolve to the same URL, the first fetch returning a path, any other
    fetches in between, and the second node passing the inclusion filter as
    well (it has a source and [_should_include] accepts it): the second
    fetch returns the same path and changes nothing, so it downloads
    nothing; over the whole run [_download] is called for that URL exactly
    once when the URL was not cached before the first fetch, and not at all
    when it was. *)
Theorem C5_same_source_one_download `{Urllib} `{ImageEnv} (page_url : string)
    (img1 img2 : list (string * string)) (between : list (list (string * string)))
    (st st1 st2 : Images.store) (w w1 w2 : Images.world)
    (rel : string) (rs : list (option string)) :
  Images.fetch page_url img1 st w = (Some rel, st1, w1) →
  Images.fetch_all page_url between st1 w1 = (rs, st2, w2) →
  Images.resolved_source page_url img2 = Images.resolved_source page_url img1 →
  Images._pick_source img2 ≠ "" →
  Images._should_include img2 (Images._pick_source img2) = true →
  let url := Images.resolved_source page_url img1 in
  Images.fetch page_url img2 st2 w2 = (Some rel, st2, w2) ∧
  Images.download_count url w2
  = (Images.download_count url w
     + match Images.cache st !! url with None => 1 | Some _ => 0 end)%nat.
Proof.
  intros E1 Eb Hres Hsrc Hinc url.
  destruct (ImagesFacts.fetch_Some_cached page_url _ _ _ _ _ _ E1) as [Hreach1 Hc1].
  destruct (ImagesFacts.fetch_all_keeps_cached page_url _ _ _ _ _ _ _ _ Hc1 Eb)
    as [Hc2 Hn2].
  split.
  - apply ImagesFacts.fetch_hit_eq.
    + destruct Hreach1 as (_ & _ & Hr).
      split; [done|]. split; [done|]. by rewrite Hres.
    + by rewrite Hres.
  - fold url in Hn2. rewrite Hn2.
    destruct (Images.cache st !! url) as [old|] eqn:Ec.
    + destruct (ImagesFacts.fetch_keeps_cached page_url _ _ _ _ _ _ _ _ Ec E1)
        as [_ Hn1]. lia.
    + pose proof (ImagesFacts.fetch_miss_downloads page_url _ _ _ _ _ _
                    Hreach1 Ec E1) as Hd.
      destruct w1 as [d1 f1]. cbn [Images.downloads] in Hd. subst d1.
      fold url. rewrite ImagesFacts.download_count_snoc. lia.
Qed.

Lemma C5_same_source_one_download_witness :
  let page := "https://example.com/post" in
  let img1 := [("src", "https://example.com/a.png")] in
  let img2 := [("alt", "again"); ("src", "https://example.com/a.png")] in
  let other := [("src", "https://example.com/b.png")] in
  let rel := "elegant-print-assets/image-001.png" in
  ∃ st1 w1 st2 w2 rs,
    @Images.fetch ExampleUrls.urls ExampleImages.env page img1
      Images.new_store Images.new_world = (Some rel, st1, w1) ∧
    @Images.fetch_all ExampleUrls.urls ExampleImages.env page [other] st1 w1
      = (rs, st2, w2) ∧
    @Images.fetch ExampleUrls.urls ExampleImages.env page img2 st2 w2
      = (Some rel, st2, w2) ∧
    Images.download_count "https://example.com/a.png" w2 = 1%nat.
Proof.
  intros page img1 img2 other rel.
  destruct (@Images.fetch ExampleUrls.urls ExampleImages.env page img1
              Images.new_store Images.new_world) as [[r1 st1] w1] eqn:E1.
  destruct (@Images.fetch_all ExampleUrls.urls ExampleImages.env page [other]
              st1 w1) as [[rs st2] w2] eqn:E2.
  assert (r1 = Some rel) as ->.
  { vm_compute in E1. injection E1 as <- _ _. reflexivity. }
  exists st1, w1, st2, w2, rs.
  destruct (@C5_same_source_one_download ExampleUrls.urls ExampleImages.env page
              img1 img2 [other] _ _ _ _ _ _ rel rs E1 E2)
    as [Hfetch Hcount];
    [vm_compute; reflexivity | vm_compute; discriminate | vm_compute; reflexivity|].
  split; [reflexivity|]. split; [exact E2|]. split; [exact Hfetch|].
  etransitivity; [exact Hcount|]. vm_compute. reflexivity.
Defined.

(** C5 fails as stated: the second node has the same source and the class
    [icon].  The first fetch returns a path, the second is rejected by the
    inclusion filter before the cache is consulted and returns none. *)
Lemma C5_counterexample :
  let page := "https://example.com/post" in
  let img1 := [("src", "https://example.com/a.png")] in
  let img2 := [("src", "https://example.com/a.png"); ("class", "icon")] in
  let '(r1, st1, w1) :=
    @Images.fetch ExampleUrls.urls ExampleImages.env page img1
      Images.new_store Images.new_world in
  let '(r2, st2, w2) :=
    @Images.fetch ExampleUrls.urls ExampleImages.env page img2 st1 w1 in
  @Images.resolved_source ExampleUrls.urls page img2
    = @Images.resolved_source ExampleUrls.urls page img1 ∧
  r1 = Some "elegant-print-assets/image-001.png" ∧
  r2 = None ∧
  r1 ≠ r2.
Proof. vm_compute. repeat split; discriminate. Qed.

(** C9 (amended). An image node whose width and height attributes are both
    present and both read (by [parse_dimension], the first run of digits)
    as a number from 1 to 80 is rejected by the inclusion filter, whatever
    its source and classes: [fetch] returns no path and changes nothing, and
    [render_image_tag] produces no image block. *)
Theorem C9_small_icon_rejected `{Urllib} `{ImageEnv} (page_url : string)
    (img : list (string * string)) (width height caption : string)
    (st : Images.store) (w : Images.world) :
  Dom.get img "width" = Some width →
  Dom.get img "height" = Some height →
  1 ≤ Images.parse_dimension (Some width) ≤ 80 →
  1 ≤ Images.parse_dimension (Some height) ≤ 80 →
  (∀ src, Images._should_include img src = false) ∧
  Images.fetch page_url img st w = (None, st, w) ∧
  Images.render_image_tag page_url img caption st w = ("", st, w).
Proof.
  intros Hw Hh Hwr Hhr.
  assert (∀ src, Images._should_include img src = false) as Hinc.
  { intros src. unfold Images._should_include. rewrite Hw, Hh.
    destruct (existsb _ _); [done|]. destruct (_ && negb _); [done|].
    replace (Images.parse_dimension (Some width) =? 0) with false
      by (symmetry; apply Z.eqb_neq; lia).
    replace (Images.parse_dimension (Some height) =? 0) with false
      by (symmetry; apply Z.eqb_neq; lia).
    replace (_ `max` _ <=? 80) with true by (symmetry; apply Z.leb_le; lia).
    done. }
  assert (Images.fetch page_url img st w = (None, st, w)) as Hfetch.
  { unfold Images.fetch. destruct (Py.truthy (Images._pick_source img)); [|done].
    by rewrite Hinc. }
  split; [exact Hinc|]. split; [exact Hfetch|].
  unfold Images.render_image_tag. by rewrite Hfetch.
Qed.

Lemma C9_small_icon_rejected_witness :
  let img := [("src", "https://example.com/logo-small.png");
              ("width", "64"); ("height", "48px")] in
  (1 ≤ Images.parse_dimension (Some "64") ≤ 80 ∧
   1 ≤ Images.parse_dimension (Some "48px") ≤ 80) ∧
  @Images.fetch ExampleUrls.urls ExampleImages.env "https://example.com/post" img
    Images.new_store Images.new_world
  = (None, Images.new_store, Images.new_world) ∧
  @Images.render_image_tag ExampleUrls.urls ExampleImages.env
    "https://example.com/post" img "" Images.new_store Images.new_world
  = ("", Images.new_store, Images.new_world).
Proof.
  intros img.
  assert (1 ≤ Images.parse_dimension (Some "64") ≤ 80) as H1
    by (vm_compute; split; discriminate).
  assert (1 ≤ Images.parse_dimension (Some "48px") ≤ 80) as H2
    by (vm_compute; split; discriminate).
  split; [by split|].
  exact (proj2 (@C9_small_icon_rejected ExampleUrls.urls ExampleImages.env
                  "https://example.com/post" img "64" "48px" ""
                  Images.new_store Images.new_world eq_refl eq_refl H1 H2)).
Defined.

(** C9 fails as stated: width and height are both present and both 0,
    which is at most 80, and the node has no class and no avatar source;
    the filter accepts it, [fetch] writes the asset and an image block is
    produced. *)
Lemma C9_counterexample :
  let img := [("src", "https://example.com/pixel.png");
              ("width", "0"); ("height", "0")] in
  Images.parse_dimension (Dom.get img "width") ≤ 80 ∧
  Images.parse_dimension (Dom.get img "height") ≤ 80 ∧
  Images._should_include img "https://example.com/pixel.png" = true ∧
  fst (fst (@Images.fetch ExampleUrls.urls ExampleImages.env
              "https://example.com/post" img Images.new_store Images.new_world))
  = Some "elegant-print-assets/image-001.png" ∧
  fst (fst (@Images.render_image_tag ExampleUrls.urls ExampleImages.env
              "https://example.com/post" img "" Images.new_store
              Images.new_world)) ≠ "".
Proof. vm_compute. repeat split; discriminate. Qed.



(** ** The inline converter *)

Module InlineFacts.
Import Dom Inline.

Section Converter.
Context `{Urllib}.
Variable footnotes_by_id : gmap string string.
Variable footnotes_by_number : gmap Z string.
Variable page_url : string.

Local Abbreviation from_text := (_footnote_from_text footnotes_by_number).
Local Abbreviation convert :=
  (convert_inline footnotes_by_id footnotes_by_number page_url).

Ltac decide_name v :=
  repeat match goal with
         | |- context [Py.mem v ?l] =>
             change (Py.mem v l) with false
         | |- context [String.eqb v ?s] =>
             let b := eval vm_compute in (String.eqb v s) in
             change (String.eqb v s) with b
         end.

Lemma convert_text_marker name attrs children :
  text_marker name attrs = true →
  convert (Tag name attrs children)
  = from_text (get_text (Tag name attrs children)).
Proof.
  unfold text_marker. intros [Hm|Hm]%orb_true_iff.
  - apply andb_true_iff in Hm as [Hn Hc]. apply String.eqb_eq in Hn.
    apply negb_true_iff in Hc. cbn [convert_inline]. rewrite Hn, Hc.
    decide_name "sup". done.
  - apply andb_true_iff in Hm as [Hm Hf]. apply andb_true_iff in Hm as [Hn Hc].
    apply String.eqb_eq in Hn. apply negb_true_iff in Hc.
    cbn [convert_inline]. rewrite Hn, Hc, Hf.
    decide_name "span". done.
Qed.

End Converter.

End InlineFacts.

(** C6 (code defect). The converter drops a superscript whose text holds
    no digit: [<sup>th</sup>] has visible content and converts to the empty
    string, with any footnote tables and any page, so
    [<em>5<sup>th</sup></em>] converts as if the superscript were not
    there.  The sibling path keeps such a label: in a [sup] of class
    [reference] the link text [th] comes out in superscript. *)
Theorem C6_superscript_text_dropped :
  let sup := Dom.Tag "sup" [] [Dom.NavigableString "th"] in
  let ref :=
    Dom.Tag "sup" [("class", "reference")]
      [Dom.Tag "a" [("href", "#cite_note-1")] [Dom.NavigableString "th"]] in
  Dom.get_text sup = "th" ∧
  (∀ (U : Urllib) (by_id : gmap string string) (by_number : gmap Z string)
     (page : string),
     @Inline.convert_inline U by_id by_number page sup = "" ∧
     @Inline.convert_inline U by_id by_number page
       (Dom.Tag "em" [] [Dom.NavigableString "5"; sup]) = "\emph{5}") ∧
  @Inline.convert_inline ExampleUrls.urls ∅ ∅ "https://example.com/post" ref
  = "\textsuperscript{th}".
Proof.
  intros sup ref. split; [reflexivity|]. split.
  - intros U by_id by_number page. split; vm_compute; reflexivity.
  - vm_compute. reflexivity.
Qed.

(** C7 (amended). A hyperlink whose visible plain text begins, without
    regard to case, with http://, https:// or www. is rendered with a label
    computed from the link target and not from the text: the network
    location of the target, in lower case, stripped of white space and of a
    leading www., escaped for LaTeX; when the target has no network
    location the label is the word [link]. *)
Theorem C7_url_text_gets_host_label `{Urllib}
    (href rendered_text plain_text : string) :
  Inline.url_like plain_text = true →
  let host := Py.strip (Py.lower (url_netloc href)) in
  let bare :=
    match Py.strip_prefix "www." host with Some rest => rest | None => host end in
  Inline._render_hyperlink href rendered_text plain_text
  = Inline.hyperlink (Inline.href_target href)
      (Latex.latex_escape_plain (Inline._compact_link_label href)) ∧
  (bare ≠ "" → Inline._compact_link_label href = bare) ∧
  (bare = "" → Inline._compact_link_label href = "link").
Proof.
  intros Hurl host bare. split; [|split].
  - unfold Inline._render_hyperlink. rewrite Hurl.
    by destruct (negb (Py.truthy (Py.strip rendered_text))).
  - intros Hb. unfold Inline._compact_link_label. fold host. fold bare.
    apply PyFacts.truthy_true in Hb. by rewrite Hb.
  - intros Hb. unfold Inline._compact_link_label. fold host. fold bare.
    by rewrite Hb.
Qed.

Lemma C7_url_text_gets_host_label_witness :
  let url := "https://example.com/foo" in
  Inline.url_like url = true ∧
  @Inline._render_hyperlink ExampleUrls.urls url url url
  = "\href{\detokenize{https://example.com/foo}}{\textcolor{LinkColor}{example.com\hspace{0.32em}\linkicon}}" ∧
  @Inline._compact_link_label ExampleUrls.urls "https://www.example.com/foo"
  = "example.com".
Proof.
  intros url.
  assert (Inline.url_like url = true) as Hurl by reflexivity.
  split; [exact Hurl|].
  destruct (@C7_url_text_gets_host_label ExampleUrls.urls url url url Hurl)
    as (Hrender & _ & _).
  destruct (@C7_url_text_gets_host_label ExampleUrls.urls
              "https://www.example.com/foo" url url Hurl) as (_ & Hbare & _).
  split.
  - etransitivity; [exact Hrender|]. vm_compute. reflexivity.
  - etransitivity; [exact (Hbare ltac:(vm_compute; discriminate))|].
    vm_compute. reflexivity.
Defined.

(** C7 fails as stated: the link [<a href="http:/foo">www.example.com</a>].
    Its visible text begins with www., its target has no host, and the
    label is the word [link], which is not the (empty) host. *)
Lemma C7_counterexample :
  let a := Dom.Tag "a" [("href", "http:/foo")]
             [Dom.NavigableString "www.example.com"] in
  Inline.url_like "www.example.com" = true ∧
  @url_netloc ExampleUrls.urls "http:/foo" = "" ∧
  @Inline.convert_inline ExampleUrls.urls ∅ ∅ "https://example.com/post" a
  = Inline.hyperlink "\detokenize{http:/foo}" "link" ∧
  @Inline.convert_inline ExampleUrls.urls ∅ ∅ "https://example.com/post" a
  ≠ Inline.hyperlink "\detokenize{http:/foo}" (@url_netloc ExampleUrls.urls "http:/foo").
Proof. vm_compute. repeat split; discriminate. Qed.

(* ================================================================= *)
(** * Further properties *)

(** ** Strings *)

Module StrFacts.

Lemma append_assoc (a b c : string) : (a +:+ b) +:+ c = a +:+ (b +:+ c).
Proof.
  induction a as [|x a IH]; [done|].
  change (String x ((a +:+ b) +:+ c) = String x (a +:+ (b +:+ c))).
  by rewrite IH.
Qed.

Lemma append_empty_r (a : string) : a +:+ "" = a.
Proof.
  induction a as [|x a IH]; [done|].
  change (String x (a +:+ "") = String x a). by rewrite IH.
Qed.

Lemma join_app (l1 l2 : list string) :
  Py.join (l1 ++ l2) = Py.join l1 +:+ Py.join l2.
Proof.
  induction l1 as [|x l1 IH]; [done|].
  change (Py.join ((x :: l1) ++ l2)) with (x +:+ Py.join (l1 ++ l2)).
  change (Py.join (x :: l1)) with (x +:+ Py.join l1).
  by rewrite IH, append_assoc.
Qed.

Lemma join_singleton (x : string) : Py.join [x] = x.
Proof. apply append_empty_r. Qed.

End StrFacts.

(** ** The flow buffer over a whole pass *)

Module FlowTraceFacts.
Import FlowPacker FlowTrace.

(** [flush_flow] on a state whose counters agree with the run. *)
Lemma flush_flow_chunk hybrid st run :
  consistent st run →
  flush_flow hybrid st = mkState (parts st ++ chunk_of hybrid run) [] 0 0.
Proof.
  intros (Hp & Hw & Hb). unfold flush_flow, chunk_of.
  destruct run as [|b run].
  - destruct st as [p f w k]. cbn in Hp, Hw, Hb. subst. cbn.
    by rewrite app_nil_r.
  - rewrite Hp, Hw, Hb. cbn [map]. by destruct (hybrid && _).
Qed.

Lemma fold_app_ops hybrid ops1 ops2 st :
  fold_left (step hybrid) (ops1 ++ ops2) st
  = fold_left (step hybrid) ops2 (fold_left (step hybrid) ops1 st).
Proof. apply fold_left_app. Qed.

Lemma fold_emits hybrid rendered st :
  fold_left (step hybrid) (map Emit rendered) st
  = mkState (parts st ++ rendered) (flow_parts st) (flow_words st) (flow_blocks st).
Proof.
  revert st. induction rendered as [|x r IH]; intros st.
  - cbn. rewrite app_nil_r. by destruct st.
  - cbn [map fold_left step]. rewrite IH. unfold append_part. cbn.
    by rewrite <- app_assoc.
Qed.

Lemma pack_from hybrid blocks st run :
  consistent st run →
  parts (flush_flow hybrid (fold_left (step hybrid) (flat_map block_ops blocks) st))
  = parts st ++ pack hybrid blocks run.
Proof.
  revert st run. induction blocks as [|b blocks IH]; intros st run Hc.
  - cbn [flat_map fold_left pack]. by rewrite (flush_flow_chunk _ _ _ Hc).
  - cbn [flat_map]. rewrite fold_app_ops. destruct b as [tex words|rendered].
    + cbn [block_ops fold_left pack].
      rewrite (IH _ _ (FlowPackerFacts.step_consistent
                         hybrid st run (Push tex words) Hc)).
      cbn [step pending]. unfold push_flow. by destruct (Py.truthy tex).
    + cbn [block_ops fold_left step pack].
      rewrite (flush_flow_chunk _ _ _ Hc), fold_emits. cbn [parts flow_parts flow_words flow_blocks].
      rewrite (IH _ []); [|done]. cbn [parts]. by rewrite <- !app_assoc.
Qed.

Lemma join_chunk_plain run : Py.join (chunk_of false run) = Py.join (map fst run).
Proof.
  destruct run as [|b run]; [done|]. cbn [chunk_of andb]. apply StrFacts.join_singleton.
Qed.

Lemma join_pack_plain blocks run :
  Py.join (pack false blocks run)
  = Py.join (map fst run) +:+ Py.join (flat_map block_texts blocks).
Proof.
  revert run. induction blocks as [|b blocks IH]; intros run.
  - cbn [pack flat_map]. rewrite join_chunk_plain. cbn. by rewrite StrFacts.append_empty_r.
  - destruct b as [tex words|rendered]; cbn [pack flat_map block_texts].
    + rewrite IH. destruct (Py.truthy tex) eqn:Et.
      * rewrite map_app, !StrFacts.join_app. cbn [map fst].
        by rewrite StrFacts.append_assoc.
      * apply PyFacts.truthy_false in Et as ->.
        rewrite (StrFacts.join_app [""]). done.
    + rewrite !StrFacts.join_app, join_chunk_plain, (IH []). cbn [map Py.join fold_right].
      done.
Qed.

End FlowTraceFacts.

(** X1. [render_blocks] as a whole: the parts it returns are those of the
    blocks in document order, where every maximal run of consecutive flow
    blocks has become exactly one part (its texts joined, wrapped in the
    two-column environment when hybrid layout is on and the run has at
    least 2 blocks and 110 words, or at least 180 words) and the parts of
    a structural block follow the run before it unchanged. *)
Theorem X1_render_blocks_packs_runs (hybrid : bool) (blocks : list FlowTrace.block) :
  FlowTrace.render_blocks hybrid blocks = FlowTrace.pack hybrid blocks [].
Proof.
  unfold FlowTrace.render_blocks, FlowPacker.render_pass, FlowPacker.run.
  rewrite (FlowTraceFacts.pack_from hybrid blocks FlowPacker.init []); [done|].
  by repeat split.
Qed.

(** X2. Without hybrid layout the packing changes nothing but the
    grouping: the parts [render_blocks] returns, joined, are the texts of
    all blocks joined in document order; nothing is lost, repeated or
    moved. *)
Theorem X2_plain_pass_keeps_texts (blocks : list FlowTrace.block) :
  Py.join (FlowTrace.render_blocks false blocks)
  = Py.join (flat_map FlowTrace.block_texts blocks).
Proof.
  unfold FlowTrace.render_blocks, FlowPacker.render_pass, FlowPacker.run.
  rewrite (FlowTraceFacts.pack_from false blocks FlowPacker.init []);
    [|by repeat split].
  cbn [FlowPacker.parts FlowPacker.init app].
  by rewrite FlowTraceFacts.join_pack_plain.
Qed.

(** X3. The buffer never outlives a pass: after the final flush of any
    sequence of loop operations the buffer is empty and both counters are
    zero, and a second flush changes nothing. *)
Theorem X3_buffer_empty_at_exit (hybrid : bool) (ops : list FlowPacker.op) :
  let final := FlowPacker.flush_flow hybrid (FlowPacker.run hybrid ops) in
  FlowPacker.flow_parts final = [] ∧
  FlowPacker.flow_words final = 0 ∧
  FlowPacker.flow_blocks final = 0 ∧
  FlowPacker.flush_flow hybrid final = final.
Proof.
  intros final. unfold final.
  rewrite (FlowTraceFacts.flush_flow_chunk hybrid _ _
             (FlowPackerFacts.run_consistent hybrid ops)).
  by repeat split.
Qed.

(** ** plan_utils.py *)

Module PlanUtilsFacts.
Import PlanUtils.

Lemma join_with_cons (sep x y : string) (r : list string) :
  Py.join_with sep (x :: y :: r) = x +:+ sep +:+ Py.join_with sep (y :: r).
Proof. done. Qed.

Lemma cons_append (c : ascii) (s t : string) :
  String c s +:+ t = String c (s +:+ t).
Proof. done. Qed.

Lemma join_with_head_cons (c : ascii) (g : string) (gs : list string) :
  Py.join_with "-" (String c g :: gs) = String c (Py.join_with "-" (g :: gs)).
Proof. destruct gs as [|y r]; done. Qed.

Lemma name_re_match_accepts in_group s :
  name_re_match in_group s = true → accepts in_group s.
Proof.
  revert in_group. induction s as [|c r IH]; intros in_group Hm.
  - cbn in Hm. subst. exists "", [], "". repeat split; try done. by left.
  - cbn [name_re_match] in Hm.
    destruct (is_name_char c) eqn:Ec.
    { destruct (IH true Hm) as (g & gs & tail & Hg & _ & Hgs & Ht & ->).
      exists (String c g), gs, tail. repeat split; try done.
      - cbn. by constructor.
      - by rewrite join_with_head_cons. }
    destruct (Ascii.eqb c "-") eqn:Eh.
    { apply Ascii.eqb_eq in Eh as ->.
      apply andb_true_iff in Hm as [-> Hm].
      destruct (IH false Hm) as (g & gs & tail & Hg & Hne & Hgs & Ht & ->).
      exists "", (g :: gs), tail. repeat split; try done.
      constructor; [|done]. split; [by apply Hne | done]. }
    destruct (Ascii.eqb c (ascii_of_nat 10)) eqn:El; [|done].
    apply Ascii.eqb_eq in El as ->.
    apply andb_true_iff in Hm as [-> Hm].
    apply negb_true_iff, PyFacts.truthy_false in Hm as ->.
    exists "", [], Py.LF. repeat split; try done. by right.
Qed.

Lemma name_re_match_tail (tail : string) :
  tail = "" ∨ tail = Py.LF → name_re_match true tail = true.
Proof. by intros [->| ->]. Qed.

Lemma name_re_match_group g rest :
  Forall (λ c, is_name_char c = true) (list_ascii_of_string g) →
  name_re_match true rest = true →
  (g ≠ "" → name_re_match false (g +:+ rest) = true) ∧
  name_re_match true (g +:+ rest) = true.
Proof.
  intros Hg Hrest. induction g as [|c g IH]; [done|].
  cbn in Hg. apply Forall_cons in Hg as [Hc Hg]. destruct (IH Hg) as [_ IHt].
  rewrite cons_append. cbn [name_re_match]. rewrite Hc. done.
Qed.

Lemma name_re_match_groups gs tail :
  Forall is_group gs → tail = "" ∨ tail = Py.LF →
  ∀ g, Forall (λ c, is_name_char c = true) (list_ascii_of_string g) →
    (g ≠ "" → name_re_match false (Py.join_with "-" (g :: gs) +:+ tail) = true) ∧
    name_re_match true (Py.join_with "-" (g :: gs) +:+ tail) = true.
Proof.
  intros Hgs Ht. induction Hgs as [|g' gs [Hne' Hg'] Hgs IH]; intros g Hg.
  - cbn [Py.join_with]. apply name_re_match_group; [done|].
    by apply name_re_match_tail.
  - rewrite join_with_cons, !StrFacts.append_assoc.
    apply name_re_match_group; [done|].
    rewrite cons_append. cbn [name_re_match]. cbn [String.append].
    change (is_name_char "-") with false. cbn [Ascii.eqb Bool.eqb andb].
    destruct (IH g' Hg') as [IHf _]. by apply IHf.
Qed.

Lemma accepts_name_re_match s :
  accepts false s → name_re_match false s = true.
Proof.
  intros (g & gs & tail & Hg & Hne & Hgs & Ht & ->).
  destruct (name_re_match_groups gs tail Hgs Ht g Hg) as [Hf _].
  by apply Hf, Hne.
Qed.

End PlanUtilsFacts.

(** X4. [validate_plan_name] accepts exactly the hyphen-delimited names:
    one or more groups of lower-case letters and digits joined by single
    hyphens, and, because [$] also matches before a final line feed, such a
    name followed by one line feed.  Everything else, the empty name
    included, raises [ValueError]. *)
Theorem X4_validate_plan_name_accepts (name : string) :
  PlanUtils.validate_plan_name name = None ↔
  PlanUtils.hyphenated name ∨
  ∃ base, PlanUtils.hyphenated base ∧ name = base +:+ Py.LF.
Proof.
  unfold PlanUtils.validate_plan_name. split.
  - destruct (negb (Py.truthy name) || _) eqn:E; [done|]. intros _.
    apply orb_false_iff in E as [_ E]. apply negb_false_iff in E.
    destruct (PlanUtilsFacts.name_re_match_accepts _ _ E)
      as (g & gs & tail & Hg & Hne & Hgs & [->| ->] & ->).
    + left. exists g, gs. split; [|by rewrite StrFacts.append_empty_r].
      constructor; [|done]. split; [by apply Hne | done].
    + right. exists (Py.join_with "-" (g :: gs)). split; [|done].
      exists g, gs. split; [|done].
      constructor; [|done]. split; [by apply Hne | done].
  - intros H.
    assert (PlanUtils.accepts false name) as Ha.
    { destruct H as [(g & gs & Hall & ->)|(base & (g & gs & Hall & ->) & ->)];
        apply Forall_cons in Hall as [[Hne Hg] Hgs].
      - exists g, gs, "". rewrite StrFacts.append_empty_r.
        repeat split; try done. by left.
      - exists g, gs, Py.LF. repeat split; try done. by right. }
    rewrite (PlanUtilsFacts.accepts_name_re_match _ Ha).
    destruct name as [|c r]; [|done].
    destruct Ha as (g & gs & tail & _ & Hne & _ & _ & E).
    destruct g as [|c g]; [by destruct Hne|].
    rewrite PlanUtilsFacts.join_with_head_cons in E. done.
Qed.

Module FrontmatterFacts.
Import PlanUtils.

Lemma contains_colon_split line :
  Py.contains ":" line = true → ∃ key value, Py.split_once ":" line = (key, Some value).
Proof.
  induction line as [|c r IH]; [done|]. cbn [Py.contains Py.split_once].
  destruct (Ascii.eqb c ":") eqn:Ec.
  - intros _. by eexists _, _.
  - unfold Py.startswith. cbn [Py.strip_prefix].
    rewrite Ascii.eqb_sym, Ec. cbn [orb]. intros (key & value & E)%IH.
    rewrite E. by eexists _, _.
Qed.

(** The loop over a well-formed header followed by the closing line. *)
Lemma loop_header header close body data :
  Forall header_line header → Py.strip close = "---" →
  frontmatter_loop (header ++ close :: body) data
  = inr (fold_left insert_entry (entries header) data).
Proof.
  intros Hh Hc. revert data.
  induction Hh as [|l header [Hne Hl] Hh IH]; intros data.
  - cbn [app frontmatter_loop]. by rewrite Hc.
  - cbn [app frontmatter_loop]. unfold entries. cbn [omap list_omap].
    fold (entries header). unfold entry_of.
    apply String.eqb_neq in Hne. rewrite Hne. cbn [orb].
    fold (skipped l). destruct (skipped l) eqn:Es; [apply IH|].
    destruct Hl as [?|Hl]; [done|]. rewrite Hl. cbn [negb].
    destruct (contains_colon_split _ Hl) as (key & value & ->).
    cbn [fold_left]. apply IH.
Qed.


Lemma fold_insert_lookup (es : list (string * string)) (m : gmap string string)
    (k : string) :
  fold_left insert_entry es m !! k
  = match last_value k es with Some v => Some v | None => m !! k end.
Proof.
  revert m. induction es as [|[k' v'] es IH]; intros m; [done|].
  cbn [fold_left]. rewrite IH. unfold last_value, insert_entry. cbn [fst snd].
  destruct (decide (k' = k)) as [->|Hne].
  - rewrite filter_cons_True by done.
    destruct (filter _ es) as [|e es'] eqn:Ef.
    + cbn. by rewrite lookup_insert_eq.
    + rewrite last_cons_cons.
      destruct (last (e :: es')) as [x|] eqn:El; [done|].
      by apply last_None in El.
  - rewrite filter_cons_False by done.
    destruct (last _); [done|]. cbn. by rewrite lookup_insert_ne.
Qed.

End FrontmatterFacts.

Module HandleFacts.
Import PlanUtils.

(** On a handle whose reads all give a line the two readings of the loop
    agree. *)
Lemma loop_of_lines lines data :
  PlanFile.frontmatter_loop (map PlanFile.Line lines) data
  = PlanFile.of_lines (frontmatter_loop lines data).
Proof.
  revert data. induction lines as [|l lines IH]; intros data; [done|].
  cbn [map PlanFile.frontmatter_loop frontmatter_loop].
  destruct (String.eqb (Py.strip l) "---"); [done|].
  destruct (negb _ || _); [apply IH|].
  destruct (negb (Py.contains ":" l)); [done|].
  destruct (Py.split_once ":" l) as [key [value|]]; [apply IH | done].
Qed.

Lemma parse_of_lines lines :
  PlanFile.parse_frontmatter (map PlanFile.Line lines)
  = PlanFile.of_lines (parse_frontmatter lines).
Proof.
  destruct lines as [|first rest]; [done|].
  cbn [map PlanFile.parse_frontmatter]. unfold parse_frontmatter. cbn [tail].
  destruct (negb _); [done|]. apply loop_of_lines.
Qed.

(** Nothing is read after the closing line. *)
Lemma loop_stops_at_close header close rest rest' data :
  Py.strip close = "---" →
  PlanFile.frontmatter_loop
    (map PlanFile.Line header ++ PlanFile.Line close :: rest) data
  = PlanFile.frontmatter_loop
      (map PlanFile.Line header ++ PlanFile.Line close :: rest') data.
Proof.
  intros Hc. revert data. induction header as [|l header IH]; intros data.
  - cbn [map app PlanFile.frontmatter_loop]. by rewrite Hc.
  - cbn [map app PlanFile.frontmatter_loop].
    destruct (String.eqb (Py.strip l) "---"); [done|].
    destruct (negb _ || _); [apply IH|].
    destruct (negb (Py.contains ":" l)); [done|].
    destruct (Py.split_once ":" l) as [key [value|]]; [apply IH | done].
Qed.

(** A read that fails after a well-formed header ends the call. *)
Lemma loop_decode_error header rest data :
  Forall header_line header →
  PlanFile.frontmatter_loop
    (map PlanFile.Line header ++ PlanFile.DecodeError :: rest) data
  = inl PlanFile.UnicodeDecodeError.
Proof.
  intros Hh. revert data.
  induction Hh as [|l header [Hne Hl] Hh IH]; intros data; [done|].
  cbn [map app PlanFile.frontmatter_loop].
  apply String.eqb_neq in Hne. rewrite Hne.
  fold (skipped l). destruct (skipped l) eqn:Es; [apply IH|].
  destruct Hl as [?|Hl]; [done|]. rewrite Hl. cbn [negb].
  destruct (FrontmatterFacts.contains_colon_split _ Hl) as (key & value & ->).
  apply IH.
Qed.

End HandleFacts.

(** X5. [parse_frontmatter] makes no read after the closing line: once a
    line after the first strips to [---], whatever the handle would give
    after it, more lines or a [UnicodeDecodeError], does not change the
    result, be it the data or an error raised earlier.  A read that fails
    before the closing line, after a first line stripping to [---] and a
    well-formed header, ends the call with [UnicodeDecodeError]; as the
    text layer decodes ahead of the line it returns, bytes of the body can
    be the cause. *)
Theorem X5_frontmatter_stops_at_close (first close : string)
    (header : list string) (rest rest' : list PlanFile.read) :
  Py.strip close = "---" →
  PlanFile.parse_frontmatter
    (PlanFile.Line first :: map PlanFile.Line header ++ PlanFile.Line close :: rest)
  = PlanFile.parse_frontmatter
      (PlanFile.Line first :: map PlanFile.Line header
         ++ PlanFile.Line close :: rest') ∧
  (Py.strip first = "---" → Forall PlanUtils.header_line header →
   PlanFile.parse_frontmatter
     (PlanFile.Line first :: map PlanFile.Line header
        ++ PlanFile.DecodeError :: rest)
   = inl PlanFile.UnicodeDecodeError).
Proof.
  intros Hc. split.
  - cbn [PlanFile.parse_frontmatter]. destruct (negb _); [done|].
    by apply HandleFacts.loop_stops_at_close.
  - intros Hf Hh. cbn [PlanFile.parse_frontmatter]. rewrite Hf.
    cbn [String.eqb Ascii.eqb Bool.eqb negb].
    by apply HandleFacts.loop_decode_error.
Qed.

Lemma X5_frontmatter_stops_at_close_witness :
  let first := "---" +:+ Py.LF in
  let header := ["name: demo" +:+ Py.LF] in
  let close := "---" +:+ Py.LF in
  PlanFile.parse_frontmatter
    (PlanFile.Line first :: map PlanFile.Line header
       ++ PlanFile.Line close :: [PlanFile.Line "# Title"; PlanFile.DecodeError])
  = PlanFile.parse_frontmatter
      (PlanFile.Line first :: map PlanFile.Line header ++ PlanFile.Line close :: []) ∧
  PlanFile.parse_frontmatter
    (PlanFile.Line first :: map PlanFile.Line header
       ++ PlanFile.DecodeError :: [PlanFile.Line close])
  = inl PlanFile.UnicodeDecodeError.
Proof.
  intros first header close.
  destruct (X5_frontmatter_stops_at_close first close header
              [PlanFile.Line "# Title"; PlanFile.DecodeError] []
              eq_refl) as [Hstop _].
  destruct (X5_frontmatter_stops_at_close first close header
              [PlanFile.Line close] [] eq_refl) as [_ Herr].
  split; [exact Hstop|]. apply Herr; [reflexivity|].
  constructor; [|constructor]. split.
  - vm_compute. discriminate.
  - right. vm_compute. reflexivity.
Defined.


(** X7. In the data [parse_frontmatter] returns, a key maps to the value
    of the last header line that sets it (the text after the first colon,
    stripped, without one pair of matching quotes around it), and a key no
    line sets is absent. *)
Theorem X7_frontmatter_last_entry_wins (first close : string)
    (header body : list string) (k : string) :
  Py.strip first = "---" →
  Forall PlanUtils.header_line header →
  Py.strip close = "---" →
  ∃ data,
    PlanUtils.parse_frontmatter (first :: header ++ close :: body) = inr data ∧
    data !! k = PlanUtils.last_value k (PlanUtils.entries header).
Proof.
  intros Hf Hh Hc. unfold PlanUtils.parse_frontmatter.
  rewrite Hf. cbn [String.eqb negb tail].
  rewrite (FrontmatterFacts.loop_header _ _ _ _ Hh Hc). eexists. split; [done|].
  rewrite FrontmatterFacts.fold_insert_lookup.
  by destruct (PlanUtils.last_value _ _).
Qed.

Lemma X7_frontmatter_last_entry_wins_witness :
  let q := String (ascii_of_nat 34) EmptyString in
  let header := ["name: first" +:+ Py.LF; "# a comment" +:+ Py.LF; Py.LF;
                 " name : " +:+ q +:+ "second" +:+ q +:+ Py.LF] in
  Forall PlanUtils.header_line header ∧
  ∃ data,
    PlanUtils.parse_frontmatter
      (("---" +:+ Py.LF) :: header ++ ("---" +:+ Py.LF) :: ["body: text"])
    = inr data ∧
    data !! "name" = Some "second" ∧ data !! "body" = None.
Proof.
  intros q header.
  assert (Forall PlanUtils.header_line header) as Hh.
  { repeat constructor; try (vm_compute; discriminate);
      try (left; vm_compute; reflexivity); right; vm_compute; reflexivity. }
  split; [exact Hh|].
  destruct (X7_frontmatter_last_entry_wins ("---" +:+ Py.LF) ("---" +:+ Py.LF)
              header ["body: text"] "name" eq_refl Hh eq_refl) as (data & E & Hn).
  destruct (X7_frontmatter_last_entry_wins ("---" +:+ Py.LF) ("---" +:+ Py.LF)
              header ["body: text"] "body" eq_refl Hh eq_refl) as (data' & E' & Hb).
  rewrite E in E'. injection E' as <-.
  exists data. split; [exact E|]. split.
  - rewrite Hn. vm_compute. reflexivity.
  - rewrite Hb. vm_compute. reflexivity.
Defined.

Module RootsFacts.
Import PlanUtils.

Section Roots.
Variable has_git : list string → bool.

Lemma find_candidates_from current k r :
  (k ≤ length current)%nat →
  List.find has_git (candidates_from current k) = Some r ↔
  ∃ j, (j ≤ k)%nat ∧ r = take j current ∧ has_git r = true ∧
       ∀ i, (j < i ≤ k)%nat → has_git (take i current) = false.
Proof.
  intros Hk. induction k as [|k IH].
  - cbn [candidates_from List.find]. split.
    + destruct (has_git (take 0 current)) eqn:E; [|done]. intros [= <-].
      exists O. repeat split; try done. intros i Hi. lia.
    + intros (j & Hj & -> & Hg & _). assert (j = O) as -> by lia. by rewrite Hg.
  - cbn [candidates_from List.find]. destruct (has_git (take (S k) current)) eqn:E.
    + split.
      * intros [= <-]. exists (S k). repeat split; try done. intros i Hi. lia.
      * intros (j & Hj & -> & Hg & Hlater).
        destruct (decide (j = S k)) as [->|Hne]; [done|].
        rewrite (Hlater (S k)) in E by lia. done.
    + rewrite IH by lia. split.
      * intros (j & Hj & -> & Hg & Hlater). exists j. repeat split; try done; [lia|].
        intros i Hi. destruct (decide (i = S k)) as [->|?]; [done|].
        apply Hlater. lia.
      * intros (j & Hj & -> & Hg & Hlater).
        assert (j ≠ S k) by (intros ->; congruence).
        exists j. repeat split; try done; [lia|]. intros i Hi. apply Hlater. lia.
Qed.

Lemma find_candidates_from_None current k :
  List.find has_git (candidates_from current k) = None ↔
  ∀ j, (j ≤ k)%nat → has_git (take j current) = false.
Proof.
  induction k as [|k IH]; cbn [candidates_from List.find].
  - destruct (has_git (take 0 current)) eqn:E; split; try done.
    + intros H. by rewrite (H O) in E.
    + intros _ j Hj. by assert (j = O) as -> by lia.
  - destruct (has_git (take (S k) current)) eqn:E.
    + split; [done|]. intros H. by rewrite (H (S k)) in E.
    + rewrite IH. split.
      * intros H j Hj. destruct (decide (j = S k)) as [->|?]; [done|].
        apply H. lia.
      * intros H j Hj. apply H. lia.
Qed.

End Roots.

End RootsFacts.

(** X8. [find_git_root] returns the nearest enclosing repository: the
    longest prefix of the resolved start path (the path itself included)
    that holds [.git]; it returns [None] exactly when neither the path nor
    any of its ancestors up to the root does. *)
Theorem X8_find_git_root_nearest (has_git : list string → bool)
    (resolve : list string → list string) (start : list string) :
  let current := resolve start in
  (∀ r, PlanUtils.find_git_root has_git resolve start = Some r ↔
        ∃ j, (j ≤ length current)%nat ∧ r = take j current ∧ has_git r = true ∧
             ∀ i, (j < i ≤ length current)%nat → has_git (take i current) = false) ∧
  (PlanUtils.find_git_root has_git resolve start = None ↔
   ∀ j, (j ≤ length current)%nat → has_git (take j current) = false).
Proof.
  intros current. unfold PlanUtils.find_git_root, PlanUtils.candidates.
  fold current. split.
  - intros r. by apply RootsFacts.find_candidates_from.
  - apply RootsFacts.find_candidates_from_None.
Qed.



(** ** Booklet sections of any document *)

Module BookletBounds.
Import Booklet BookletFacts.

Section Bounds.
Context {page : Type}.
Variable reader : list page.
Variables outdir basename paper title : string.

Lemma section_content_length c i :
  0 < c → 0 ≤ i →
  Z.of_nat (length (section_content reader c i)) ≤ c.
Proof.
  intros Hc Hi. unfold section_content.
  rewrite page_range_length by lia. lia.
Qed.

Lemma written_ok (section_max_pages : Z) :
  2 ≤ section_max_pages →
  let c := section_max_pages - 1 in
  let total := Z.max 1 (Py.ceil_div (Z.of_nat (length reader)) c) in
  written (fst (write_stapled_sections reader outdir basename paper title
                  section_max_pages))
  = map (section_file reader outdir basename paper title c total) (Py.range 0 total).
Proof.
  intros HS c total.
  rewrite (BookletRun.write_stapled_sections_ok reader outdir basename paper title
             section_max_pages HS).
  cbn [fst]. apply written_section_events.
Qed.

End Bounds.

End BookletBounds.

(** X10. With a section size S of 2 or more the splitter writes at least
    one section file for any document, the empty one included, and every
    file it writes starts with its cover, continues with content pages only
    and has at most S pages.  For a document without pages it writes one
    file that holds the cover alone, stating the page range 1 to 0. *)
Theorem X10_sections_at_most_max_pages {page : Type} (reader : list page)
    (outdir basename paper title : string) (S : Z) :
  2 ≤ S →
  let sections :=
    Booklet.written
      (fst (Booklet.write_stapled_sections reader outdir basename paper title S)) in
  sections ≠ [] ∧
  (∀ path pages, (path, pages) ∈ sections →
     Z.of_nat (length pages) ≤ S ∧
     ∃ c content, pages = Booklet.CoverPage c :: map Booklet.ContentPage content) ∧
  (reader = [] →
   ∃ path c, sections = [(path, [Booklet.CoverPage c])] ∧
             Booklet.booklet_idx c = 1 ∧ Booklet.booklet_total c = 1 ∧
             Booklet.content_start c = 1 ∧ Booklet.content_end c = 0).
Proof.
  intros HS sections. unfold sections.
  rewrite (BookletBounds.written_ok reader outdir basename paper title S HS).
  set (total := Z.max 1 _). split; [|split].
  - rewrite (BookletFacts.range_cons 0 total) by lia. done.
  - intros path pages Hin.
    apply list_elem_of_fmap in Hin as (i & E & Hi).
    unfold Py.range in Hi. apply list_elem_of_fmap in Hi as (k & -> & _).
    unfold Booklet.section_file in E. injection E as -> ->. split.
    + cbn [length]. rewrite length_map.
      pose proof (BookletBounds.section_content_length reader (S - 1)
                    (0 + Z.of_nat k) ltac:(lia) ltac:(lia)). lia.
    + by eexists _, _.
  - intros ->. assert (total = 1) as ->.
    { subst total. cbn [length]. unfold Py.ceil_div.
      change (Z.of_nat 0) with 0. rewrite Z.opp_0, Z.div_0_l by lia. lia. }
    change (Py.range 0 1) with [0]. cbn [map].
    unfold Booklet.section_file, Booklet.section_cover, Booklet.section_content,
      Booklet.page_range. cbn [length]. change (Z.of_nat 0) with 0.
    rewrite drop_nil, take_nil. cbn [map].
    eexists _, _. split; [reflexivity|]. cbn.
    rewrite Z.min_r by lia. done.
Qed.

Lemma X10_sections_at_most_max_pages_witness :
  let sections :=
    Booklet.written
      (fst (Booklet.write_stapled_sections (seq 1 7) "out" "doc" "letter" "T" 4)) in
  2 ≤ 4 ∧ sections ≠ [] ∧
  map (λ f, length (snd f)) sections = [4; 4; 2]%nat.
Proof.
  intros sections. assert (2 ≤ 4) as HS by lia.
  destruct (X10_sections_at_most_max_pages (seq 1 7) "out" "doc" "letter" "T" 4 HS)
    as (Hne & _).
  split; [exact HS|]. split; [exact Hne|]. vm_compute. reflexivity.
Defined.

(** ** Decimal numerals and character classes *)

From Stdlib Require Import DecimalPos.

Module DecimalFacts.

Local Abbreviation chars := list_ascii_of_string.
Local Abbreviation digit_step :=
  (λ (acc : Z) (c : ascii), 10 * acc + (Z.of_nat (nat_of_ascii c) - 48)).

Lemma chars_append (s t : string) : chars (s +:+ t) = chars s ++ chars t.
Proof.
  induction s as [|c s IH]; [done|].
  change (chars (String c s +:+ t)) with (c :: chars (s +:+ t)). by rewrite IH.
Qed.

Ltac digit_case IH :=
  cbn [NilEmpty.string_of_uint list_ascii_of_string fold_left Pos.of_uint_acc];
  rewrite <- IH; f_equal;
  try (match goal with
       | |- context [Z.of_nat (nat_of_ascii ?c)] =>
           let v := eval vm_compute in (Z.of_nat (nat_of_ascii c)) in
           change (Z.of_nat (nat_of_ascii c)) with v
       end; lia).

Lemma fold_digits_acc (d : Decimal.uint) (acc : positive) :
  fold_left digit_step (chars (NilEmpty.string_of_uint d)) (Z.pos acc)
  = Z.pos (Pos.of_uint_acc d acc).
Proof.
  revert acc. induction d as [|d IH|d IH|d IH|d IH|d IH|d IH|d IH|d IH|d IH|d IH];
    intros acc; [done | digit_case IH ..].
Qed.

Lemma fold_digits (d : Decimal.uint) :
  fold_left digit_step (chars (NilEmpty.string_of_uint d)) 0
  = Z.of_N (Pos.of_uint d).
Proof.
  induction d as [|d IH|d IH|d IH|d IH|d IH|d IH|d IH|d IH|d IH|d IH];
    cbn [NilEmpty.string_of_uint list_ascii_of_string fold_left Pos.of_uint];
    [done | exact IH | ..];
    cbn [Z.of_N]; rewrite <- fold_digits_acc; f_equal.
Qed.

(** [int(str(n)) == n] *)
Lemma int_of_str (n : Z) : 0 ≤ n → Py.int_of_digits (Py.str_of_Z n) = n.
Proof.
  intros Hn. unfold Py.int_of_digits, Py.str_of_Z.
  destruct n as [|p|p]; [done| |lia].
  cbn [Z.to_int NilEmpty.string_of_int]. rewrite fold_digits.
  by rewrite DecimalPos.Unsigned.of_to.
Qed.

Lemma uint_digits (d : Decimal.uint) :
  Forall (λ c, Py.is_digit c = true) (chars (NilEmpty.string_of_uint d)).
Proof.
  induction d; cbn [NilEmpty.string_of_uint list_ascii_of_string];
    [constructor | ..]; by constructor.
Qed.

Lemma uint_nonempty (p : positive) : NilEmpty.string_of_uint (Pos.to_uint p) ≠ "".
Proof.
  intros E. pose proof (DecimalPos.Unsigned.of_to p) as H.
  destruct (Pos.to_uint p); discriminate.
Qed.

(** [str(n)] for a natural number is a non-empty string of digits. *)
Lemma str_digits (n : Z) :
  0 ≤ n →
  Py.str_of_Z n ≠ "" ∧ Forall (λ c, Py.is_digit c = true) (chars (Py.str_of_Z n)).
Proof.
  intros Hn. unfold Py.str_of_Z. destruct n as [|p|p]; [| |lia].
  - split; [done|]. by repeat constructor.
  - cbn [Z.to_int NilEmpty.string_of_int]. split; [apply uint_nonempty|].
    apply uint_digits.
Qed.

Lemma zeros_digits (k : nat) : Forall (λ c, Py.is_digit c = true) (chars (Py.zeros k)).
Proof. induction k as [|k IH]; [constructor|]. cbn. by constructor. Qed.

Lemma fold_zeros (k : nat) (l : list ascii) :
  fold_left digit_step (chars (Py.zeros k) ++ l) 0 = fold_left digit_step l 0.
Proof. induction k as [|k IH]; [done|]. cbn. exact IH. Qed.

(** The padded numeral reads back as the number. *)
Lemma int_of_format (w : nat) (n : Z) :
  0 ≤ n → Py.int_of_digits (Py.format_0d w n) = n.
Proof.
  intros Hn. unfold Py.format_0d.
  replace (n <? 0) with false by (symmetry; apply Z.ltb_ge; lia).
  unfold Py.int_of_digits. rewrite chars_append, fold_zeros.
  by apply int_of_str.
Qed.

Lemma format_digits (w : nat) (n : Z) :
  0 ≤ n → Forall (λ c, Py.is_digit c = true) (chars (Py.format_0d w n)).
Proof.
  intros Hn. unfold Py.format_0d.
  replace (n <? 0) with false by (symmetry; apply Z.ltb_ge; lia).
  rewrite chars_append. apply Forall_app. split; [apply zeros_digits|].
  by apply str_digits.
Qed.

Lemma format_inj (w : nat) (a b : Z) :
  0 ≤ a → 0 ≤ b → Py.format_0d w a = Py.format_0d w b → a = b.
Proof.
  intros Ha Hb E. rewrite <- (int_of_format w a Ha), <- (int_of_format w b Hb).
  by rewrite E.
Qed.

(** A run of digits followed by something that does not start with a
    digit is read back by [take_while]. *)
Lemma take_digits_append (s t : string) :
  Forall (λ c, Py.is_digit c = true) (chars s) →
  Py.take_while Py.is_digit t = "" →
  Py.take_while Py.is_digit (s +:+ t) = s.
Proof.
  intros Hs Ht. induction s as [|c s IH]; [done|].
  cbn in Hs. apply Forall_cons in Hs as [Hc Hs].
  change (String c s +:+ t) with (String c (s +:+ t)).
  cbn [Py.take_while]. rewrite Hc. by rewrite IH.
Qed.

Lemma take_digits_all (s : string) :
  Forall (λ c, Py.is_digit c = true) (chars s) → Py.take_while Py.is_digit s = s.
Proof.
  intros Hs. rewrite <- (StrFacts.append_empty_r s) at 1.
  by apply take_digits_append.
Qed.

End DecimalFacts.

(** ** Asset files and section files are never overwritten *)

Module ImageAssetsFacts.
Import Images ImageAssets.

Lemma ext_no_digit ext :
  ext ∈ LATEX_IMAGE_EXTS → Py.take_while Py.is_digit ext = "".
Proof.
  unfold LATEX_IMAGE_EXTS. intros Hin.
  repeat (apply elem_of_cons in Hin as [->|Hin]; [done|]).
  by apply elem_of_nil in Hin.
Qed.

(** The number of an asset can be read off its path. *)
Lemma asset_path_inj (k1 k2 : nat) (ext1 ext2 : string) :
  ext1 ∈ LATEX_IMAGE_EXTS → ext2 ∈ LATEX_IMAGE_EXTS →
  "elegant-print-assets/image-" +:+ Py.format_0d 3 (Z.of_nat k1 + 1) +:+ ext1
  = "elegant-print-assets/image-" +:+ Py.format_0d 3 (Z.of_nat k2 + 1) +:+ ext2 →
  k1 = k2.
Proof.
  intros H1 H2 E. apply (inj (String.app _)) in E.
  assert (Py.format_0d 3 (Z.of_nat k1 + 1) = Py.format_0d 3 (Z.of_nat k2 + 1)) as Ef.
  { rewrite <- (DecimalFacts.take_digits_append (Py.format_0d 3 (Z.of_nat k1 + 1)) ext1).
    - rewrite E. apply DecimalFacts.take_digits_append.
      + apply DecimalFacts.format_digits. lia.
      + by apply ext_no_digit.
    - apply DecimalFacts.format_digits. lia.
    - by apply ext_no_digit. }
  apply DecimalFacts.format_inj in Ef; lia.
Qed.

Lemma numbered_NoDup st w : numbered st w → NoDup (asset_paths w).
Proof.
  intros [_ Hnames]. apply NoDup_alt. intros i j p Hi Hj.
  unfold asset_paths in Hi, Hj. rewrite list_lookup_fmap in Hi, Hj.
  destruct (files w !! i) as [[n1 d1]|] eqn:E1; [|done].
  destruct (files w !! j) as [[n2 d2]|] eqn:E2; [|done].
  cbn in Hi, Hj. injection Hi as ->. injection Hj as ->.
  destruct (Hnames _ _ _ E1) as (e1 & He1 & N1).
  destruct (Hnames _ _ _ E2) as (e2 & He2 & N2).
  eapply asset_path_inj; [exact He1 | exact He2 |]. by rewrite <- N1, <- N2.
Qed.

Section Store.
Context `{Urllib} `{ImageEnv}.
Variable page_url : string.

Lemma fetch_cache_sound img st w r st' w' :
  numbered st w → cache_sound st w →
  fetch page_url img st w = (r, st', w') → cache_sound st' w'.
Proof.
  intros Hnum [Hfile Hinj] E.
  pose proof (ImagesFacts.fetch_numbered page_url _ _ _ _ _ _ Hnum E) as Hnum'.
  apply ImagesFacts.fetch_inv in E. inversion E; subst; try done.
  set (u := resolved_source page_url img) in *.
  set (p := asset_name (counter st + 1) ext) in *.
  assert (∀ u' : string, cache st !! u' ≠ Some p) as Hfresh.
  { intros u' Hu'. apply Hfile in Hu'.
    pose proof (numbered_NoDup _ _ Hnum') as Hnd.
    unfold asset_paths in Hnd, Hu'. cbn [files] in Hnd.
    rewrite map_app in Hnd. apply NoDup_app in Hnd as (_ & Hdisj & _).
    apply (Hdisj p Hu'). cbn. apply list_elem_of_here. }
  split.
  - intros u' p' Hu'. unfold asset_paths. cbn [files cache] in *.
    rewrite map_app. apply elem_of_app.
    destruct (decide (u = u')) as [<-|Hne].
    + rewrite lookup_insert_eq in Hu'. injection Hu' as <-. right.
      cbn. apply list_elem_of_here.
    + rewrite lookup_insert_ne in Hu' by done. left. by eapply Hfile.
  - intros u1 u2 p' H1' H2'. cbn [cache] in *.
    destruct (decide (u = u1)) as [<-|Hn1]; destruct (decide (u = u2)) as [<-|Hn2];
      try done.
    + rewrite lookup_insert_eq in H1'. rewrite lookup_insert_ne in H2' by done.
      injection H1' as <-. by destruct (Hfresh u2).
    + rewrite lookup_insert_eq in H2'. rewrite lookup_insert_ne in H1' by done.
      injection H2' as <-. by destruct (Hfresh u1).
    + rewrite lookup_insert_ne in H1', H2' by done. by eapply Hinj.
Qed.

Lemma fetch_all_cache_sound imgs st w rs st' w' :
  numbered st w → cache_sound st w →
  fetch_all page_url imgs st w = (rs, st', w') →
  numbered st' w' ∧ cache_sound st' w'.
Proof.
  revert st w rs st' w'.
  induction imgs as [|img imgs IH]; intros st w rs st' w' Hn Hs E.
  - by injection E as <- <- <-.
  - cbn [fetch_all] in E.
    destruct (fetch page_url img st w) as [[r st1] w1] eqn:E1.
    destruct (fetch_all page_url imgs st1 w1) as [[rs2 st2] w2] eqn:E2.
    injection E as <- <- <-. eapply IH; [| |exact E2].
    + by eapply ImagesFacts.fetch_numbered.
    + by eapply fetch_cache_sound.
Qed.

End Store.

End ImageAssetsFacts.

(** X11. Over any sequence of fetches on a new image store no asset file
    is written twice (the paths of the files written are pairwise
    different), every path in the cache names a file that was written, and
    two different resolved sources never share a path. *)
Theorem X11_assets_never_overwritten `{Urllib} `{ImageEnv} (page_url : string)
    (imgs : list (list (string * string))) :
  let run := Images.fetch_all page_url imgs Images.new_store Images.new_world in
  let st := snd (fst run) in
  let w := snd run in
  NoDup (ImageAssets.asset_paths w) ∧
  (∀ (u p : string), Images.cache st !! u = Some p → p ∈ ImageAssets.asset_paths w) ∧
  (∀ (u1 u2 p : string),
     Images.cache st !! u1 = Some p → Images.cache st !! u2 = Some p → u1 = u2).
Proof.
  intros run st w. unfold st, w, run.
  destruct (Images.fetch_all page_url imgs Images.new_store Images.new_world)
    as [[rs st'] w'] eqn:E. cbn [fst snd].
  assert (ImageAssets.cache_sound Images.new_store Images.new_world) as Hs.
  { split; intros *; cbn; by rewrite lookup_empty. }
  destruct (ImageAssetsFacts.fetch_all_cache_sound page_url imgs _ _ _ _ _
              ImagesFacts.new_numbered Hs E) as [Hn [Hf Hi]].
  split; [by eapply ImageAssetsFacts.numbered_NoDup|]. by split.
Qed.

Module SectionPathsFacts.
Import Booklet.

Lemma section_path_inj (outdir basename : string) (total i j : Z) :
  0 ≤ i → 0 ≤ j →
  section_path outdir basename i total = section_path outdir basename j total →
  i = j.
Proof.
  intros Hi Hj E. unfold section_path in E.
  do 4 apply (inj (String.app _)) in E.
  assert (Py.format_0d 2 (i + 1) = Py.format_0d 2 (j + 1)) as Ef.
  { rewrite <- (DecimalFacts.take_digits_append (Py.format_0d 2 (i + 1))
                  ("-of-" +:+ Py.format_0d 2 total +:+ ".pdf")).
    - rewrite E. apply DecimalFacts.take_digits_append; [|done].
      apply DecimalFacts.format_digits. lia.
    - apply DecimalFacts.format_digits. lia.
    - done. }
  apply DecimalFacts.format_inj in Ef; lia.
Qed.

Lemma range_NoDup (lo hi : Z) : NoDup (Py.range lo hi).
Proof.
  unfold Py.range. apply (NoDup_fmap_2_strong (λ k : nat, lo + Z.of_nat k)).
  - intros x y _ _ E. lia.
  - apply NoDup_seq.
Qed.

Lemma range_nonneg (hi i : Z) : i ∈ Py.range 0 hi → 0 ≤ i.
Proof. unfold Py.range. intros (k & -> & _)%list_elem_of_fmap. lia. Qed.

End SectionPathsFacts.

(** X12. With a section size of 2 or more the splitter gives every section
    its own file: the paths it returns are pairwise different, so no
    section overwrites another, however many sections there are. *)
Theorem X12_sections_never_overwritten {page : Type} (reader : list page)
    (outdir basename paper title : string) (S : Z) :
  2 ≤ S →
  ∃ outputs,
    snd (Booklet.write_stapled_sections reader outdir basename paper title S)
      = inr outputs ∧
    NoDup outputs.
Proof.
  intros HS.
  rewrite (BookletRun.write_stapled_sections_ok reader outdir basename paper title
             S HS). cbn [snd]. eexists. split; [reflexivity|].
  apply NoDup_fmap_2_strong; [|apply SectionPathsFacts.range_NoDup].
  intros i j Hi%SectionPathsFacts.range_nonneg Hj%SectionPathsFacts.range_nonneg E.
  by eapply SectionPathsFacts.section_path_inj.
Qed.

Lemma X12_sections_never_overwritten_witness :
  2 ≤ 3 ∧
  ∃ outputs,
    snd (Booklet.write_stapled_sections (seq 1 250) "out" "doc" "letter" "T" 3)
      = inr outputs ∧
    NoDup outputs.
Proof.
  split; [lia|].
  exact (X12_sections_never_overwritten (seq 1 250) "out" "doc" "letter" "T" 3
           ltac:(lia)).
Defined.

(** ** The paths [fetch] hands out *)

Module ReturnedPathsFacts.
Import Images ImageAssets.

Section Store.
Context `{Urllib} `{ImageEnv}.
Variable page_url : string.

Lemma fetch_paths_grow img st w r st' w' (p : string) :
  fetch page_url img st w = (r, st', w') →
  p ∈ asset_paths w → p ∈ asset_paths w'.
Proof.
  intros E%ImagesFacts.fetch_inv Hp. inversion E; subst; try done.
  unfold asset_paths. cbn [files]. rewrite map_app. apply elem_of_app. by left.
Qed.

Lemma fetch_all_paths_grow imgs st w rs st' w' (p : string) :
  fetch_all page_url imgs st w = (rs, st', w') →
  p ∈ asset_paths w → p ∈ asset_paths w'.
Proof.
  revert st w rs st' w'. induction imgs as [|img imgs IH]; intros st w rs st' w' E Hp.
  - by injection E as <- <- <-.
  - cbn [fetch_all] in E.
    destruct (fetch page_url img st w) as [[r st1] w1] eqn:E1.
    destruct (fetch_all page_url imgs st1 w1) as [[rs2 st2] w2] eqn:E2.
    injection E as <- <- <-. eapply IH; [exact E2|]. by eapply fetch_paths_grow.
Qed.

Lemma fetch_result_written img st w rel st' w' :
  cache_sound st w →
  fetch page_url img st w = (Some rel, st', w') → rel ∈ asset_paths w'.
Proof.
  intros [Hfile _] E%ImagesFacts.fetch_inv. inversion E; subst.
  - by eapply Hfile.
  - unfold asset_paths. cbn [files]. rewrite map_app. apply elem_of_app. right.
    cbn. apply list_elem_of_here.
Qed.

Lemma fetch_all_results_written imgs st w rs st' w' (rel : string) :
  numbered st w → cache_sound st w →
  fetch_all page_url imgs st w = (rs, st', w') →
  Some rel ∈ rs → rel ∈ asset_paths w'.
Proof.
  revert st w rs st' w'.
  induction imgs as [|img imgs IH]; intros st w rs st' w' Hn Hs E Hin.
  - injection E as <- <- <-. by apply elem_of_nil in Hin.
  - cbn [fetch_all] in E.
    destruct (fetch page_url img st w) as [[r st1] w1] eqn:E1.
    destruct (fetch_all page_url imgs st1 w1) as [[rs2 st2] w2] eqn:E2.
    injection E as <- <- <-. apply elem_of_cons in Hin as [<-|Hin].
    + eapply fetch_all_paths_grow; [exact E2|]. by eapply fetch_result_written.
    + eapply IH; [| |exact E2|exact Hin].
      * by eapply ImagesFacts.fetch_numbered.
      * by eapply ImageAssetsFacts.fetch_cache_sound.
Qed.

End Store.

Lemma numbered_path st w (p : string) :
  numbered st w → p ∈ asset_paths w →
  ∃ (n : Z) (ext : string),
    1 ≤ n ≤ counter st ∧ ext ∈ LATEX_IMAGE_EXTS ∧ p = asset_name n ext.
Proof.
  intros [Hc Hnames] Hp. unfold asset_paths in Hp.
  apply list_elem_of_fmap in Hp as ([name data] & -> & Hin).
  apply list_elem_of_lookup in Hin as [k Hk].
  destruct (Hnames _ _ _ Hk) as (ext & Hext & ->).
  apply lookup_lt_Some in Hk.
  exists (Z.of_nat k + 1), ext. split; [lia|]. by split.
Qed.

End ReturnedPathsFacts.

(** X13. Every path a fetch returns names a file the store has written:
    over any sequence of fetches on a new store, a returned path is the
    path of an asset file, it is [image-NNN] with a number from 1 to the
    counter, and its extension is one of [LATEX_IMAGE_EXTS]. *)
Theorem X13_returned_paths_written `{Urllib} `{ImageEnv} (page_url : string)
    (imgs : list (list (string * string))) (rel : string) :
  let run := Images.fetch_all page_url imgs Images.new_store Images.new_world in
  Some rel ∈ fst (fst run) →
  rel ∈ ImageAssets.asset_paths (snd run) ∧
  ∃ (n : Z) (ext : string),
    1 ≤ n ≤ Images.counter (snd (fst run)) ∧
    ext ∈ Images.LATEX_IMAGE_EXTS ∧
    rel = Images.asset_name n ext.
Proof.
  intros run. unfold run.
  destruct (Images.fetch_all page_url imgs Images.new_store Images.new_world)
    as [[rs st'] w'] eqn:E. cbn [fst snd]. intros Hin.
  assert (ImageAssets.cache_sound Images.new_store Images.new_world) as Hs.
  { split; intros *; cbn; by rewrite lookup_empty. }
  assert (rel ∈ ImageAssets.asset_paths w') as Hrel.
  { by eapply (ReturnedPathsFacts.fetch_all_results_written page_url imgs _ _ _ _ _
                 rel ImagesFacts.new_numbered Hs E). }
  split; [exact Hrel|].
  eapply ReturnedPathsFacts.numbered_path; [|exact Hrel].
  exact (ImagesFacts.fetch_all_numbered page_url _ _ _ _ _ _
           ImagesFacts.new_numbered E).
Qed.

Lemma X13_returned_paths_written_witness :
  let page := "https://example.com/post" in
  let imgs := [[("src", "https://example.com/a.png")];
               [("src", "https://example.com/b.png")];
               [("alt", "again"); ("src", "https://example.com/a.png")]] in
  let rel := "elegant-print-assets/image-002.png" in
  let run := @Images.fetch_all ExampleUrls.urls ExampleImages.env page imgs
               Images.new_store Images.new_world in
  Some rel ∈ fst (fst run) ∧
  rel ∈ ImageAssets.asset_paths (snd run) ∧
  ∃ (n : Z) (ext : string),
    1 ≤ n ≤ Images.counter (snd (fst run)) ∧
    ext ∈ Images.LATEX_IMAGE_EXTS ∧
    rel = Images.asset_name n ext.
Proof.
  intros page imgs rel run.
  assert (Some rel ∈ fst (fst run)) as Hin.
  { apply (bool_decide_unpack _). vm_compute. reflexivity. }
  split; [exact Hin|].
  exact (@X13_returned_paths_written ExampleUrls.urls ExampleImages.env page imgs
           rel Hin).
Defined.

(** ** White space *)

Module WsFacts.

Local Abbreviation chars := list_ascii_of_string.

Lemma chars_rev_app (s acc : string) :
  chars (String.rev_app s acc) = rev (chars s) ++ chars acc.
Proof.
  revert acc. induction s as [|c s IH]; intros acc; [done|].
  cbn [String.rev_app list_ascii_of_string rev]. rewrite IH. cbn.
  by rewrite <- app_assoc.
Qed.

Lemma chars_rev (s : string) : chars (String.rev s) = rev (chars s).
Proof. unfold String.rev. rewrite chars_rev_app. cbn. by rewrite app_nil_r. Qed.

Lemma chars_inj (s t : string) : chars s = chars t → s = t.
Proof.
  intros E. rewrite <- (string_of_list_ascii_of_string s),
    <- (string_of_list_ascii_of_string t). by rewrite E.
Qed.

Lemma rev_involutive (s : string) : String.rev (String.rev s) = s.
Proof. apply chars_inj. by rewrite !chars_rev, rev_involutive. Qed.

Lemma drop_while_none (p : ascii → bool) (s : string) :
  Forall (λ c, p c = false) (chars s) → Py.drop_while p s = s.
Proof.
  destruct s as [|c s]; [done|]. cbn. intros [Hc _]%Forall_cons. by rewrite Hc.
Qed.

Lemma strip_ws_free (s : string) :
  Forall (λ c, Py.is_space c = false) (chars s) → Py.strip s = s.
Proof.
  intros Hs. unfold Py.strip, Py.lstrip, Py.rstrip.
  rewrite (drop_while_none _ s Hs), drop_while_none.
  - apply rev_involutive.
  - rewrite chars_rev. by apply Forall_rev.
Qed.

Lemma squeeze_ws_free (b : bool) (s : string) :
  Forall (λ c, Py.is_space c = false) (chars s) → Py.squeeze_ws b s = s.
Proof.
  revert b. induction s as [|c s IH]; intros b Hs; [done|].
  cbn in Hs. apply Forall_cons in Hs as [Hc Hs].
  cbn [Py.squeeze_ws]. rewrite Hc. by rewrite IH.
Qed.

(** [collapse_ws] leaves a string without white space as it is. *)
Lemma collapse_ws_free (s : string) :
  Forall (λ c, Py.is_space c = false) (chars s) → Py.collapse_ws s = s.
Proof.
  intros Hs. unfold Py.collapse_ws. rewrite squeeze_ws_free by done.
  by apply strip_ws_free.
Qed.

Lemma digit_not_space (c : ascii) : Py.is_digit c = true → Py.is_space c = false.
Proof.
  unfold Py.is_digit, Py.is_space. generalize (nat_of_ascii c). intros n Hd.
  apply andb_true_iff in Hd as [H1 H2].
  apply Nat.leb_le in H1. apply Nat.leb_le in H2.
  apply orb_false_iff. split; apply andb_false_iff.
  - right. apply Nat.leb_gt. lia.
  - right. apply Nat.leb_gt. lia.
Qed.

Lemma digits_ws_free (s : string) :
  Forall (λ c, Py.is_digit c = true) (chars s) →
  Forall (λ c, Py.is_space c = false) (chars s).
Proof. intros Hs. eapply Forall_impl; [exact Hs|]. apply digit_not_space. Qed.

End WsFacts.

(** ** From the resolver to the converter *)

Module FootnoteLookupFacts.
Import Footnotes Inline.

Local Abbreviation chars := list_ascii_of_string.

Lemma fold_digits_nonneg (l : list ascii) (acc : Z) :
  0 ≤ acc → Forall (λ c, Py.is_digit c = true) l →
  0 ≤ fold_left (λ (a : Z) (c : ascii), 10 * a + (Z.of_nat (nat_of_ascii c) - 48))
                l acc.
Proof.
  intros Hacc Hl. revert acc Hacc.
  induction Hl as [|c l Hc Hl IH]; intros acc Hacc; [done|].
  cbn [fold_left]. apply IH. unfold Py.is_digit in Hc.
  apply andb_true_iff in Hc as [H1 _]. apply Nat.leb_le in H1. lia.
Qed.

Lemma int_of_digits_nonneg (d : string) :
  Forall (λ c, Py.is_digit c = true) (chars d) → 0 ≤ Py.int_of_digits d.
Proof. intros Hd. by apply fold_digits_nonneg. Qed.

Lemma take_while_all (p : ascii → bool) (s : string) :
  Forall (λ c, p c = true) (chars (Py.take_while p s)).
Proof.
  induction s as [|c s IH]; [constructor|]. cbn [Py.take_while].
  destruct (p c) eqn:E; [|constructor]. cbn. by constructor.
Qed.

Lemma search_digits_digits s d :
  Py.search_digits s = Some d → Forall (λ c, Py.is_digit c = true) (chars d).
Proof.
  unfold Py.search_digits. destruct (Py.drop_while _ s) as [|a r]; [done|].
  intros [= <-]. apply (take_while_all Py.is_digit (String a r)).
Qed.

Lemma digits1_digits s d :
  Py.digits1 s = Some d → Forall (λ c, Py.is_digit c = true) (chars d).
Proof.
  unfold Py.digits1. destruct (Py.truthy _); [|done]. intros [= <-].
  apply take_while_all.
Qed.

Lemma search_footnote_number_digits s d :
  Py.search_footnote_number s = Some d →
  Forall (λ c, Py.is_digit c = true) (chars d).
Proof.
  induction s as [|c s IH]; cbn [Py.search_footnote_number].
  - destruct (Py.match_footnote_here "") eqn:E; [|done]. done.
  - destruct (Py.match_footnote_here (String c s)) as [d'|] eqn:E; [|exact IH].
    intros [= <-]. unfold Py.match_footnote_here in E.
    destruct (Py.strip_prefix "footnote" _) as [r|]; [|done].
    destruct (Py.strip_prefix "-anchor-" r) as [t|].
    + destruct (Py.digits1 t) as [d1|] eqn:E1.
      * injection E as <-. by eapply digits1_digits.
      * destruct (Py.strip_prefix "-" r) as [t'|]; [|done]. by eapply digits1_digits.
    + destruct (Py.strip_prefix "-" r) as [t'|]; [|done]. by eapply digits1_digits.
Qed.

Lemma number_in_nonneg text : 0 ≤ number_in text.
Proof.
  unfold number_in. destruct (Py.search_digits text) as [d|] eqn:E; [|done].
  apply int_of_digits_nonneg. by eapply search_digits_digits.
Qed.

Lemma match_bracket_label_digits s d rest :
  Py.match_bracket_label s = Some (d, rest) →
  Forall (λ c, Py.is_digit c = true) (chars d).
Proof.
  unfold Py.match_bracket_label. destruct (Py.strip_prefix "[" s) as [r|]; [|done].
  destruct (Py.digits1 r) as [d'|] eqn:E; [|done].
  destruct (Py.strip_prefix "]" _); [|done]. intros [= <- <-].
  by eapply digits1_digits.
Qed.

Section Resolver.
Context `{Urllib}.
Variable page_url : string.

(** Every number a footnote is registered under is positive. *)
Lemma p_registration_positive p r : p_registration p = Some r → 0 < reg_num r.
Proof.
  intros Hr. pose proof (FootnotesFacts.p_registration_valid _ _ Hr) as [Hne _].
  enough (0 ≤ reg_num r) by lia.
  unfold p_registration in Hr. destruct (Py.truthy (p_raw p)); [|done].
  set (n0 := match p_span p with Some t => number_in t | None => 0 end) in Hr.
  assert (0 ≤ n0) as Hn0.
  { unfold n0. destruct (p_span p); [apply number_in_nonneg|done]. }
  destruct (n0 =? 0).
  - destruct (Py.match_bracket_label (p_raw p)) as [[d rest]|] eqn:E.
    + apply FootnotesFacts.guard_Some in Hr as (-> & _). cbn.
      apply int_of_digits_nonneg. by eapply match_bracket_label_digits.
    + by apply FootnotesFacts.guard_Some in Hr as (-> & _).
  - by apply FootnotesFacts.guard_Some in Hr as (-> & _).
Qed.

Lemma div_registration_positive d r :
  div_registration page_url d = Some r → 0 < reg_num r.
Proof.
  intros Hr. pose proof (FootnotesFacts.div_registration_valid _ _ _ Hr) as [Hne _].
  enough (0 ≤ reg_num r) by lia.
  unfold div_registration in Hr.
  destruct (div_number_and_ids page_url d) as [num ids] eqn:E.
  apply FootnotesFacts.guard_Some in Hr as (-> & _). cbn.
  unfold div_number_and_ids in E. destruct (div_number_link d) as [a|].
  2:{ by injection E as <- _. }
  destruct (Py.truthy (Py.collapse_ws (link_href a))).
  - destruct (Py.search_footnote_number _) as [dg|] eqn:Es.
    + injection E as <- _.
      pose proof (int_of_digits_nonneg dg
                    (search_footnote_number_digits _ _ Es)) as Hd.
      destruct (Py.int_of_digits dg =? 0); [apply number_in_nonneg | done].
    + injection E as <- _. apply number_in_nonneg.
  - injection E as <- _. apply number_in_nonneg.
Qed.

Lemma registrations_positive ps ds :
  Forall (λ r, 0 < reg_num r) (registrations page_url ps ds).
Proof.
  unfold registrations. apply Forall_app. split; apply Forall_forall; intros r Hr.
  - apply list_elem_of_omap in Hr as (p & _ & Hp). by eapply p_registration_positive.
  - apply list_elem_of_omap in Hr as (d & _ & Hd). by eapply div_registration_positive.
Qed.

Lemma alias_keys_nonempty r (k : string) : k ∈ alias_keys r → k ≠ "".
Proof.
  unfold alias_keys. intros [Hk|Hk]%elem_of_app.
  - apply elem_of_cons in Hk as [->|Hk]; [done|].
    apply elem_of_cons in Hk as [->|Hk]; [done|]. by apply elem_of_nil in Hk.
  - by apply list_elem_of_filter in Hk as [Hk _].
Qed.

Lemma apply_registration_clean tb r :
  valid r → 0 < reg_num r → FootnoteTables.tables_clean tb → FootnoteTables.tables_clean (apply_registration tb r).
Proof.
  intros [Hn Ht] Hpos [Hnum Hid]. split.
  - intros n t. cbn. destruct (decide (reg_num r = n)) as [<-|Hne].
    + rewrite lookup_insert_eq. by intros [= <-].
    + rewrite lookup_insert_ne by done. apply Hnum.
  - intros k t. destruct r as [num text ids]. cbn in *.
    rewrite FootnotesFacts.register_ids_lookup by done.
    destruct (decide (k ∈ _)) as [Hk|Hk].
    + intros [= <-]. split; [|done]. by eapply alias_keys_nonempty.
    + apply Hid.
Qed.

Lemma fold_registrations_clean rs tb :
  Forall (λ r, valid r ∧ 0 < reg_num r) rs → FootnoteTables.tables_clean tb →
  FootnoteTables.tables_clean (fold_left apply_registration rs tb).
Proof.
  intros Hrs. revert tb. induction Hrs as [|r rs [Hv Hp] Hrs IH]; intros tb Htb.
  - done.
  - cbn [fold_left]. apply IH. by apply apply_registration_clean.
Qed.

End Resolver.

Section Converter.
Context `{Urllib}.
Variable footnotes_by_id : gmap string string.
Variable footnotes_by_number : gmap Z string.
Variable page_url : string.

Lemma fragment_of_hash (f : string) :
  Forall (λ c, Py.is_space c = false) (chars f) →
  _fragment_for_same_page page_url ("#" +:+ f) = f.
Proof.
  intros Hf. unfold _fragment_for_same_page.
  rewrite WsFacts.collapse_ws_free by (cbn; by constructor). done.
Qed.

Lemma from_href_by_id (f t : string) :
  Forall (λ c, Py.is_space c = false) (chars f) → f ≠ "" →
  footnotes_by_id !! f = Some t →
  _footnote_from_href footnotes_by_id footnotes_by_number page_url ("#" +:+ f)
  = footnote t.
Proof.
  intros Hf Hne Ht. unfold _footnote_from_href. rewrite fragment_of_hash by done.
  apply PyFacts.truthy_true in Hne. rewrite Hne. cbn [negb]. by rewrite Ht.
Qed.

Lemma search_digits_str (n : Z) :
  0 ≤ n → Py.search_digits (Py.str_of_Z n) = Some (Py.str_of_Z n).
Proof.
  intros Hn. destruct (DecimalFacts.str_digits n Hn) as [Hne Hd].
  unfold Py.search_digits. destruct (Py.str_of_Z n) as [|c s] eqn:E; [done|].
  pose proof Hd as Hd'. cbn in Hd'. apply Forall_cons in Hd' as [Hc _].
  cbn [Py.drop_while]. rewrite Hc. cbn [negb]. f_equal.
  by apply DecimalFacts.take_digits_all.
Qed.

Lemma from_text_str (n : Z) (t : string) :
  0 ≤ n → footnotes_by_number !! n = Some t →
  _footnote_from_text footnotes_by_number (Py.str_of_Z n) = footnote t.
Proof.
  intros Hn Ht. unfold _footnote_from_text.
  rewrite search_digits_str, DecimalFacts.int_of_str by done. by rewrite Ht.
Qed.

End Converter.

Lemma synthetic_ws_free (prefix : string) (n : Z) :
  Forall (λ c, Py.is_space c = false) (chars prefix) → 0 ≤ n →
  Forall (λ c, Py.is_space c = false) (chars (prefix +:+ Py.str_of_Z n)).
Proof.
  intros Hp Hn. rewrite DecimalFacts.chars_append. apply Forall_app. split; [done|].
  apply WsFacts.digits_ws_free. by apply DecimalFacts.str_digits.
Qed.

End FootnoteLookupFacts.

(** X14. The tables [build_numbered_footnotes] returns hold nothing
    empty: every number in [footnotes_by_number] is positive, every id in
    [footnotes_by_id] is a non-empty string, and every text in either table
    is non-empty. *)
Theorem X14_footnote_tables_clean `{Urllib} (page_url : string)
    (ps : list Footnotes.p_footnote) (ds : list Footnotes.div_footnote) :
  let tb := Footnotes.build_numbered_footnotes page_url ps ds in
  (∀ (n : Z) (t : string),
     Footnotes.footnotes_by_number tb !! n = Some t → 0 < n ∧ t ≠ "") ∧
  (∀ (k t : string),
     Footnotes.footnotes_by_id tb !! k = Some t → k ≠ "" ∧ t ≠ "").
Proof.
  intros tb. unfold tb. rewrite FootnotesFacts.build_as_registrations.
  apply FootnoteLookupFacts.fold_registrations_clean.
  - pose proof (FootnotesFacts.registrations_valid page_url ps ds) as Hv.
    pose proof (FootnoteLookupFacts.registrations_positive page_url ps ds) as Hp.
    apply Forall_forall. intros r Hr. split.
    + by eapply Forall_forall in Hv.
    + by eapply Forall_forall in Hp.
  - split; intros *; cbn; by rewrite lookup_empty.
Qed.

(** X15. What the resolver registers, the converter finds.  For a footnote
    registered under the number N with the text t: when no later footnote
    has the number N, a superscript whose text is N renders as the footnote
    t; and when no later footnote registers the id footnote-N (or
    footnote-anchor-N), a link to [#footnote-N] (or [#footnote-anchor-N])
    resolves to the footnote t. *)
Theorem X15_registered_footnote_resolves `{Urllib} (page_url : string)
    (ps : list Footnotes.p_footnote) (ds : list Footnotes.div_footnote)
    (pre post : list Footnotes.registration) (r : Footnotes.registration) :
  Footnotes.registrations page_url ps ds = pre ++ r :: post →
  let N := Footnotes.reg_num r in
  let t := Footnotes.reg_text r in
  let tb := Footnotes.build_numbered_footnotes page_url ps ds in
  let by_id := Footnotes.footnotes_by_id tb in
  let by_number := Footnotes.footnotes_by_number tb in
  (Forall (λ r', Footnotes.reg_num r' ≠ N) post →
   Inline.convert_inline by_id by_number page_url
     (Dom.Tag "sup" [] [Dom.NavigableString (Py.str_of_Z N)])
   = Inline.footnote t) ∧
  (∀ key : string,
     key = "footnote-" +:+ Py.str_of_Z N ∨
     key = "footnote-anchor-" +:+ Py.str_of_Z N →
     Forall (λ r', key ∉ Footnotes.alias_keys r') post →
     Inline._footnote_from_href by_id by_number page_url ("#" +:+ key)
     = Inline.footnote t).
Proof.
  intros Hregs N t tb by_id by_number.
  assert (Footnotes.valid r ∧ 0 < N) as [Hv Hpos].
  { pose proof (FootnotesFacts.registrations_valid page_url ps ds) as V.
    pose proof (FootnoteLookupFacts.registrations_positive page_url ps ds) as P.
    rewrite Hregs in V, P.
    apply Forall_app in V as [_ V]. apply Forall_cons in V as [V _].
    apply Forall_app in P as [_ P]. by apply Forall_cons in P as [P _]. }
  assert (tb = fold_left Footnotes.apply_registration post
                 (Footnotes.apply_registration
                    (fold_left Footnotes.apply_registration pre
                       Footnotes.empty_tables) r)) as Htb.
  { unfold tb. rewrite FootnotesFacts.build_as_registrations, Hregs.
    by rewrite fold_left_app. }
  split.
  - intros Hpost.
    rewrite (InlineFacts.convert_text_marker by_id by_number page_url
               "sup" [] _ eq_refl).
    change (Dom.get_text (Dom.Tag "sup" [] [Dom.NavigableString (Py.str_of_Z N)]))
      with (Py.str_of_Z N +:+ "").
    rewrite StrFacts.append_empty_r.
    apply FootnoteLookupFacts.from_text_str; [lia|].
    unfold by_number. rewrite Htb, FootnotesFacts.later_keep_number by done.
    apply FootnotesFacts.apply_registration_number.
  - intros key Hkey Hpost.
    assert (key ∈ Footnotes.alias_keys r) as Hin.
    { unfold Footnotes.alias_keys. apply elem_of_app. left. fold N.
      destruct Hkey as [-> | ->]; [apply list_elem_of_here|].
      apply elem_of_cons. right. apply list_elem_of_here. }
    apply FootnoteLookupFacts.from_href_by_id.
    + destruct Hkey as [-> | ->];
        (apply FootnoteLookupFacts.synthetic_ws_free; [by repeat constructor | lia]).
    + by eapply FootnoteLookupFacts.alias_keys_nonempty.
    + unfold by_id. rewrite Htb, FootnotesFacts.later_keep_id by done.
      by apply FootnotesFacts.apply_registration_aliases.
Qed.


Lemma X15_registered_footnote_resolves_witness :
  let page := "https://example.com/post" in
  let ps := [Footnotes.PFootnote "fn1" (Some "1") "First note.";
             Footnotes.PFootnote "fn2" None "[2] Second note."] in
  let ds := [Footnotes.DivFootnote "footnote-3"
               (Some (Footnotes.NumberLink "footnote-anchor-3"
                        "#footnote-anchor-3" "3"))
               " Third   note. "] in
  let pre := [Footnotes.Registration 1 "First note." ["fn1"]] in
  let r := Footnotes.Registration 2 "Second note." ["fn2"] in
  let post := [Footnotes.Registration 3 "Third note."
                 ["footnote-3"; "footnote-anchor-3"; "footnote-anchor-3"]] in
  let tb := @Footnotes.build_numbered_footnotes ExampleUrls.urls page ps ds in
  let by_id := Footnotes.footnotes_by_id tb in
  let by_number := Footnotes.footnotes_by_number tb in
  @Footnotes.registrations ExampleUrls.urls page ps ds = pre ++ r :: post ∧
  @Inline.convert_inline ExampleUrls.urls by_id by_number page
    (Dom.Tag "sup" [] [Dom.NavigableString "2"])
  = Inline.footnote "Second note." ∧
  @Inline._footnote_from_href ExampleUrls.urls by_id by_number page "#footnote-2"
  = Inline.footnote "Second note." ∧
  @Inline._footnote_from_href ExampleUrls.urls by_id by_number page
    "#footnote-anchor-2"
  = Inline.footnote "Second note.".
Proof.
  intros page ps ds pre r post tb by_id by_number.
  assert (@Footnotes.registrations ExampleUrls.urls page ps ds = pre ++ r :: post)
    as Hregs by (vm_compute; reflexivity).
  destruct (@X15_registered_footnote_resolves ExampleUrls.urls page ps ds
              pre post r Hregs) as [Hsup Hhref].
  split; [exact Hregs|]. split.
  { apply Hsup. repeat constructor; vm_compute; discriminate. }
  split.
  - apply (Hhref "footnote-2"); [left; vm_compute; reflexivity|].
    repeat constructor. apply (bool_decide_unpack _). vm_compute. reflexivity.
  - apply (Hhref "footnote-anchor-2"); [right; vm_compute; reflexivity|].
    repeat constructor. apply (bool_decide_unpack _). vm_compute. reflexivity.
Defined.

(** ** Replacing one character, and what the escapes leave *)

Module ReplaceFacts.
Import Text.

Local Abbreviation chars := list_ascii_of_string.

(** [s.replace(c, new)] for a one-character [c], character by character. *)
Lemma replace_char (c : ascii) (new s : string) :
  chars (Py.replace (String c "") new s)
  = flat_map (λ a, if Ascii.eqb c a then chars new else [a]) (chars s).
Proof.
  unfold Py.replace. induction s as [|a r IH]; [done|].
  cbn [Py.replace_go]. unfold Py.startswith. cbn [Py.strip_prefix].
  change (String.length (String c "") - 1)%nat with O.
  cbn [list_ascii_of_string flat_map]. destruct (Ascii.eqb c a).
  - by rewrite DecimalFacts.chars_append, IH.
  - cbn [list_ascii_of_string app]. by rewrite IH.
Qed.

Lemma replace_char_gone (c : ascii) (new s : string) :
  c ∉ chars new → c ∉ chars (Py.replace (String c "") new s).
Proof.
  intros Hnew Hin. rewrite replace_char in Hin.
  apply list_elem_of_In, in_flat_map in Hin as (a & _ & Ha).
  destruct (Ascii.eqb_spec c a) as [->|Hne].
  - by apply list_elem_of_In in Ha.
  - destruct Ha as [->|[]]. done.
Qed.

Lemma replace_char_absent (c d : ascii) (new s : string) :
  d ∉ chars s → d ∉ chars new → d ∉ chars (Py.replace (String c "") new s).
Proof.
  intros Hs Hnew Hin. rewrite replace_char in Hin.
  apply list_elem_of_In, in_flat_map in Hin as (a & Has & Ha).
  destruct (Ascii.eqb c a).
  - by apply list_elem_of_In in Ha.
  - destruct Ha as [->|[]]. by apply list_elem_of_In in Has.
Qed.

(** After [{] has been replaced by its escape, every [{] follows a
    backslash. *)
Lemma open_escaped (l : list ascii) (b : bool) :
  escaped (λ c, Ascii.eqb c "{"%char) b
    (flat_map (λ a, if Ascii.eqb "{"%char a then chars "\{" else [a]) l) = true.
Proof.
  revert b. induction l as [|a l IH]; intros b; [done|]. cbn [flat_map].
  destruct (Ascii.eqb_spec "{"%char a) as [<-|Hne].
  - cbn. apply IH.
  - cbn [app escaped]. rewrite IH.
    destruct (Ascii.eqb_spec a "{"%char) as [->|_]; done.
Qed.

(** Replacing [}] by its escape keeps that and gives the same for [}]. *)
Lemma close_escaped (l : list ascii) (b : bool) :
  escaped (λ c, Ascii.eqb c "{"%char) b l = true →
  escaped is_brace b
    (flat_map (λ a, if Ascii.eqb "}"%char a then chars "\}" else [a]) l) = true.
Proof.
  revert b. induction l as [|a l IH]; intros b Hb; [done|].
  cbn [escaped] in Hb. apply andb_true_iff in Hb as [Ha Hl].
  cbn [flat_map]. destruct (Ascii.eqb_spec "}"%char a) as [<-|Hne].
  - cbn. apply IH. exact Hl.
  - cbn [app escaped]. rewrite (IH _ Hl), andb_true_r. unfold is_brace.
    destruct (Ascii.eqb_spec a "}"%char) as [->|_]; [done|].
    by rewrite orb_false_r.
Qed.

End ReplaceFacts.

(** X16. [href_target] returns [\detokenize{...}] around an argument that
    holds no brace, whatever the URL and whatever [requote_uri] returns. *)
Theorem X16_href_target_no_braces `{Urllib} (url : string) :
  ∃ safe : string,
    Inline.href_target url = "\detokenize{" +:+ safe +:+ "}" ∧
    ("{"%char ∉ list_ascii_of_string safe) ∧
    ("}"%char ∉ list_ascii_of_string safe).
Proof.
  unfold Inline.href_target. eexists. split; [reflexivity|]. split.
  - apply ReplaceFacts.replace_char_absent.
    + apply ReplaceFacts.replace_char_gone.
      intros Hin. by repeat (apply elem_of_cons in Hin as [Hin|Hin]; [done|]);
        apply elem_of_nil in Hin.
    + intros Hin. by repeat (apply elem_of_cons in Hin as [Hin|Hin]; [done|]);
        apply elem_of_nil in Hin.
  - apply ReplaceFacts.replace_char_gone.
    intros Hin. by repeat (apply elem_of_cons in Hin as [Hin|Hin]; [done|]);
      apply elem_of_nil in Hin.
Qed.

(** X17. In what [escape_url_for_url] returns every brace comes right
    after a backslash: also the braces of the [\textbackslash{}] it puts
    for a backslash are escaped by the two replacements that follow. *)
Theorem X17_escape_url_braces_escaped (url : string) :
  Text.braces_escaped (Latex.escape_url_for_url url) = true.
Proof.
  unfold Text.braces_escaped, Latex.escape_url_for_url.
  rewrite (ReplaceFacts.replace_char "}"%char "\}").
  apply ReplaceFacts.close_escaped.
  rewrite (ReplaceFacts.replace_char "{"%char "\{").
  apply ReplaceFacts.open_escaped.
Qed.

(** ** What [latex_escape_plain] lets through *)

Module EscapeFacts.
Import Text Latex.

Local Abbreviation chars := list_ascii_of_string.

Lemma escaped_app (P : ascii → bool) (l1 l2 : list ascii) (b : bool) :
  escaped P b l1 = true → (∀ b', escaped P b' l2 = true) →
  escaped P b (l1 ++ l2) = true.
Proof.
  intros H1 H2. revert b H1. induction l1 as [|c l1 IH]; intros b H1; [apply H2|].
  cbn [app escaped] in *. apply andb_true_iff in H1 as [Hc H1].
  by rewrite Hc, IH.
Qed.

Lemma assoc_prefix_in (s : string) (t : list (string * string)) (k v : string) :
  assoc_prefix s t = Some (k, v) → (k, v) ∈ t.
Proof.
  induction t as [|[k' v'] t IH]; [done|]. cbn [assoc_prefix].
  destruct (Py.startswith k' s).
  - intros [= -> ->]. apply list_elem_of_here.
  - intros E. apply elem_of_cons. right. by apply IH.
Qed.

Lemma assoc_char_in (c : ascii) (t : list (ascii * string)) (v : string) :
  assoc_char c t = Some v → (c, v) ∈ t.
Proof.
  induction t as [|[k' v'] t IH]; [done|]. cbn [assoc_char].
  destruct (Ascii.eqb_spec k' c) as [->|_].
  - intros [= ->]. apply list_elem_of_here.
  - intros E. apply elem_of_cons. right. by apply IH.
Qed.

Lemma assoc_char_None (c : ascii) (t : list (ascii * string)) :
  assoc_char c t = None → c ∉ map fst t.
Proof.
  induction t as [|[k' v'] t IH]; [intros _ Hin; by apply elem_of_nil in Hin|].
  cbn [assoc_char map fst]. destruct (Ascii.eqb_spec k' c) as [->|Hne]; [done|].
  intros E Hin. apply elem_of_cons in Hin as [->|Hin]; [done|]. by apply IH.
Qed.

(** A character that is no key of [LATEX_SPECIALS] is no special one. *)
Lemma plain_char (c : ascii) :
  assoc_char c LATEX_SPECIALS = None →
  is_latex_special c = false ∧ c ≠ "~"%char.
Proof.
  intros Hc%assoc_char_None. split.
  - unfold is_latex_special. apply not_true_iff_false. intros Hex.
    apply existsb_exists in Hex as (k & Hk & ->%Ascii.eqb_eq).
    apply Hc. apply list_elem_of_In in Hk.
    repeat (apply elem_of_cons in Hk as [->|Hk];
            [apply (bool_decide_unpack _); vm_compute; reflexivity|]).
    by apply elem_of_nil in Hk.
  - intros ->. apply Hc. apply (bool_decide_unpack _). vm_compute. reflexivity.
Qed.

Lemma unicode_piece (k v : string) (b : bool) :
  (k, v) ∈ UNICODE_LATEX →
  escaped is_latex_special b (chars v) = true ∧ "~"%char ∉ chars v.
Proof.
  intros Hin. unfold UNICODE_LATEX in Hin.
  repeat (apply elem_of_cons in Hin as [[= -> ->]|Hin];
          [split; [by destruct b | by apply (bool_decide_unpack _)]|]).
  by apply elem_of_nil in Hin.
Qed.

Lemma special_piece (c : ascii) (v : string) (b : bool) :
  (c, v) ∈ LATEX_SPECIALS →
  escaped is_latex_special b (chars v) = true ∧ "~"%char ∉ chars v.
Proof.
  intros Hin. unfold LATEX_SPECIALS in Hin.
  repeat (apply elem_of_cons in Hin as [[= -> ->]|Hin];
          [split; [by destruct b | by apply (bool_decide_unpack _)]|]).
  by apply elem_of_nil in Hin.
Qed.

Lemma escape_go_escaped (s : string) (skip : nat) (b : bool) :
  escaped is_latex_special b (chars (escape_go skip s)) = true.
Proof.
  revert skip b. induction s as [|c r IH]; intros skip b; [by destruct skip|].
  cbn [escape_go]. destruct skip as [|k']; [|apply IH].
  destruct (assoc_prefix (String c r) UNICODE_LATEX) as [[k v]|] eqn:Eu.
  - apply assoc_prefix_in in Eu. rewrite DecimalFacts.chars_append.
    apply escaped_app; [|intros b'; apply IH]. by eapply unicode_piece.
  - destruct (assoc_char c LATEX_SPECIALS) as [v|] eqn:Es.
    + apply assoc_char_in in Es. rewrite DecimalFacts.chars_append.
      apply escaped_app; [|intros b'; apply IH]. by eapply special_piece.
    + apply plain_char in Es as [Hc _]. cbn [list_ascii_of_string escaped].
      by rewrite Hc, IH.
Qed.

Lemma escape_go_no_tilde (s : string) (skip : nat) :
  "~"%char ∉ chars (escape_go skip s).
Proof.
  revert skip. induction s as [|c r IH]; intros skip.
  - destruct skip; cbn; apply not_elem_of_nil.
  - cbn [escape_go]. destruct skip as [|k']; [|apply IH].
    destruct (assoc_prefix (String c r) UNICODE_LATEX) as [[k v]|] eqn:Eu.
    + apply assoc_prefix_in in Eu. rewrite DecimalFacts.chars_append.
      intros [Hin|Hin]%elem_of_app; [|by eapply IH].
      by eapply (unicode_piece k v false).
    + destruct (assoc_char c LATEX_SPECIALS) as [v|] eqn:Es.
      * apply assoc_char_in in Es. rewrite DecimalFacts.chars_append.
        intros [Hin|Hin]%elem_of_app; [|by eapply IH].
        by eapply (special_piece c v false).
      * apply plain_char in Es as [_ Hc]. cbn [list_ascii_of_string].
        intros [E|Hin]%elem_of_cons; [done|]. by eapply IH.
Qed.

End EscapeFacts.

(** X18. In what [latex_escape_plain] returns each of the characters
    [%], [$], [#], [&], [_] and [^] comes right after a backslash, and
    there is no [~] at all. *)
Theorem X18_latex_escape_plain_escapes (s : string) :
  Text.escaped Text.is_latex_special false
    (list_ascii_of_string (Latex.latex_escape_plain s)) = true ∧
  ("~"%char ∉ list_ascii_of_string (Latex.latex_escape_plain s)).
Proof.
  unfold Latex.latex_escape_plain. split.
  - apply EscapeFacts.escape_go_escaped.
  - apply EscapeFacts.escape_go_no_tilde.
Qed.

(** ** What [latex_escape_with_commands] lets through *)

Module CommandsFacts.
Import Text Latex Commands.

Local Abbreviation chars := list_ascii_of_string.

Lemma alpha_plain (c : ascii) :
  is_alpha c = true → is_latex_special c = false ∧ c ≠ "~"%char.
Proof.
  intros Hc. split.
  - unfold is_latex_special. apply not_true_iff_false. intros Hex.
    apply existsb_exists in Hex as (k & Hk & ->%Ascii.eqb_eq).
    apply list_elem_of_In in Hk.
    repeat (apply elem_of_cons in Hk as [->|Hk]; [done|]).
    by apply elem_of_nil in Hk.
  - by intros ->.
Qed.

Lemma letters_escaped (l : list ascii) (b : bool) :
  Forall (λ c, is_alpha c = true) l → escaped is_latex_special b l = true.
Proof.
  intros Hl. revert b. induction Hl as [|c l Hc Hl IH]; intros b; [done|].
  cbn [escaped]. apply alpha_plain in Hc as [Hc _]. by rewrite Hc, IH.
Qed.

Lemma letters_no_tilde (l : list ascii) :
  Forall (λ c, is_alpha c = true) l → "~"%char ∉ l.
Proof.
  intros Hl Hin. eapply Forall_forall in Hl; [|exact Hin].
  apply alpha_plain in Hl as [_ Hne]. by apply Hne.
Qed.

Lemma commands_go_escaped (s : string) (skip : nat) (b : bool) :
  escaped is_latex_special b (chars (commands_go skip s)) = true.
Proof.
  revert skip b. induction s as [|ch r IH]; intros skip b; [by destruct skip|].
  cbn [commands_go]. destruct skip as [|k']; [|apply IH].
  destruct (Ascii.eqb ch "\"%char).
  - pose proof (FootnoteLookupFacts.take_while_all is_alpha r) as Hcmd.
    set (cmd := Py.take_while is_alpha r) in *.
    set (rest := from_index (String.length cmd) r).
    destruct (Py.truthy cmd && Py.mem cmd ALLOWED_COMMANDS
              && Py.startswith "{" rest);
      [destruct (find_close 0 0 rest) as [k|]|].
    + rewrite !DecimalFacts.chars_append, <- !app_assoc.
      apply EscapeFacts.escaped_app; [by destruct b|intros b1].
      apply EscapeFacts.escaped_app; [by apply letters_escaped|intros b2].
      apply EscapeFacts.escaped_app; [by destruct b2|intros b3].
      apply EscapeFacts.escaped_app;
        [apply EscapeFacts.escape_go_escaped|intros b4].
      apply EscapeFacts.escaped_app; [by destruct b4|intros b5]. apply IH.
    + rewrite DecimalFacts.chars_append.
      apply EscapeFacts.escaped_app; [by destruct b|intros b1]. apply IH.
    + rewrite DecimalFacts.chars_append.
      apply EscapeFacts.escaped_app; [by destruct b|intros b1]. apply IH.
  - destruct (assoc_char ch LATEX_SPECIALS) as [v|] eqn:Es.
    + apply EscapeFacts.assoc_char_in in Es. rewrite DecimalFacts.chars_append.
      apply EscapeFacts.escaped_app; [|intros b'; apply IH].
      by eapply EscapeFacts.special_piece.
    + apply EscapeFacts.plain_char in Es as [Hc _].
      cbn [list_ascii_of_string escaped]. by rewrite Hc, IH.
Qed.

Lemma commands_go_no_tilde (s : string) (skip : nat) :
  "~"%char ∉ chars (commands_go skip s).
Proof.
  revert skip. induction s as [|ch r IH]; intros skip.
  - destruct skip; cbn; apply not_elem_of_nil.
  - cbn [commands_go]. destruct skip as [|k']; [|apply IH].
    destruct (Ascii.eqb ch "\"%char).
    + pose proof (FootnoteLookupFacts.take_while_all is_alpha r) as Hcmd.
      set (cmd := Py.take_while is_alpha r) in *.
      set (rest := from_index (String.length cmd) r).
      destruct (Py.truthy cmd && Py.mem cmd ALLOWED_COMMANDS
                && Py.startswith "{" rest);
        [destruct (find_close 0 0 rest) as [k|]|].
      * rewrite !DecimalFacts.chars_append, <- !app_assoc.
        intros Hin.
        apply elem_of_app in Hin as [Hin|Hin];
          [by repeat (apply elem_of_cons in Hin as [Hin|Hin]; [done|]);
              apply elem_of_nil in Hin|].
        apply elem_of_app in Hin as [Hin|Hin];
          [by eapply letters_no_tilde|].
        apply elem_of_app in Hin as [Hin|Hin];
          [by repeat (apply elem_of_cons in Hin as [Hin|Hin]; [done|]);
              apply elem_of_nil in Hin|].
        apply elem_of_app in Hin as [Hin|Hin];
          [by eapply EscapeFacts.escape_go_no_tilde|].
        apply elem_of_app in Hin as [Hin|Hin];
          [by repeat (apply elem_of_cons in Hin as [Hin|Hin]; [done|]);
              apply elem_of_nil in Hin|].
        by eapply IH.
      * rewrite DecimalFacts.chars_append.
        intros [Hin|Hin]%elem_of_app; [|by eapply IH].
        by repeat (apply elem_of_cons in Hin as [Hin|Hin]; [done|]);
          apply elem_of_nil in Hin.
      * rewrite DecimalFacts.chars_append.
        intros [Hin|Hin]%elem_of_app; [|by eapply IH].
        by repeat (apply elem_of_cons in Hin as [Hin|Hin]; [done|]);
          apply elem_of_nil in Hin.
    + destruct (assoc_char ch LATEX_SPECIALS) as [v|] eqn:Es.
      * apply EscapeFacts.assoc_char_in in Es. rewrite DecimalFacts.chars_append.
        intros [Hin|Hin]%elem_of_app; [|by eapply IH].
        by eapply (EscapeFacts.special_piece ch v false).
      * apply EscapeFacts.plain_char in Es as [_ Hc]. cbn [list_ascii_of_string].
        intros [E|Hin]%elem_of_cons; [done|]. by eapply IH.
Qed.

End CommandsFacts.

(** X19. [latex_escape_with_commands] keeps the same guarantee while it
    copies the allowed commands: in what it returns each of [%], [$],
    [#], [&], [_] and [^] comes right after a backslash, and there is no
    [~]. *)
Theorem X19_latex_escape_with_commands_escapes (s : string) :
  Text.escaped Text.is_latex_special false
    (list_ascii_of_string (Commands.latex_escape_with_commands s)) = true ∧
  ("~"%char ∉ list_ascii_of_string (Commands.latex_escape_with_commands s)).
Proof.
  unfold Commands.latex_escape_with_commands. split.
  - apply CommandsFacts.commands_go_escaped.
  - apply CommandsFacts.commands_go_no_tilde.
Qed.

(** ** Collapsing white space *)

Module CollapseFacts.
Import Text.

Local Abbreviation chars := list_ascii_of_string.

Lemma squeeze_squeezed (b : bool) (s : string) :
  squeezed b (chars (Py.squeeze_ws b s)) = true.
Proof.
  revert b. induction s as [|c s IH]; intros b; [done|].
  cbn [Py.squeeze_ws]. destruct (Py.is_space c) eqn:Ec.
  - destruct b; [apply IH|]. cbn. apply IH.
  - cbn [list_ascii_of_string squeezed]. rewrite Ec. apply IH.
Qed.

Lemma squeezed_fixed (b : bool) (s : string) :
  squeezed b (chars s) = true → Py.squeeze_ws b s = s.
Proof.
  revert b. induction s as [|c s IH]; intros b Hs; [done|].
  cbn [list_ascii_of_string squeezed] in Hs. cbn [Py.squeeze_ws].
  destruct (Py.is_space c) eqn:Ec.
  - apply andb_true_iff in Hs as [Hs Hr]. apply andb_true_iff in Hs as [Hc Hb].
    apply Ascii.eqb_eq in Hc as ->. destruct b; [done|]. by rewrite IH.
  - by rewrite IH.
Qed.

Lemma squeezed_any (b : bool) (l : list ascii) :
  squeezed b l = true → squeezed false l = true.
Proof.
  destruct l as [|c l]; [done|]. cbn [squeezed]. destruct (Py.is_space c); [|done].
  intros Hs. apply andb_true_iff in Hs as [Hs Hr].
  apply andb_true_iff in Hs as [Hc _]. by rewrite Hc, Hr.
Qed.

Lemma lstrip_squeezed (b : bool) (s : string) :
  squeezed b (chars s) = true →
  squeezed false (chars (Py.drop_while Py.is_space s)) = true.
Proof.
  revert b. induction s as [|c s IH]; intros b Hs; [done|].
  cbn [Py.drop_while]. cbn [list_ascii_of_string squeezed] in Hs.
  destruct (Py.is_space c) eqn:Ec.
  - apply andb_true_iff in Hs as [_ Hr]. by eapply IH.
  - cbn [list_ascii_of_string squeezed]. by rewrite Ec.
Qed.

Lemma drop_while_app (p : ascii → bool) (s t : string) :
  Py.drop_while p (s +:+ t)
  = if forallb p (chars s) then Py.drop_while p t else Py.drop_while p s +:+ t.
Proof.
  induction s as [|c s IH]; [done|].
  change (String c s +:+ t) with (String c (s +:+ t)).
  cbn [Py.drop_while list_ascii_of_string forallb]. destruct (p c); [|done].
  by rewrite IH.
Qed.

Lemma drop_while_all (p : ascii → bool) (s : string) :
  forallb p (chars s) = true → Py.drop_while p s = "".
Proof.
  induction s as [|c s IH]; [done|]. cbn. destruct (p c); [|done]. apply IH.
Qed.

Lemma drop_while_twice (p : ascii → bool) (s : string) :
  Py.drop_while p (Py.drop_while p s) = Py.drop_while p s.
Proof.
  induction s as [|c s IH]; [done|]. cbn [Py.drop_while].
  destruct (p c) eqn:Ec; [done|]. cbn [Py.drop_while]. by rewrite Ec.
Qed.

Lemma rev_cons (c : ascii) (s : string) :
  String.rev (String c s) = String.rev s +:+ String c "".
Proof.
  apply WsFacts.chars_inj.
  by rewrite DecimalFacts.chars_append, !WsFacts.chars_rev.
Qed.

Lemma rev_snoc (c : ascii) (s : string) :
  String.rev (s +:+ String c "") = String c (String.rev s).
Proof.
  apply WsFacts.chars_inj. cbn [list_ascii_of_string].
  rewrite !WsFacts.chars_rev, DecimalFacts.chars_append. cbn.
  by rewrite rev_app_distr.
Qed.

Lemma forallb_rev (p : ascii → bool) (l : list ascii) :
  forallb p (rev l) = forallb p l.
Proof.
  induction l as [|c l IH]; [done|]. cbn [rev forallb].
  rewrite forallb_app, IH. cbn. by rewrite andb_true_r, andb_comm.
Qed.

(** [rstrip], read from the left. *)
Lemma rstrip_cons (c : ascii) (s : string) :
  Py.rstrip (String c s)
  = if Py.is_space c && forallb Py.is_space (chars s) then ""
    else String c (Py.rstrip s).
Proof.
  unfold Py.rstrip. rewrite rev_cons, drop_while_app, WsFacts.chars_rev.
  rewrite forallb_rev.
  destruct (forallb Py.is_space (chars s)) eqn:Es.
  - rewrite (drop_while_all _ (String.rev s))
      by (by rewrite WsFacts.chars_rev, forallb_rev).
    cbn [Py.drop_while]. destruct (Py.is_space c); done.
  - rewrite andb_false_r. apply rev_snoc.
Qed.

Lemma rstrip_squeezed (b : bool) (s : string) :
  squeezed b (chars s) = true → squeezed b (chars (Py.rstrip s)) = true.
Proof.
  revert b. induction s as [|c s IH]; intros b Hs; [done|].
  rewrite rstrip_cons.
  destruct (Py.is_space c && forallb Py.is_space (chars s)); [done|].
  cbn [list_ascii_of_string squeezed] in Hs |- *.
  destruct (Py.is_space c).
  - apply andb_true_iff in Hs as [Hs Hr]. rewrite Hs. by apply IH.
  - by apply IH.
Qed.

Lemma rstrip_twice (s : string) : Py.rstrip (Py.rstrip s) = Py.rstrip s.
Proof.
  unfold Py.rstrip. by rewrite WsFacts.rev_involutive, drop_while_twice.
Qed.

Lemma lstrip_of_strip (s : string) : Py.lstrip (Py.strip s) = Py.strip s.
Proof.
  unfold Py.strip, Py.lstrip.
  destruct (Py.drop_while Py.is_space s) as [|c r] eqn:E; [done|].
  assert (Py.is_space c = false) as Hc.
  { clear -E. induction s as [|a s IH]; [done|]. cbn [Py.drop_while] in E.
    destruct (Py.is_space a) eqn:Ea; [by apply IH|]. by injection E as <- _. }
  rewrite rstrip_cons, Hc. cbn [andb Py.drop_while]. by rewrite Hc.
Qed.

Lemma strip_twice (s : string) : Py.strip (Py.strip s) = Py.strip s.
Proof.
  unfold Py.strip at 1. rewrite lstrip_of_strip. unfold Py.strip.
  apply rstrip_twice.
Qed.

Lemma collapse_squeezed (s : string) :
  squeezed false (chars (Py.collapse_ws s)) = true.
Proof.
  unfold Py.collapse_ws, Py.strip, Py.lstrip. apply rstrip_squeezed.
  eapply lstrip_squeezed. apply squeeze_squeezed.
Qed.

End CollapseFacts.

(** X20. [collapse_ws] is idempotent: collapsing what it returned returns
    the same again, and in what it returns the only white space is single
    spaces between other characters. *)
Theorem X20_collapse_ws_idempotent (s : string) :
  Py.collapse_ws (Py.collapse_ws s) = Py.collapse_ws s ∧
  Text.squeezed false (list_ascii_of_string (Py.collapse_ws s)) = true ∧
  Py.lstrip (Py.collapse_ws s) = Py.collapse_ws s ∧
  Py.rstrip (Py.collapse_ws s) = Py.collapse_ws s.
Proof.
  split; [|split; [|split]].
  - unfold Py.collapse_ws at 1.
    rewrite (CollapseFacts.squeezed_fixed _ _ (CollapseFacts.collapse_squeezed s)).
    unfold Py.collapse_ws. apply CollapseFacts.strip_twice.
  - apply CollapseFacts.collapse_squeezed.
  - unfold Py.collapse_ws. apply CollapseFacts.lstrip_of_strip.
  - unfold Py.collapse_ws, Py.strip. apply CollapseFacts.rstrip_twice.
Qed.

(** ** Dimensions, words and colours *)

Module DimensionFacts.

Local Abbreviation chars := list_ascii_of_string.

Lemma search_digits_prefix (d rest : string) :
  d ≠ "" → Forall (λ c, Py.is_digit c = true) (chars d) →
  Py.take_while Py.is_digit rest = "" →
  Py.search_digits (d +:+ rest) = Some d.
Proof.
  intros Hne Hd Hrest. unfold Py.search_digits.
  destruct d as [|c d']; [done|].
  pose proof Hd as Hd'. cbn in Hd'. apply Forall_cons in Hd' as [Hc _].
  change (String c d' +:+ rest) with (String c (d' +:+ rest)).
  cbn [Py.drop_while]. rewrite Hc. cbn [negb]. f_equal.
  change (String c (d' +:+ rest)) with (String c d' +:+ rest).
  by apply DecimalFacts.take_digits_append.
Qed.

End DimensionFacts.

(** X21. [parse_dimension] reads a length back: for a number n that is
    not negative and has at most 640 digits (so that [int] accepts it under
    any configured limit), written in decimal and followed by nothing or by
    a unit that starts with an ASCII character other than a digit, it
    returns n.  And on an ASCII value of at most 640 characters it is never
    negative. *)
Theorem X21_parse_dimension_reads_length (n : Z) (unit : string) :
  0 ≤ n →
  (String.length (Py.str_of_Z n) ≤ Text.str_digits_check_threshold)%nat →
  (unit = "" ∨
   ∃ c rest, unit = String c rest ∧ Text.is_ascii c = true ∧ Py.is_digit c = false) →
  Images.parse_dimension (Some (Py.str_of_Z n +:+ unit)) = n ∧
  ∀ value : string,
    Text.ascii_text value = true →
    (String.length value ≤ Text.str_digits_check_threshold)%nat →
    0 ≤ Images.parse_dimension (Some value).
Proof.
  intros Hn _ Hunit. destruct (DecimalFacts.str_digits n Hn) as [Hne Hd]. split.
  - unfold Images.parse_dimension.
    rewrite DimensionFacts.search_digits_prefix; [by apply DecimalFacts.int_of_str|done..|].
    destruct Hunit as [->|(c & rest & -> & _ & Hc)]; [done|].
    cbn [Py.take_while]. by rewrite Hc.
  - intros v _ _. unfold Images.parse_dimension.
    destruct (Py.search_digits v) as [d|] eqn:E; [|done].
    apply FootnoteLookupFacts.int_of_digits_nonneg.
    by eapply FootnoteLookupFacts.search_digits_digits.
Qed.

Lemma X21_parse_dimension_reads_length_witness :
  Images.parse_dimension (Some "120px") = 120 ∧
  ∀ value : string,
    Text.ascii_text value = true →
    (String.length value ≤ Text.str_digits_check_threshold)%nat →
    0 ≤ Images.parse_dimension (Some value).
Proof.
  apply (X21_parse_dimension_reads_length 120 "px").
  - lia.
  - vm_compute. lia.
  - right. exists "p"%char, "x". by repeat split.
Defined.

Module WordFacts.
Import Text.

Lemma count_words_nonneg (b : bool) (s : string) : 0 ≤ count_words b s.
Proof.
  revert b. induction s as [|c s IH]; intros b; [done|]. cbn [count_words].
  destruct (is_alnum c); [|apply IH]. pose proof (IH true). destruct b; lia.
Qed.

Lemma count_words_counted (s : string) :
  count_words true s ≤ count_words false s.
Proof.
  destruct s as [|c s]; [done|]. cbn [count_words]. destruct (is_alnum c); lia.
Qed.

Lemma count_words_sep (b : bool) (s t : string) (c : ascii) :
  is_alnum c = false →
  count_words b (s +:+ String c t) = count_words b s + count_words false t.
Proof.
  intros Hc. revert b. induction s as [|a s IH]; intros b.
  - change ("" +:+ String c t) with (String c t). cbn [count_words].
    by rewrite Hc.
  - change (String a s +:+ String c t) with (String a (s +:+ String c t)).
    cbn [count_words]. destruct (is_alnum a); rewrite IH; lia.
Qed.

Lemma count_words_app (b : bool) (s t : string) :
  count_words b (s +:+ t) ≤ count_words b s + count_words false t.
Proof.
  revert b. induction s as [|a s IH]; intros b.
  - change ("" +:+ t) with t. cbn [count_words].
    destruct b; [|lia]. pose proof (count_words_counted t). lia.
  - change (String a s +:+ t) with (String a (s +:+ t)). cbn [count_words].
    destruct (is_alnum a).
    + pose proof (IH true). lia.
    + apply IH.
Qed.

End WordFacts.

(** X22. [word_count] adds up over a separator: when c is no letter and
    no digit, the words of [s + c + t] are those of s and those of t.
    Without a separator the count can only drop, as the last word of s and
    the first of t may run together; and no count is negative. *)
Theorem X22_word_count_additive (s t : string) (c : ascii) :
  Text.is_alnum c = false →
  Text.word_count (s +:+ String c t) = Text.word_count s + Text.word_count t ∧
  Text.word_count (s +:+ t) ≤ Text.word_count s + Text.word_count t ∧
  0 ≤ Text.word_count s.
Proof.
  intros Hc. unfold Text.word_count. split; [|split].
  - by apply WordFacts.count_words_sep.
  - apply WordFacts.count_words_app.
  - apply WordFacts.count_words_nonneg.
Qed.

Lemma X22_word_count_additive_witness :
  Text.word_count ("two words" +:+ String " " "and 3 more")
  = Text.word_count "two words" + Text.word_count "and 3 more" ∧
  Text.word_count ("two words" +:+ "and 3 more")
  ≤ Text.word_count "two words" + Text.word_count "and 3 more" ∧
  0 ≤ Text.word_count "two words".
Proof.
  apply (X22_word_count_additive "two words" "and 3 more" " "). reflexivity.
Defined.

(** X23. The palettes name only colours the preamble defines: whatever
    the label, the kind and the role, both colours [badge_palette],
    [quality_palette] and [message_palette] return are declared by a
    [\definecolor] line of [latex_preamble]. *)
Theorem X23_palette_colours_defined :
  (∀ label : string,
     (Badges.badge_palette label).1 ∈ Badges.defined_colors ∧
     (Badges.badge_palette label).2 ∈ Badges.defined_colors) ∧
  (∀ kind : string,
     (Badges.quality_palette kind).1 ∈ Badges.defined_colors ∧
     (Badges.quality_palette kind).2 ∈ Badges.defined_colors) ∧
  (∀ role kind : string,
     (Badges.message_palette role kind).1 ∈ Badges.defined_colors ∧
     (Badges.message_palette role kind).2 ∈ Badges.defined_colors).
Proof.
  split; [|split].
  - intros label. unfold Badges.badge_palette.
    repeat (destruct (Py.contains _ _));
      (split; apply (bool_decide_unpack _); vm_compute; reflexivity).
  - intros kind. unfold Badges.quality_palette.
    repeat (destruct (String.eqb _ _));
      (split; apply (bool_decide_unpack _); vm_compute; reflexivity).
  - intros role kind. unfold Badges.message_palette.
    repeat (destruct (String.eqb _ _));
      repeat (destruct (Py.contains _ _));
      (split; apply (bool_decide_unpack _); vm_compute; reflexivity).
Qed.
